(** * pdf2dwg: vector path reconstruction and primitive detection

    A shallow embedding of [src/pdf2dwg/pdf_extractor.py]: the [Point]
    data class, the Bezier flatteners, the sub-path reconstruction loop of
    [_extract_drawings], the classifier [_save_path_entity], and the two
    post-processing sweeps [detect_circles_and_arcs] and [detect_ellipses]
    with their fitters.

    Numbers.  Python floats are embedded as exact rationals ([Q]); every
    comparison of the source is the corresponding boolean comparison on
    [Q], and a float literal is the decimal it is written as, except the
    threshold [0.95] of [detect_ellipses], which is the binary64 value the
    interpreter compares with ([float_0_95]).  NaN and the infinities have
    no counterpart, except [float('inf')] as a fitting error ([ExtQ]).
    Arithmetic is exact: what is stated of the model is what also holds of
    the rounded operations of the source (order, signs, closed ranges,
    counts, structure), not identities or strict bounds that rounding
    breaks.  Where rounding decides a property, the function is embedded a
    second time on binary64 numbers as they are (module [F64], on Rocq's
    primitive floats, which compute as IEEE 754 binary64 does).

    Libraries.  Functions of [math] and [numpy] that are not rational
    ([math.sqrt], [math.atan2], [math.cos], [math.sin],
    [numpy.linalg.lstsq], [numpy.linalg.inv], [numpy.linalg.eig]) are
    parameters of the development: theorems hold for every implementation
    of them, and the [numpy] ones may raise any exception on any input.
    The examples run the model with the rational stand-ins of module
    [DemoLib].  [math.sqrt] is only applied to sums of squares and to
    quantities tested positive, so it is taken total.

    Exceptions.  Code that may raise is embedded in the [outcome] monad;
    [try ... except Exception] is [try_except].

    Further parts.  After the extractor come the text extractor
    [_extract_text], the conversions of [src/pdf2dwg/dxf_writer.py] that do
    not go through [ezdxf] (colours, line types, line weights, layers) with
    [merge_pages_to_dxf], the page selection and detection stage of
    [src/pdf2dwg/converter.py], and the progress bar of
    [src/pdf2dwg/cli.py].  What belongs to [ezdxf], to the file system or
    to PyMuPDF is a parameter there too. *)

From Stdlib Require Import ZArith QArith Qabs Qround Qreduction Lia Lqa List Bool String.
From Stdlib Require Import Ascii DecimalString.
From Stdlib Require PrimFloat.
Import ListNotations.

Open Scope Q_scope.

(** ** Python runtime: exceptions, numbers, builtins *)

Module Py.

Inductive exn : Type :=
| ZeroDivisionError
| ValueError
| IndexError
| ImportError
| LinAlgError
| OtherError.

Inductive outcome (A : Type) : Type :=
| Returned (a : A)
| Raised (e : exn).
Arguments Returned {A} a.
Arguments Raised {A} e.

Definition bind {A B : Type} (m : outcome A) (k : A -> outcome B) : outcome B :=
  match m with
  | Returned a => k a
  | Raised e => Raised e
  end.

(** [try: body / except Exception: handler] *)
Definition try_except {A : Type} (body : outcome A) (handler : A) : outcome A :=
  match body with
  | Returned a => Returned a
  | Raised _ => Returned handler
  end.

(** [try: body / except np.linalg.LinAlgError: handler] *)
Definition try_except_LinAlgError {A : Type} (body : outcome A) (handler : outcome A)
  : outcome A :=
  match body with
  | Raised LinAlgError => handler
  | other => other
  end.

(** Comparisons of floats. *)
Definition ltb (a b : Q) : bool := negb (Qle_bool b a).
Definition leb (a b : Q) : bool := Qle_bool a b.
Definition gtb (a b : Q) : bool := ltb b a.
Definition geb (a b : Q) : bool := leb b a.
Definition eqb (a b : Q) : bool := Qeq_bool a b.

(** [a / b] on floats raises on a zero divisor. *)
Definition div (a b : Q) : outcome Q :=
  if Qeq_bool b 0 then Raised ZeroDivisionError else Returned (a / b).

(** [int(x)]: truncation toward zero. *)
Definition int (x : Q) : Z := Z.quot (Qnum x) (Zpos (Qden x)).

(** [min(a, b)] and [max(a, b)]: the first argument wins ties. *)
Definition min (a b : Q) : Q := if ltb b a then b else a.
Definition max (a b : Q) : Q := if gtb b a then b else a.

(** [min(g)] and [max(g)] over a non-empty generator. *)
Definition min_list (d : Q) (l : list Q) : Q :=
  match l with
  | [] => d
  | a :: r => fold_left min r a
  end.
Definition max_list (d : Q) (l : list Q) : Q :=
  match l with
  | [] => d
  | a :: r => fold_left max r a
  end.

(** [sum(l)]; the running total is kept in lowest terms. *)
Definition sum (l : list Q) : Q := fold_left (fun acc v => Qred (acc + v)) l 0.

(** [round(x, 6)]: to the nearest multiple of 1e-6, ties to even. *)
Definition round_half_even (s : Q) : Z :=
  let f := Qfloor s in
  let d := s - inject_Z f in
  if ltb d (1 # 2) then f
  else if ltb (1 # 2) d then (f + 1)%Z
  else if Z.even f then f else (f + 1)%Z.

Definition round6 (x : Q) : Q :=
  inject_Z (round_half_even (x * 1000000)) / 1000000.

(** *** [hash] of a float and of a tuple (CPython, 64-bit build)

    A float hashes as the rational it denotes, modulo the prime
    [2^61 - 1]; a tuple mixes the hashes of its items in 64-bit
    wrap-around arithmetic. *)

Definition hash_modulus : Z := (2 ^ 61 - 1)%Z.

Fixpoint pow_mod_pos (b : Z) (e : positive) (m : Z) : Z :=
  match e with
  | xH => (b mod m)%Z
  | xO e' => let r := pow_mod_pos b e' m in ((r * r) mod m)%Z
  | xI e' => let r := pow_mod_pos b e' m in ((((r * r) mod m) * b) mod m)%Z
  end.

Definition pow_mod (b e m : Z) : Z :=
  match e with
  | Zpos p => pow_mod_pos b p m
  | _ => (1 mod m)%Z
  end.

Definition hash_float (x : Q) : Z :=
  let P := hash_modulus in
  let m := Qnum x in
  let n := Zpos (Qden x) in
  let h :=
    if (n mod P =? 0)%Z then 314159%Z
    else ((((Z.abs m) mod P) * pow_mod n (P - 2) P) mod P)%Z in
  let h := if (m <? 0)%Z then (- h)%Z else h in
  if (h =? -1)%Z then (-2)%Z else h.

Definition u64 (z : Z) : Z := (z mod 2 ^ 64)%Z.
Definition s64 (z : Z) : Z :=
  let u := u64 z in if (u <? 2 ^ 63)%Z then u else (u - 2 ^ 64)%Z.

Definition XXPRIME_1 : Z := 11400714785074694791%Z.
Definition XXPRIME_2 : Z := 14029467366897019727%Z.
Definition XXPRIME_5 : Z := 2870177450012600261%Z.
Definition XXROTATE (x : Z) : Z :=
  u64 (Z.lor (Z.shiftl x 31) (Z.shiftr x 33)).

Definition hash_tuple (lanes : list Z) : Z :=
  let step acc lane :=
    let acc := u64 (acc + u64 lane * XXPRIME_2)%Z in
    let acc := XXROTATE acc in
    u64 (acc * XXPRIME_1)%Z in
  let acc := fold_left step lanes XXPRIME_5 in
  let acc :=
    u64 (acc + Z.lxor (Z.of_nat (List.length lanes)) (Z.lxor XXPRIME_5 3527539))%Z in
  if (acc =? 2 ^ 64 - 1)%Z then 1546275796%Z else s64 acc.

End Py.

Import Py.

(** ** Data model *)

Module Point.

Record t : Type := mk { x : Q; y : Q }.

(** [Point.distance_to] *)
Definition distance_to (math_sqrt : Q -> Q) (self other : t) : Q :=
  math_sqrt ((x self - x other) ^ 2 + (y self - y other) ^ 2).

(** [Point.__eq__] *)
Definition eq (self other : t) : bool :=
  ltb (Qabs (x self - x other)) (1 # 1000000)
  && ltb (Qabs (y self - y other)) (1 # 1000000).

(** [!=] is the negation of [__eq__]. *)
Definition ne (self other : t) : bool := negb (eq self other).

(** The tuple handed to [hash] by [Point.__hash__]. *)
Definition hash_key (self : t) : Q * Q := (round6 (x self), round6 (y self)).

(** [Point.__hash__] *)
Definition hash (self : t) : Z :=
  let k := hash_key self in
  hash_tuple [hash_float (fst k); hash_float (snd k)].

End Point.

Definition Point : Type := Point.t.

Inductive LineType : Type :=
| CONTINUOUS
| DASHED
| DASHDOT
| DASHDOT2
| DOTTED
| HIDDEN.

Definition Color : Type := (Q * Q * Q)%type.

Module Line.
Record t : Type := mk {
  start : Point; end_ : Point;
  color : Color; width : Q; layer : string; linetype : LineType }.
End Line.

Module Arc.
Record t : Type := mk {
  center : Point; radius : Q; start_angle : Q; end_angle : Q;
  color : Color; width : Q; layer : string; linetype : LineType }.
End Arc.

Module Circle.
Record t : Type := mk {
  center : Point; radius : Q;
  color : Color; width : Q; layer : string; linetype : LineType }.
End Circle.

Module Ellipse.
Record t : Type := mk {
  center : Point; major_axis : Point; ratio : Q;
  start_param : Q; end_param : Q;
  color : Color; width : Q; layer : string; linetype : LineType }.
End Ellipse.

Module Polyline.
Record t : Type := mk {
  points : list Point; closed : bool;
  color : Color; width : Q; layer : string; linetype : LineType;
  bulges : list Q }.
End Polyline.

Module Spline.
Record t : Type := mk {
  control_points : list Point; degree : Z;
  color : Color; width : Q; layer : string; linetype : LineType;
  knots : list Q; weights : list Q }.
End Spline.

Module TextEntity.
Record t : Type := mk {
  text : string; position : Point; height : Q; rotation : Q;
  color : Color; font : string; layer : string;
  halign : string; valign : string; width_factor : Q; oblique : Q }.
End TextEntity.

Module MText.
Record t : Type := mk {
  text : string; position : Point; width : Q; height : Q; rotation : Q;
  color : Color; font : string; layer : string; attachment_point : Z }.
End MText.

Module Rectangle.
Record t : Type := mk {
  corner : Point; width : Q; height : Q;
  color : Color; line_width : Q; layer : string; linetype : LineType;
  fill_color : option Color }.
End Rectangle.

Module Hatch.
Record t : Type := mk {
  boundary_paths : list (list Point); pattern_name : string;
  color : Color; layer : string; scale : Q; angle : Q;
  is_gradient : bool; gradient_type : string;
  gradient_color1 : option Color; gradient_color2 : option Color;
  gradient_angle : Q; gradient_centered : bool;
  bgcolor : option Color }.

(** [Hatch(boundary_paths=.., pattern_name="SOLID", color=..)] with the
    defaults of the data class. *)
Definition solid (paths : list (list Point)) (c : Color) : t :=
  mk paths "SOLID" c "0" 1 0 false "LINEAR" None None 0 false None.
End Hatch.

Module ImageEntity.
Record t : Type := mk {
  position : Point; width : Q; height : Q; image_data : list Z;
  layer : string; rotation : Q; image_path : string;
  original_width : Z; original_height : Z; colorspace : string;
  bits_per_component : Z; transparency : bool }.
End ImageEntity.

Module ExtractedData.
Record t : Type := mk {
  lines : list Line.t;
  arcs : list Arc.t;
  circles : list Circle.t;
  ellipses : list Ellipse.t;
  polylines : list Polyline.t;
  splines : list Spline.t;
  texts : list TextEntity.t;
  mtexts : list MText.t;
  rectangles : list Rectangle.t;
  hatches : list Hatch.t;
  images : list ImageEntity.t;
  width : Q;
  height : Q;
  layers : list (string * list (string * string)) }.

(** In-place updates of one collection. *)
Definition set_lines (d : t) (v : list Line.t) : t :=
  mk v (arcs d) (circles d) (ellipses d) (polylines d) (splines d) (texts d)
     (mtexts d) (rectangles d) (hatches d) (images d) (width d) (height d) (layers d).
Definition set_arcs (d : t) (v : list Arc.t) : t :=
  mk (lines d) v (circles d) (ellipses d) (polylines d) (splines d) (texts d)
     (mtexts d) (rectangles d) (hatches d) (images d) (width d) (height d) (layers d).
Definition set_circles (d : t) (v : list Circle.t) : t :=
  mk (lines d) (arcs d) v (ellipses d) (polylines d) (splines d) (texts d)
     (mtexts d) (rectangles d) (hatches d) (images d) (width d) (height d) (layers d).
Definition set_ellipses (d : t) (v : list Ellipse.t) : t :=
  mk (lines d) (arcs d) (circles d) v (polylines d) (splines d) (texts d)
     (mtexts d) (rectangles d) (hatches d) (images d) (width d) (height d) (layers d).
Definition set_polylines (d : t) (v : list Polyline.t) : t :=
  mk (lines d) (arcs d) (circles d) (ellipses d) v (splines d) (texts d)
     (mtexts d) (rectangles d) (hatches d) (images d) (width d) (height d) (layers d).
Definition set_rectangles (d : t) (v : list Rectangle.t) : t :=
  mk (lines d) (arcs d) (circles d) (ellipses d) (polylines d) (splines d) (texts d)
     (mtexts d) v (hatches d) (images d) (width d) (height d) (layers d).
Definition set_hatches (d : t) (v : list Hatch.t) : t :=
  mk (lines d) (arcs d) (circles d) (ellipses d) (polylines d) (splines d) (texts d)
     (mtexts d) (rectangles d) v (images d) (width d) (height d) (layers d).

(** [ExtractedData(width=w, height=h)] *)
Definition empty (w h : Q) : t :=
  mk [] [] [] [] [] [] [] [] [] [] [] w h [].

Definition set_texts (d : t) (v : list TextEntity.t) : t :=
  mk (lines d) (arcs d) (circles d) (ellipses d) (polylines d) (splines d) v
     (mtexts d) (rectangles d) (hatches d) (images d) (width d) (height d) (layers d).

(** [ExtractedData.get_entity_count] *)
Definition get_entity_count (self : t) : nat :=
  (List.length (lines self) + List.length (arcs self) + List.length (circles self)
   + List.length (ellipses self) + List.length (polylines self)
   + List.length (splines self) + List.length (texts self)
   + List.length (mtexts self) + List.length (rectangles self)
   + List.length (hatches self) + List.length (images self))%nat.
End ExtractedData.

(** [range(n)] *)
Definition range (n : Z) : list Z := map Z.of_nat (seq 0 (Z.to_nat n)).

(** Evaluation of a list comprehension whose body may raise. *)
Fixpoint mapM {A B : Type} (f : A -> outcome B) (l : list A) : outcome (list B) :=
  match l with
  | [] => Returned []
  | a :: r =>
      bind (f a) (fun b => bind (mapM f r) (fun bs => Returned (b :: bs)))
  end.

(** ** Curve flattener *)

Section Flattener.

Variable math_sqrt : Q -> Q.

Let dist := Point.distance_to math_sqrt.

(** The adaptive part of [_bezier_to_points] (the [if adaptive:] block):
    the segment count used by the sampling loop. *)
Definition bezier_segments (p0 p1 p2 p3 : Point) (segments : Z) (adaptive : bool)
  : outcome Z :=
  if adaptive then
    let chord_length := dist p0 p3 in
    let control_length := dist p0 p1 + dist p1 p2 + dist p2 p3 in
    bind
      (if gtb chord_length (1 # 1000) then
         bind (div control_length chord_length) (fun ratio =>
           Returned
             (if gtb ratio (15 # 10) then
                Z.min 64 (int (inject_Z segments * ratio))
              else if gtb ratio (12 # 10) then
                Z.min 48 (int (inject_Z segments * (15 # 10)))
              else if gtb ratio (11 # 10) then
                Z.min 32 (int (inject_Z segments * (12 # 10)))
              else segments))
       else Returned segments)
      (fun segments =>
         Returned
           (if gtb control_length 100 then Z.max segments 32
            else if gtb control_length 50 then Z.max segments 24
            else segments))
  else Returned segments.

(** One iteration of the sampling loop of [_bezier_to_points]. *)
Definition bezier_sample (p0 p1 p2 p3 : Point) (segments i : Z) : outcome Point :=
  bind (div (inject_Z i) (inject_Z segments)) (fun t =>
    let t2 := t * t in
    let t3 := t2 * t in
    let mt := 1 - t in
    let mt2 := mt * mt in
    let mt3 := mt2 * mt in
    let x := mt3 * Point.x p0 + 3 * mt2 * t * Point.x p1
             + 3 * mt * t2 * Point.x p2 + t3 * Point.x p3 in
    let y := mt3 * Point.y p0 + 3 * mt2 * t * Point.y p1
             + 3 * mt * t2 * Point.y p2 + t3 * Point.y p3 in
    Returned (Point.mk x y)).

Definition _bezier_to_points (p0 p1 p2 p3 : Point) (segments : Z) (adaptive : bool)
  : outcome (list Point) :=
  bind (bezier_segments p0 p1 p2 p3 segments adaptive) (fun segments =>
    mapM (bezier_sample p0 p1 p2 p3 segments) (range (segments + 1))).

(** The adaptive part of [_quad_bezier_to_points]. *)
Definition quad_segments (p0 p1 p2 : Point) (segments : Z) (adaptive : bool)
  : outcome Z :=
  if adaptive then
    let chord_length := dist p0 p2 in
    let control_length := dist p0 p1 + dist p1 p2 in
    if gtb chord_length (1 # 1000) then
      bind (div control_length chord_length) (fun ratio =>
        Returned
          (if gtb ratio (13 # 10) then
             Z.min 32 (int (inject_Z segments * ratio))
           else if gtb ratio (11 # 10) then
             Z.min 24 (int (inject_Z segments * (13 # 10)))
           else segments))
    else Returned segments
  else Returned segments.

Definition quad_sample (p0 p1 p2 : Point) (segments i : Z) : outcome Point :=
  bind (div (inject_Z i) (inject_Z segments)) (fun t =>
    let mt := 1 - t in
    let x := mt * mt * Point.x p0 + 2 * mt * t * Point.x p1 + t * t * Point.x p2 in
    let y := mt * mt * Point.y p0 + 2 * mt * t * Point.y p1 + t * t * Point.y p2 in
    Returned (Point.mk x y)).

Definition _quad_bezier_to_points (p0 p1 p2 : Point) (segments : Z) (adaptive : bool)
  : outcome (list Point) :=
  bind (quad_segments p0 p1 p2 segments adaptive) (fun segments =>
    mapM (quad_sample p0 p1 p2 segments) (range (segments + 1))).

End Flattener.

(** The sampled points, once the segment count [n] is known. *)
Definition cubic_at (p0 p1 p2 p3 : Point) (n i : Z) : Point :=
  let t := inject_Z i / inject_Z n in
  let t2 := t * t in
  let t3 := t2 * t in
  let mt := 1 - t in
  let mt2 := mt * mt in
  let mt3 := mt2 * mt in
  Point.mk
    (mt3 * Point.x p0 + 3 * mt2 * t * Point.x p1
     + 3 * mt * t2 * Point.x p2 + t3 * Point.x p3)
    (mt3 * Point.y p0 + 3 * mt2 * t * Point.y p1
     + 3 * mt * t2 * Point.y p2 + t3 * Point.y p3).

Definition quad_at (p0 p1 p2 : Point) (n i : Z) : Point :=
  let t := inject_Z i / inject_Z n in
  let mt := 1 - t in
  Point.mk
    (mt * mt * Point.x p0 + 2 * mt * t * Point.x p1 + t * t * Point.x p2)
    (mt * mt * Point.y p0 + 2 * mt * t * Point.y p1 + t * t * Point.y p2).

(** ** Input of the extractor: PyMuPDF drawings *)

Module Fitz.
Record Pt : Type := mkPt { x : Q; y : Q }.
Record Rect : Type := mkRect { x0 : Q; y0 : Q; x1 : Q; y1 : Q }.
End Fitz.

(** One entry of [path["items"]]: a command tag and its operands. *)
Inductive Item : Type :=
| Item_m (p : Fitz.Pt)                   (* ("m", p) *)
| Item_l (start end_ : Fitz.Pt)          (* ("l", start, end) *)
| Item_l1 (end_ : Fitz.Pt)               (* ("l", end): single endpoint form *)
| Item_c (c1 c2 end_ : Fitz.Pt)          (* ("c", c1, c2, end) *)
| Item_v (c2 end_ : Fitz.Pt)             (* ("v", c2, end) *)
| Item_y (c1 end_ : Fitz.Pt)             (* ("y", c1, end) *)
| Item_re (rect : Fitz.Rect)             (* ("re", rect) *)
| Item_h                                 (* ("h",) *)
| Item_qu (ctrl end_ : Fitz.Pt)          (* ("qu", ctrl, end) *)
| Item_other.                            (* other tag, or too few operands *)

(** [path["dashes"]] *)
Inductive Dashes : Type :=
| Dashes_None
| Dashes_scalar                          (* neither list nor tuple *)
| Dashes_nested (pattern : list Q)       (* (pattern, phase, ...) *)
| Dashes_flat (pattern : list Q).        (* a flat list of numbers *)

(** [path["fill"]] *)
Inductive Fill : Type :=
| Fill_None
| Fill_seq (channels : list Q)
| Fill_gray (g : Q).

Module Path.
Record t : Type := mk {
  items : list Item;
  color : option (list Q);
  fill : Fill;
  width : option Q;
  dashes : Dashes;
  even_odd : bool;
  closePath : bool }.
End Path.

(** ** Sub-path reconstruction and classification *)

Module Subpath.
Record t : Type := mk { points : list Point; closed : bool; has_curves : bool }.
End Subpath.

(** The local variables of the item loop of [_extract_drawings]. *)
Module Loop.
Record t : Type := mk {
  all_subpaths : list Subpath.t;
  current_point : option Point;
  path_points : list Point;
  path_start : option Point;
  has_curves : bool }.

Definition init : t := mk [] None [] None false.
End Loop.

Definition _parse_dash_pattern (dashes : Dashes) : LineType :=
  match dashes with
  | Dashes_None => CONTINUOUS
  | Dashes_scalar => CONTINUOUS
  | Dashes_nested pattern | Dashes_flat pattern =>
      match pattern with
      | [] => CONTINUOUS
      | [_] => DASHED
      | [dash; gap] => if ltb dash (gap * (5 # 10)) then DOTTED else DASHED
      | [_; _; _] => CONTINUOUS
      | _ => DASHDOT
      end
  end.

(** Tuple equality [color == (0, 0, 0)]. *)
Definition color_is_black (c : Color) : bool :=
  let '(r, g, b) := c in eqb r 0 && eqb g 0 && eqb b 0.

Definition black : Color := (0, 0, 0).

Section Extractor.

Variable math_sqrt : Q -> Q.
(** [self.scale] and [page.rect.height] *)
Variable scale : Q.
Variable page_height : Q.

Definition _transform_y (y : Q) : Q := (page_height - y) * scale.

Definition _transform_point (x y : Q) : Point :=
  Point.mk (x * scale) (_transform_y y).

Definition transform (p : Fitz.Pt) : Point :=
  _transform_point (Fitz.x p) (Fitz.y p).

(** [PDFVectorExtractor._is_rectangle]: the scan over the first four
    points, accumulating [x_vals] and [y_vals]. *)
Definition is_rectangle_scan (acc : list Q * list Q) (p : Point) : list Q * list Q :=
  let (x_vals, y_vals) := acc in
  let tolerance := 5 # 10 in
  let found_x := existsb (fun x => ltb (Qabs (Point.x p - x)) tolerance) x_vals in
  let x_vals := if found_x then x_vals else x_vals ++ [Point.x p] in
  let found_y := existsb (fun y => ltb (Qabs (Point.y p - y)) tolerance) y_vals in
  let y_vals := if found_y then y_vals else y_vals ++ [Point.y p] in
  (x_vals, y_vals).

Definition _is_rectangle (points : list Point) : bool :=
  if (List.length points <? 4)%nat then false
  else
    let pts := firstn 4 points in
    let (x_vals, y_vals) := fold_left is_rectangle_scan pts ([], []) in
    (List.length x_vals =? 2)%nat && (List.length y_vals =? 2)%nat.

(** [PDFVectorExtractor._save_path_entity] *)
Definition _save_path_entity (points : list Point) (closed : bool)
    (color : Color) (width : Q) (linetype : LineType)
    (fill_color : option Color) (data : ExtractedData.t) : ExtractedData.t :=
  if (List.length points =? 2)%nat then
    ExtractedData.set_lines data
      (ExtractedData.lines data
       ++ [Line.mk (nth 0 points (Point.mk 0 0)) (nth 1 points (Point.mk 0 0))
                   color width "0" linetype])
  else if (4 <=? List.length points)%nat && closed && _is_rectangle points then
    let pts := firstn 4 points in
    let min_x := min_list 0 (map Point.x pts) in
    let min_y := min_list 0 (map Point.y pts) in
    let max_x := max_list 0 (map Point.x pts) in
    let max_y := max_list 0 (map Point.y pts) in
    ExtractedData.set_rectangles data
      (ExtractedData.rectangles data
       ++ [Rectangle.mk (Point.mk min_x min_y) (max_x - min_x) (max_y - min_y)
                        color width "0" linetype fill_color])
  else
    let data :=
      ExtractedData.set_polylines data
        (ExtractedData.polylines data
         ++ [Polyline.mk points closed color width "0" linetype []]) in
    match fill_color with
    | Some fc =>
        if closed && (3 <=? List.length points)%nat then
          ExtractedData.set_hatches data
            (ExtractedData.hatches data ++ [Hatch.solid [points] fc])
        else data
    | None => data
    end.

(** [all_subpaths.append({...})] when [len(path_points) > 1]. *)
Definition flush (st : Loop.t) (closed : bool) : list Subpath.t :=
  if (1 <? List.length (Loop.path_points st))%nat then
    Loop.all_subpaths st
    ++ [Subpath.mk (Loop.path_points st) closed (Loop.has_curves st)]
  else Loop.all_subpaths st.

(** The body of [for item in items:] in [_extract_drawings]; [color],
    [width], [linetype] and [fill_color] are the style of the path. *)
Definition process_item (color : Color) (width : Q) (linetype : LineType)
    (fill_color : option Color)
    (acc : Loop.t * ExtractedData.t) (item : Item)
  : outcome (Loop.t * ExtractedData.t) :=
  let (st, data) := acc in
  match item with
  | Item_m p =>
      let all_subpaths := flush st false in
      let current_point := transform p in
      Returned
        (Loop.mk all_subpaths (Some current_point) [current_point]
                 (Some current_point) false, data)
  | Item_l s e =>
      let start_point := transform s in
      let end_point := transform e in
      let st :=
        match Loop.current_point st, Loop.path_points st with
        | None, _ | Some _, [] =>
            Loop.mk (Loop.all_subpaths st) (Loop.current_point st)
                    (Loop.path_points st ++ [start_point])
                    (Some start_point) (Loop.has_curves st)
        | Some current_point, _ :: _ =>
            if Point.ne current_point start_point then
              Loop.mk (flush st false) (Loop.current_point st)
                      [start_point] (Some start_point) false
            else st
        end in
      Returned
        (Loop.mk (Loop.all_subpaths st) (Some end_point)
                 (Loop.path_points st ++ [end_point])
                 (Loop.path_start st) (Loop.has_curves st), data)
  | Item_l1 e =>
      let end_point := transform e in
      let path_points :=
        match Loop.current_point st with
        | Some _ => Loop.path_points st ++ [end_point]
        | None => Loop.path_points st
        end in
      Returned
        (Loop.mk (Loop.all_subpaths st) (Some end_point) path_points
                 (Loop.path_start st) (Loop.has_curves st), data)
  | Item_c c1 c2 e =>
      let ctrl1 := transform c1 in
      let ctrl2 := transform c2 in
      let end_ := transform e in
      bind
        (match Loop.current_point st with
         | Some current_point =>
             bind (_bezier_to_points math_sqrt current_point ctrl1 ctrl2 end_ 16 true)
                  (fun bezier_points =>
                     Returned (Loop.path_points st ++ tl bezier_points))
         | None => Returned (Loop.path_points st)
         end)
        (fun path_points =>
           Returned
             (Loop.mk (Loop.all_subpaths st) (Some end_) path_points
                      (Loop.path_start st) true, data))
  | Item_v c2 e =>
      match Loop.current_point st with
      | Some current_point =>
          let ctrl2 := transform c2 in
          let end_ := transform e in
          bind (_bezier_to_points math_sqrt current_point current_point ctrl2 end_
                                  16 true)
               (fun bezier_points =>
                  Returned
                    (Loop.mk (Loop.all_subpaths st) (Some end_)
                             (Loop.path_points st ++ tl bezier_points)
                             (Loop.path_start st) true, data))
      | None => Returned (st, data)
      end
  | Item_y c1 e =>
      match Loop.current_point st with
      | Some current_point =>
          let ctrl1 := transform c1 in
          let end_ := transform e in
          bind (_bezier_to_points math_sqrt current_point ctrl1 end_ end_ 16 true)
               (fun bezier_points =>
                  Returned
                    (Loop.mk (Loop.all_subpaths st) (Some end_)
                             (Loop.path_points st ++ tl bezier_points)
                             (Loop.path_start st) true, data))
      | None => Returned (st, data)
      end
  | Item_re rect =>
      let corner := _transform_point (Fitz.x0 rect) (Fitz.y1 rect) in
      let rect_width := (Fitz.x1 rect - Fitz.x0 rect) * scale in
      let rect_height := (Fitz.y1 rect - Fitz.y0 rect) * scale in
      let data :=
        ExtractedData.set_rectangles data
          (ExtractedData.rectangles data
           ++ [Rectangle.mk corner rect_width rect_height color width "0"
                            linetype fill_color]) in
      let data :=
        match fill_color with
        | Some fc =>
            let rect_points :=
              [corner;
               Point.mk (Point.x corner + rect_width) (Point.y corner);
               Point.mk (Point.x corner + rect_width) (Point.y corner + rect_height);
               Point.mk (Point.x corner) (Point.y corner + rect_height);
               corner] in
            ExtractedData.set_hatches data
              (ExtractedData.hatches data ++ [Hatch.solid [rect_points] fc])
        | None => data
        end in
      Returned (st, data)
  | Item_h =>
      let path_points :=
        match Loop.path_start st, Loop.current_point st with
        | Some path_start, Some current_point =>
            if Point.ne path_start current_point
            then Loop.path_points st ++ [path_start]
            else Loop.path_points st
        | _, _ => Loop.path_points st
        end in
      let st1 :=
        Loop.mk (Loop.all_subpaths st) (Loop.current_point st) path_points
                (Loop.path_start st) (Loop.has_curves st) in
      Returned
        (Loop.mk (flush st1 true) (Loop.current_point st) []
                 (Loop.path_start st) false, data)
  | Item_qu c e =>
      match Loop.current_point st with
      | Some current_point =>
          let ctrl := transform c in
          let end_ := transform e in
          bind (_quad_bezier_to_points math_sqrt current_point ctrl end_ 12 true)
               (fun quad_points =>
                  Returned
                    (Loop.mk (Loop.all_subpaths st) (Some end_)
                             (Loop.path_points st ++ tl quad_points)
                             (Loop.path_start st) true, data))
      | None => Returned (st, data)
      end
  | Item_other => Returned (st, data)
  end.

(** A [for] loop whose body may raise. *)
Fixpoint foldM {S A : Type} (f : S -> A -> outcome S) (l : list A) (s : S) : outcome S :=
  match l with
  | [] => Returned s
  | a :: r => bind (f s a) (foldM f r)
  end.

(** "Save remaining path points": the flush at the end of the item loop. *)
Definition finish_items (closePath : bool) (st : Loop.t) : list Subpath.t :=
  let is_closed :=
    closePath
    || match Loop.path_start st with
       | Some path_start =>
           Point.eq (last (Loop.path_points st) (Point.mk 0 0)) path_start
       | None => false
       end in
  flush st is_closed.

(** "Process all subpaths" *)
Definition save_subpaths (color : Color) (width : Q) (linetype : LineType)
    (fill_color : option Color) (all_subpaths : list Subpath.t)
    (data : ExtractedData.t) : ExtractedData.t :=
  fold_left
    (fun data subpath =>
       if (List.length (Subpath.points subpath) <? 2)%nat then data
       else _save_path_entity (Subpath.points subpath) (Subpath.closed subpath)
                              color width linetype fill_color data)
    all_subpaths data.

(** "Handle filled but non-stroked paths (create hatches only)" *)
Definition fill_hatches (color : Color) (width : Q) (fill_color : option Color)
    (all_subpaths : list Subpath.t) (data : ExtractedData.t) : ExtractedData.t :=
  match fill_color with
  | Some fc =>
      if color_is_black color && eqb width 0 then
        fold_left
          (fun data subpath =>
             if Subpath.closed subpath
                && (3 <=? List.length (Subpath.points subpath))%nat
             then ExtractedData.set_hatches data
                    (ExtractedData.hatches data
                     ++ [Hatch.solid [Subpath.points subpath] fc])
             else data)
          all_subpaths data
      else data
  | None => data
  end.

(** The style read off a path dictionary. *)
Definition path_color (path : Path.t) : Color :=
  match Path.color path with
  | Some (r :: g :: b :: _) => (r, g, b)
  | _ => black
  end.

Definition path_fill_color (path : Path.t) : option Color :=
  match Path.fill path with
  | Fill_seq (r :: g :: b :: _) => Some (r, g, b)
  | Fill_gray g => Some (g, g, g)
  | _ => None
  end.

Definition path_width (path : Path.t) : Q :=
  match Path.width path with
  | Some w => (if eqb w 0 then 1 else w) * scale
  | None => 1 * scale
  end.

(** The body of [for path in paths:] in [_extract_drawings]. *)
Definition process_path (data : ExtractedData.t) (path : Path.t)
  : outcome ExtractedData.t :=
  let color := path_color path in
  let fill_color := path_fill_color path in
  let width := path_width path in
  let linetype := _parse_dash_pattern (Path.dashes path) in
  bind (foldM (process_item color width linetype fill_color)
              (Path.items path) (Loop.init, data))
       (fun '(st, data) =>
          let all_subpaths := finish_items (Path.closePath path) st in
          let data := save_subpaths color width linetype fill_color all_subpaths data in
          Returned (fill_hatches color width fill_color all_subpaths data)).

(** [PDFVectorExtractor._extract_drawings], on the list returned by
    [page.get_drawings()]. *)
Definition _extract_drawings (paths : list Path.t) (data : ExtractedData.t)
  : outcome ExtractedData.t :=
  foldM process_path paths data.

End Extractor.

(** The rectangle rule as the specification words it: the values of a
    list that survive a linear scan which drops every value lying within
    [tol] of a value accepted before it. *)
Definition distinct_within (tol : Q) (vals : list Q) : list Q :=
  fold_left
    (fun accepted v =>
       if existsb (fun a => ltb (Qabs (v - a)) tol) accepted
       then accepted else accepted ++ [v])
    vals [].

(** Values accepted by the scan are pairwise at least [tol] apart. *)
Fixpoint separated (tol : Q) (l : list Q) : Prop :=
  match l with
  | [] => True
  | a :: r => (forall b, In b r -> tol <= Qabs (b - a)) /\ separated tol r
  end.

Definition rectangle_shape (points : list Point) (closed : bool) : Prop :=
  (4 <= List.length points)%nat
  /\ closed = true
  /\ List.length (distinct_within (5 # 10) (map Point.x (firstn 4 points))) = 2%nat
  /\ List.length (distinct_within (5 # 10) (map Point.y (firstn 4 points))) = 2%nat.

(** Invariants of the stored entities. *)
Definition positive_extent (r : Rectangle.t) : Prop :=
  0 < Rectangle.width r /\ 0 < Rectangle.height r.

Definition has_two_points (pl : Polyline.t) : Prop :=
  (2 <= List.length (Polyline.points pl))%nat.

(** A ["re"] item whose rectangle has positive extents once scaled. *)
Definition rect_command_positive (scale : Q) (item : Item) : Prop :=
  match item with
  | Item_re rect =>
      0 < (Fitz.x1 rect - Fitz.x0 rect) * scale
      /\ 0 < (Fitz.y1 rect - Fitz.y0 rect) * scale
  | _ => True
  end.

Definition subpaths_have_two_points (subpaths : list Subpath.t) : Prop :=
  Forall (fun sp => (2 <= List.length (Subpath.points sp))%nat) subpaths.

Definition entities_well_formed (data : ExtractedData.t) : Prop :=
  Forall positive_extent (ExtractedData.rectangles data)
  /\ Forall has_two_points (ExtractedData.polylines data).

(** ** Circle and arc detection *)

(** [math.pi]: the double nearest to pi, as a rational. *)
Definition math_pi : Q := 884279719003555 # 281474976710656.

(** [math.degrees] *)
Definition math_degrees (x : Q) : Q := x * (180 / math_pi).

(** [list.sort()] on floats: stable, ascending. *)
Fixpoint sort_insert (v : Q) (l : list Q) : list Q :=
  match l with
  | [] => [v]
  | a :: r => if leb v a then v :: a :: r else a :: sort_insert v r
  end.

Fixpoint list_sort (l : list Q) : list Q :=
  match l with
  | [] => []
  | a :: r => sort_insert a (list_sort r)
  end.

(** [for i in range(len(angles) - 1): gap = angles[i+1] - angles[i]; ...] *)
Fixpoint coverage_loop (angles : list Q) (total_coverage : Q) : Q :=
  match angles with
  | a :: ((b :: _) as r) =>
      let gap := b - a in
      coverage_loop r (if ltb gap math_pi then total_coverage + gap
                       else total_coverage)
  | _ => total_coverage
  end.

(** The coverage computed by [_is_full_circle] and [_is_full_ellipse] from
    the list of angles. *)
Definition angular_coverage (angles : list Q) : Q :=
  let angles := list_sort angles in
  let total_coverage := coverage_loop angles 0 in
  let wrap_gap := 2 * math_pi - (last angles 0 - hd 0 angles) in
  if ltb wrap_gap math_pi then total_coverage + wrap_gap else total_coverage.

(** The result of a successful circle fit: [((cx, cy), radius, rms_error)]. *)
Definition CircleFit : Type := ((Q * Q) * Q * Q)%type.

Section CircleDetection.

Variable math_sqrt : Q -> Q.
Variable math_atan2 : Q -> Q -> Q.
(** [numpy.linalg.lstsq(A, b, rcond=None)[0]] *)
Variable np_linalg_lstsq : list (list Q) -> list Q -> outcome (list Q).

Definition getitem (l : list Q) (i : nat) : outcome Q :=
  match nth_error l i with
  | Some v => Returned v
  | None => Raised IndexError
  end.

(** The [try:] block of [_fit_circle]. *)
Definition fit_circle_body (points : list Point) : outcome (option CircleFit) :=
  let n := List.length points in
  if (n <? 3)%nat then Returned None
  else
    let A := map (fun p => [Point.x p; Point.y p; 1]) points in
    let b := map (fun p => Point.x p * Point.x p + Point.y p * Point.y p) points in
    bind (np_linalg_lstsq A b) (fun result =>
    bind (getitem result 0) (fun r0 =>
    bind (getitem result 1) (fun r1 =>
    bind (getitem result 2) (fun r2 =>
      let cx := r0 / 2 in
      let cy := r1 / 2 in
      let r_squared := r2 + cx * cx + cy * cy in
      if leb r_squared 0 then Returned None
      else
        let radius := math_sqrt r_squared in
        let errors :=
          map (fun p =>
                 let dist := math_sqrt ((Point.x p - cx) ^ 2 + (Point.y p - cy) ^ 2) in
                 (dist - radius) ^ 2) points in
        bind (div (sum errors) (inject_Z (Z.of_nat (List.length errors))))
             (fun mean => Returned (Some ((cx, cy), radius, math_sqrt mean))))))).

(** [_fit_circle]: the body under [try: ... except Exception: return None]. *)
Definition _fit_circle (points : list Point) : outcome (option CircleFit) :=
  try_except (fit_circle_body points) None.

Definition _is_full_circle (points : list Point) (center : Q * Q) (radius : Q) : bool :=
  if (List.length points <? 8)%nat then false
  else
    let angles :=
      map (fun p => math_atan2 (Point.y p - snd center) (Point.x p - fst center))
          points in
    gtb (angular_coverage angles) ((9 # 10) * 2 * math_pi).

(** The signed area accumulated by [_is_ccw]. *)
Fixpoint signed_area_loop (points : list Point) (center : Q * Q) (signed_area : Q) : Q :=
  match points with
  | p1 :: ((p2 :: _) as r) =>
      let signed_area :=
        signed_area + (Point.x p1 - fst center) * (Point.y p2 - snd center) in
      let signed_area :=
        signed_area - (Point.x p2 - fst center) * (Point.y p1 - snd center) in
      signed_area_loop r center signed_area
  | _ => signed_area
  end.

Definition _is_ccw (points : list Point) (center : Q * Q) : bool :=
  if (List.length points <? 3)%nat then true
  else gtb (signed_area_loop points center 0) 0.

(** [_calculate_arc_angles].  With exact sums a negative bearing plus 360
    stays below 360; on binary64 numbers a bearing just below 0 plus 360
    rounds to 360.0 ([F64._calculate_arc_angles]), so what holds of both
    is the closed range [0, 360]. *)
Definition _calculate_arc_angles (center : Q * Q) (start end_ : Point) : Q * Q :=
  let start_angle :=
    math_degrees (math_atan2 (Point.y start - snd center) (Point.x start - fst center)) in
  let end_angle :=
    math_degrees (math_atan2 (Point.y end_ - snd center) (Point.x end_ - fst center)) in
  let start_angle := if ltb start_angle 0 then start_angle + 360 else start_angle in
  let end_angle := if ltb end_angle 0 then end_angle + 360 else end_angle in
  (start_angle, end_angle).

(** The entity built for an accepted polyline. *)
Definition circle_of (polyline : Polyline.t) (center : Q * Q) (radius : Q) : Circle.t :=
  Circle.mk (Point.mk (fst center) (snd center)) radius
            (Polyline.color polyline) (Polyline.width polyline)
            (Polyline.layer polyline) (Polyline.linetype polyline).

Definition arc_of (polyline : Polyline.t) (center : Q * Q) (radius : Q) : Arc.t :=
  let points := Polyline.points polyline in
  let (start_angle, end_angle) :=
    _calculate_arc_angles center (hd (Point.mk 0 0) points)
                          (last points (Point.mk 0 0)) in
  let (start_angle, end_angle) :=
    if negb (_is_ccw points center) then (end_angle, start_angle)
    else (start_angle, end_angle) in
  Arc.mk (Point.mk (fst center) (snd center)) radius start_angle end_angle
         (Polyline.color polyline) (Polyline.width polyline)
         (Polyline.layer polyline) (Polyline.linetype polyline).

(** The body of [for polyline in data.polylines:] in
    [detect_circles_and_arcs]; the accumulator is [new_polylines] and the
    container being updated in place. *)
Definition circle_sweep_step (tolerance : Q)
    (acc : list Polyline.t * ExtractedData.t) (polyline : Polyline.t)
  : outcome (list Polyline.t * ExtractedData.t) :=
  let (new_polylines, data) := acc in
  if (List.length (Polyline.points polyline) <? 6)%nat then
    Returned (new_polylines ++ [polyline], data)
  else
    bind (_fit_circle (Polyline.points polyline)) (fun result =>
      match result with
      | Some (center, radius, error) =>
          if gtb radius (5 # 10) && ltb error (tolerance * radius) then
            let is_full_circle :=
              _is_full_circle (Polyline.points polyline) center radius in
            if is_full_circle && Polyline.closed polyline then
              Returned
                (new_polylines,
                 ExtractedData.set_circles data
                   (ExtractedData.circles data ++ [circle_of polyline center radius]))
            else
              Returned
                (new_polylines,
                 ExtractedData.set_arcs data
                   (ExtractedData.arcs data ++ [arc_of polyline center radius]))
          else Returned (new_polylines ++ [polyline], data)
      | None => Returned (new_polylines ++ [polyline], data)
      end).

Definition detect_circles_and_arcs (data : ExtractedData.t) (tolerance : Q)
  : outcome ExtractedData.t :=
  bind (foldM (circle_sweep_step tolerance) (ExtractedData.polylines data) ([], data))
       (fun '(new_polylines, data) =>
          Returned (ExtractedData.set_polylines data new_polylines)).

End CircleDetection.

(** ** Ellipse detection *)

(** Dense matrices as lists of rows, and the [numpy] operations the fitter
    performs itself. *)
Definition Matrix : Type := list (list Q).

Definition dot (u v : list Q) : Q :=
  sum (map (fun '(a, b) => a * b) (combine u v)).

Fixpoint transpose (width : nat) (m : Matrix) : Matrix :=
  match width with
  | O => []
  | S w => map (fun row => hd 0 row) m :: transpose w (map (@tl Q) m)
  end.

(** [A @ B] for [B] with [width] columns. *)
Definition matmul (width : nat) (A B : Matrix) : Matrix :=
  let Bt := transpose width B in
  map (fun row => map (fun col => dot row col) Bt) A.

(** [np.column_stack([x*x, x*y, y*y, x, y, np.ones(n)])] *)
Definition design_matrix (points : list Point) : Matrix :=
  map (fun p =>
         let x := Point.x p in
         let y := Point.y p in
         [x * x; x * y; y * y; x; y; 1]) points.

(** The constraint matrix [C]: zero but for [C[0,2] = 2], [C[1,1] = -1]
    and [C[2,0] = 2]. *)
Definition constraint_matrix : Matrix :=
  [[0; 0; 2; 0; 0; 0];
   [0; -1; 0; 0; 0; 0];
   [2; 0; 0; 0; 0; 0];
   [0; 0; 0; 0; 0; 0];
   [0; 0; 0; 0; 0; 0];
   [0; 0; 0; 0; 0; 0]].

(** Complex numbers [(re, im)], as [numpy.linalg.eig] returns them. *)
Definition Complex : Type := (Q * Q)%type.

Definition np_isreal (z : Complex) : bool := eqb (snd z) 0.

(** [z > 0] on a complex array: lexicographic order on [(re, im)]. *)
Definition np_gt0 (z : Complex) : bool :=
  gtb (fst z) 0 || (eqb (fst z) 0 && gtb (snd z) 0).

(** [np.where(mask)[0]] *)
Definition np_where {A : Type} (mask : A -> bool) (l : list A) : list nat :=
  map fst (filter (fun '(_, v) => mask v) (combine (seq 0 (List.length l)) l)).

(** [np.argmin]: the position of the first minimum. *)
Fixpoint argmin_from (l : list Q) (i best_i : nat) (best : Q) : nat :=
  match l with
  | [] => best_i
  | v :: r =>
      if ltb v best then argmin_from r (S i) i v
      else argmin_from r (S i) best_i best
  end.

Definition np_argmin (l : list Q) : nat :=
  match l with
  | [] => O
  | v :: r => argmin_from r 1 O v
  end.

(** A float that may be [float('inf')]. *)
Inductive ExtQ : Type :=
| Finite (q : Q)
| Infinity.

(** [e < bound] for [e] possibly infinite. *)
Definition ext_ltb (e : ExtQ) (bound : Q) : bool :=
  match e with
  | Finite q => ltb q bound
  | Infinity => false
  end.

(** The result of a successful ellipse fit:
    [((cx, cy), major_axis, minor_axis, theta, rms_error)]. *)
Definition EllipseFit : Type := ((Q * Q) * (Q * Q) * (Q * Q) * Q * ExtQ)%type.

(** The literal [0.95] of [detect_ellipses] as the interpreter reads it:
    the binary64 number nearest to 19/20, which is
    [0x1.e666666666666p-1] = 8556839292003942 / 2^53, a little below
    19/20. *)
Definition float_0_95 : Q := 4278419646001971 # 4503599627370496.

Section EllipseDetection.

Variable math_sqrt : Q -> Q.
Variable math_atan2 : Q -> Q -> Q.
Variable math_cos : Q -> Q.
Variable math_sin : Q -> Q.
(** [numpy.linalg.inv] *)
Variable np_linalg_inv : Matrix -> outcome Matrix.
(** [numpy.linalg.eig]: the eigenvalues and the matrix whose columns are
    the eigenvectors. *)
Variable np_linalg_eig : Matrix -> outcome (list Complex * list (list Complex)).

Definition getitem_nat (l : list nat) (i : nat) : outcome nat :=
  match nth_error l i with
  | Some v => Returned v
  | None => Raised IndexError
  end.

(** [eigvecs[:, idx].real] *)
Definition column_real (eigvecs : list (list Complex)) (idx : nat) : outcome (list Q) :=
  mapM (fun row =>
          match nth_error row idx with
          | Some z => Returned (fst z)
          | None => Raised IndexError
          end) eigvecs.

(** The part of [_fit_ellipse] that follows the eigen-decomposition. *)
Definition ellipse_from_coeffs (points : list Point) (coeffs : list Q)
  : outcome (option EllipseFit) :=
  match coeffs with
  | [a; b; c; d; e; f] =>
      let discriminant := b * b - 4 * a * c in
      if geb discriminant 0 then Returned None
      else
        bind (div (2 * c * d - b * e) discriminant) (fun cx =>
        bind (div (2 * a * e - b * d) discriminant) (fun cy =>
          let theta :=
            if ltb (Qabs (a - c)) (1 # 10000000000) then
              (if gtb b 0 then math_pi / 4 else - math_pi / 4)
            else (5 # 10) * math_atan2 b (a - c) in
          let cos_t := math_cos theta in
          let sin_t := math_sin theta in
          let a_prime := a * cos_t * cos_t + b * cos_t * sin_t + c * sin_t * sin_t in
          let c_prime := a * sin_t * sin_t - b * cos_t * sin_t + c * cos_t * cos_t in
          let f_prime := a * cx * cx + b * cx * cy + c * cy * cy + d * cx + e * cy + f in
          if ltb (Qabs a_prime) (1 # 10000000000)
             || ltb (Qabs c_prime) (1 # 10000000000)
          then Returned None
          else
            bind (div (- f_prime) a_prime) (fun a_sq =>
            bind (div (- f_prime) c_prime) (fun b_sq =>
              if leb a_sq 0 || leb b_sq 0 then Returned None
              else
                let semi_major := math_sqrt (max a_sq b_sq) in
                let semi_minor := math_sqrt (min a_sq b_sq) in
                let '(major_axis, minor_axis) :=
                  if geb a_sq b_sq then
                    ((semi_major * cos_t, semi_major * sin_t),
                     (- semi_minor * sin_t, semi_minor * cos_t))
                  else
                    ((semi_major * sin_t, - semi_major * cos_t),
                     (semi_minor * cos_t, semi_minor * sin_t)) in
                bind
                  (mapM (fun p =>
                           let dx := Point.x p - cx in
                           let dy := Point.y p - cy in
                           let px := dx * cos_t + dy * sin_t in
                           let py := - dx * sin_t + dy * cos_t in
                           if gtb semi_major 0 && gtb semi_minor 0 then
                             bind (div px semi_major) (fun u =>
                             bind (div py semi_minor) (fun v =>
                               let dist := Qabs (u ^ 2 + v ^ 2 - 1) in
                               Returned [dist * min semi_major semi_minor]))
                           else Returned [])
                        points)
                  (fun chunks =>
                     let errors := List.concat chunks in
                     bind
                       (match errors with
                        | [] => Returned Infinity
                        | _ :: _ =>
                            bind (div (sum (map (fun e => e * e) errors))
                                      (inject_Z (Z.of_nat (List.length errors))))
                                 (fun mean => Returned (Finite (math_sqrt mean)))
                        end)
                       (fun rms_error =>
                          Returned
                            (Some ((cx, cy), major_axis, minor_axis, theta,
                                   rms_error))))))))
  | _ => Raised ValueError
  end.

(** The outer [try:] block of [_fit_ellipse]. *)
Definition fit_ellipse_body (points : list Point) : outcome (option EllipseFit) :=
  let n := List.length points in
  if (n <? 6)%nat then Returned None
  else
    let D := design_matrix points in
    let C := constraint_matrix in
    let S := matmul 6 (transpose 6 D) D in
    bind
      (try_except_LinAlgError
         (bind (np_linalg_inv S) (fun S_inv =>
          bind (np_linalg_eig (matmul 6 S_inv C)) (fun eig => Returned (Some eig))))
         (Returned None))
      (fun eig =>
         match eig with
         | None => Returned None
         | Some (eigvals, eigvecs) =>
             let valid_idx := np_where (fun z => np_isreal z && np_gt0 z) eigvals in
             if (List.length valid_idx =? 0)%nat then Returned None
             else
               let selected := map (fun i => fst (nth i eigvals (0, 0))) valid_idx in
               bind (getitem_nat valid_idx (np_argmin selected)) (fun idx =>
               bind (column_real eigvecs idx) (fun coeffs =>
                 ellipse_from_coeffs points coeffs))
         end).

(** [_fit_ellipse]: the body under [try: ... except Exception: return None]. *)
Definition _fit_ellipse (points : list Point) : outcome (option EllipseFit) :=
  try_except (fit_ellipse_body points) None.

Definition _is_full_ellipse (points : list Point) (center major_axis minor_axis : Q * Q)
  : bool :=
  if (List.length points <? 10)%nat then false
  else
    let major_len := math_sqrt (fst major_axis ^ 2 + snd major_axis ^ 2) in
    if ltb major_len (1 # 10000000000) then false
    else
      let theta := math_atan2 (snd major_axis) (fst major_axis) in
      let cos_t := math_cos (- theta) in
      let sin_t := math_sin (- theta) in
      let angles :=
        map (fun p =>
               let dx := Point.x p - fst center in
               let dy := Point.y p - snd center in
               let px := dx * cos_t + dy * sin_t in
               let py := - dx * sin_t + dy * cos_t in
               math_atan2 py px) points in
      gtb (angular_coverage angles) ((85 # 100) * 2 * math_pi).

(** [_calculate_ellipse_params].  As for the arc angles, on binary64
    numbers a parameter just below 0 plus [2 * math.pi] rounds to
    [2 * math.pi]: the range is [0, 2 pi], closed. *)
Definition _calculate_ellipse_params (center major_axis minor_axis : Q * Q)
    (rotation : Q) (start end_ : Point) : Q * Q :=
  let cos_t := math_cos (- rotation) in
  let sin_t := math_sin (- rotation) in
  let param (p : Point) :=
    let dx := Point.x p - fst center in
    let dy := Point.y p - snd center in
    let px := dx * cos_t + dy * sin_t in
    let py := - dx * sin_t + dy * cos_t in
    math_atan2 py px in
  let start_param := param start in
  let end_param := param end_ in
  let start_param :=
    if ltb start_param 0 then start_param + 2 * math_pi else start_param in
  let end_param :=
    if ltb end_param 0 then end_param + 2 * math_pi else end_param in
  (start_param, end_param).

(** The entity built for an accepted polyline. *)
Definition ellipse_of (polyline : Polyline.t) (center major_axis minor_axis : Q * Q)
    (rotation ratio : Q) : Ellipse.t :=
  let is_full := _is_full_ellipse (Polyline.points polyline) center major_axis minor_axis in
  let (start_param, end_param) :=
    if is_full && Polyline.closed polyline then (0, 2 * math_pi)
    else _calculate_ellipse_params center major_axis minor_axis rotation
           (hd (Point.mk 0 0) (Polyline.points polyline))
           (last (Polyline.points polyline) (Point.mk 0 0)) in
  Ellipse.mk (Point.mk (fst center) (snd center))
             (Point.mk (fst major_axis) (snd major_axis))
             ratio start_param end_param
             (Polyline.color polyline) (Polyline.width polyline)
             (Polyline.layer polyline) (Polyline.linetype polyline).

(** The ratio computed by [detect_ellipses] for an accepted fit. *)
Definition axis_ratio (minor_axis : Q * Q) (major_len : Q) : outcome Q :=
  let ratio := fst minor_axis ^ 2 + snd minor_axis ^ 2 in
  if gtb major_len 0 then div (math_sqrt ratio) major_len else Returned 0.

(** The body of [for polyline in data.polylines:] in [detect_ellipses]. *)
Definition ellipse_sweep_step (tolerance : Q)
    (acc : list Polyline.t * ExtractedData.t) (polyline : Polyline.t)
  : outcome (list Polyline.t * ExtractedData.t) :=
  let (new_polylines, data) := acc in
  if (List.length (Polyline.points polyline) <? 8)%nat then
    Returned (new_polylines ++ [polyline], data)
  else
    bind (_fit_ellipse (Polyline.points polyline)) (fun result =>
      match result with
      | Some (center, major_axis, minor_axis, rotation, error) =>
          let major_len := math_sqrt (fst major_axis ^ 2 + snd major_axis ^ 2) in
          if gtb major_len (5 # 10) && ext_ltb error (tolerance * major_len) then
            bind (axis_ratio minor_axis major_len) (fun ratio =>
              if gtb ratio float_0_95 then
                Returned (new_polylines ++ [polyline], data)
              else
                Returned
                  (new_polylines,
                   ExtractedData.set_ellipses data
                     (ExtractedData.ellipses data
                      ++ [ellipse_of polyline center major_axis minor_axis
                                     rotation ratio])))
          else Returned (new_polylines ++ [polyline], data)
      | None => Returned (new_polylines ++ [polyline], data)
      end).

Definition detect_ellipses (data : ExtractedData.t) (tolerance : Q)
  : outcome ExtractedData.t :=
  bind (foldM (ellipse_sweep_step tolerance) (ExtractedData.polylines data) ([], data))
       (fun '(new_polylines, data) =>
          Returned (ExtractedData.set_polylines data new_polylines)).

End EllipseDetection.

(** ** What a sweep does to one polyline *)

(** The verdict of one iteration: the polyline is kept, or replaced by one
    derived entity. *)
Inductive Verdict (E : Type) : Type :=
| Kept
| Promoted (e : E).
Arguments Kept {E}.
Arguments Promoted {E} e.

Definition kept_polylines {E : Type} (verdict : Polyline.t -> Verdict E)
    (l : list Polyline.t) : list Polyline.t :=
  filter (fun pl => match verdict pl with Kept => true | Promoted _ => false end) l.

Definition promoted_entities {E : Type} (verdict : Polyline.t -> Verdict E)
    (l : list Polyline.t) : list E :=
  flat_map (fun pl => match verdict pl with Kept => [] | Promoted e => [e] end) l.

Definition lefts {A B : Type} (l : list (A + B)) : list A :=
  flat_map (fun s => match s with inl a => [a] | inr _ => [] end) l.

Definition rights {A B : Type} (l : list (A + B)) : list B :=
  flat_map (fun s => match s with inl _ => [] | inr b => [b] end) l.

Definition circle_style_of (pl : Polyline.t) (c : Circle.t) : Prop :=
  Circle.color c = Polyline.color pl /\ Circle.width c = Polyline.width pl
  /\ Circle.layer c = Polyline.layer pl /\ Circle.linetype c = Polyline.linetype pl.

Definition arc_style_of (pl : Polyline.t) (a : Arc.t) : Prop :=
  Arc.color a = Polyline.color pl /\ Arc.width a = Polyline.width pl
  /\ Arc.layer a = Polyline.layer pl /\ Arc.linetype a = Polyline.linetype pl.

Definition ellipse_style_of (pl : Polyline.t) (e : Ellipse.t) : Prop :=
  Ellipse.color e = Polyline.color pl /\ Ellipse.width e = Polyline.width pl
  /\ Ellipse.layer e = Polyline.layer pl /\ Ellipse.linetype e = Polyline.linetype pl.

Definition round_style_of (pl : Polyline.t) (e : Circle.t + Arc.t) : Prop :=
  match e with
  | inl c => circle_style_of pl c
  | inr a => arc_style_of pl a
  end.

(** The collections and page dimensions that neither sweep may touch. *)
Definition same_frame (d d' : ExtractedData.t) : Prop :=
  ExtractedData.lines d' = ExtractedData.lines d
  /\ ExtractedData.rectangles d' = ExtractedData.rectangles d
  /\ ExtractedData.splines d' = ExtractedData.splines d
  /\ ExtractedData.texts d' = ExtractedData.texts d
  /\ ExtractedData.mtexts d' = ExtractedData.mtexts d
  /\ ExtractedData.hatches d' = ExtractedData.hatches d
  /\ ExtractedData.images d' = ExtractedData.images d
  /\ ExtractedData.width d' = ExtractedData.width d
  /\ ExtractedData.height d' = ExtractedData.height d
  /\ ExtractedData.layers d' = ExtractedData.layers d.

Section Verdicts.

Variable math_sqrt : Q -> Q.
Variable math_atan2 : Q -> Q -> Q.
Variable math_cos : Q -> Q.
Variable math_sin : Q -> Q.
Variable np_linalg_lstsq : list (list Q) -> list Q -> outcome (list Q).
Variable np_linalg_inv : Matrix -> outcome Matrix.
Variable np_linalg_eig : Matrix -> outcome (list Complex * list (list Complex)).

(** What [_fit_circle] returns: the value of its body, or [None] when the
    body raises. *)
Definition fit_circle_result (points : list Point) : option CircleFit :=
  match fit_circle_body math_sqrt np_linalg_lstsq points with
  | Returned r => r
  | Raised _ => None
  end.

Definition fit_ellipse_result (points : list Point) : option EllipseFit :=
  match fit_ellipse_body math_sqrt math_atan2 math_cos math_sin
                         np_linalg_inv np_linalg_eig points with
  | Returned r => r
  | Raised _ => None
  end.

(** The verdict of one iteration of [detect_circles_and_arcs]. *)
Definition circle_verdict (tolerance : Q) (pl : Polyline.t)
  : Verdict (Circle.t + Arc.t) :=
  if (List.length (Polyline.points pl) <? 6)%nat then Kept
  else
    match fit_circle_result (Polyline.points pl) with
    | Some (center, radius, error) =>
        if gtb radius (5 # 10) && ltb error (tolerance * radius) then
          if _is_full_circle math_atan2 (Polyline.points pl) center radius
             && Polyline.closed pl
          then Promoted (inl (circle_of pl center radius))
          else Promoted (inr (arc_of math_atan2 pl center radius))
        else Kept
    | None => Kept
    end.

(** The verdict of one iteration of [detect_ellipses]. *)
Definition ellipse_verdict (tolerance : Q) (pl : Polyline.t) : Verdict Ellipse.t :=
  if (List.length (Polyline.points pl) <? 8)%nat then Kept
  else
    match fit_ellipse_result (Polyline.points pl) with
    | Some (center, major_axis, minor_axis, rotation, error) =>
        let major_len := math_sqrt (fst major_axis ^ 2 + snd major_axis ^ 2) in
        if gtb major_len (5 # 10) && ext_ltb error (tolerance * major_len) then
          let ratio := math_sqrt (fst minor_axis ^ 2 + snd minor_axis ^ 2) / major_len in
          if gtb ratio float_0_95 then Kept
          else Promoted (ellipse_of math_sqrt math_atan2 math_cos math_sin
                                    pl center major_axis minor_axis rotation ratio)
        else Kept
    | None => Kept
    end.

(** The acceptance test of one iteration of [detect_circles_and_arcs]: at
    least 6 points, a fit, and [radius > 0.5 and error < tolerance * radius]. *)
Definition circle_accepted (tolerance : Q) (pl : Polyline.t) : bool :=
  if (List.length (Polyline.points pl) <? 6)%nat then false
  else
    match fit_circle_result (Polyline.points pl) with
    | Some (center, radius, error) =>
        gtb radius (5 # 10) && ltb error (tolerance * radius)
    | None => false
    end.

(** The acceptance test of one iteration of [detect_ellipses]: at least 8
    points, a fit, [major_len > 0.5 and error < tolerance * major_len], and
    a ratio that does not defer the polyline ([ratio > 0.95]). *)
Definition ellipse_accepted (tolerance : Q) (pl : Polyline.t) : bool :=
  if (List.length (Polyline.points pl) <? 8)%nat then false
  else
    match fit_ellipse_result (Polyline.points pl) with
    | Some (center, major_axis, minor_axis, rotation, error) =>
        let major_len := math_sqrt (fst major_axis ^ 2 + snd major_axis ^ 2) in
        let ratio := math_sqrt (fst minor_axis ^ 2 + snd minor_axis ^ 2) / major_len in
        gtb major_len (5 # 10) && ext_ltb error (tolerance * major_len)
        && negb (gtb ratio float_0_95)
    | None => false
    end.

End Verdicts.

(** ** The angle normalisation on binary64 numbers *)

(** [_calculate_arc_angles] and [_is_ccw] once more, on the numbers the
    interpreter computes with: IEEE 754 binary64, each operation rounded
    to nearest (ties to even).  [math.degrees(x)] is [x * (180.0 / pi)] in
    CPython; [math.atan2] is a parameter. *)
Module F64.

Import PrimFloat.
Local Open Scope float_scope.

Record Point : Type := mkPoint { x : float; y : float }.

(** [math.pi] *)
Definition math_pi : float := 0x1.921fb54442d18p+1.

(** [math.degrees] *)
Definition math_degrees (x : float) : float := x * (180 / math_pi).

Section Angles.

Variable math_atan2 : float -> float -> float.

Definition _calculate_arc_angles (center : float * float) (start end_ : Point)
  : float * float :=
  let start_angle :=
    math_degrees (math_atan2 (y start - snd center) (x start - fst center)) in
  let end_angle :=
    math_degrees (math_atan2 (y end_ - snd center) (x end_ - fst center)) in
  let start_angle := if start_angle <? 0 then start_angle + 360 else start_angle in
  let end_angle := if end_angle <? 0 then end_angle + 360 else end_angle in
  (start_angle, end_angle).

(** The signed area accumulated by [_is_ccw]. *)
Fixpoint signed_area_loop (points : list Point) (center : float * float)
    (signed_area : float) : float :=
  match points with
  | p1 :: ((p2 :: _) as r) =>
      let signed_area := signed_area + (x p1 - fst center) * (y p2 - snd center) in
      let signed_area := signed_area - (x p2 - fst center) * (y p1 - snd center) in
      signed_area_loop r center signed_area
  | _ => signed_area
  end.

Definition _is_ccw (points : list Point) (center : float * float) : bool :=
  if (List.length points <? 3)%nat then true
  else 0 <? signed_area_loop points center 0.

(** The angles [detect_circles_and_arcs] gives to the Arc made of
    [points]: those of the first and the last point, swapped when the
    points do not run counter-clockwise. *)
Definition arc_angles (points : list Point) (center : float * float) : float * float :=
  let (start_angle, end_angle) :=
    _calculate_arc_angles center (hd (mkPoint 0 0) points)
                          (last points (mkPoint 0 0)) in
  if negb (_is_ccw points center) then (end_angle, start_angle)
  else (start_angle, end_angle).

End Angles.

(** A stand-in for [math.atan2] next to the positive x axis, where the
    angle is the quotient [y / x] up to a relative error far below one
    unit in the last place. *)
Definition atan2_near_axis (y x : float) : float := y / x.

(** Six lattice points of the circle of centre (10, 10) and radius 5,
    counter-clockwise from (15, 10): an arc of a little more than a
    half-turn. *)
Definition arc6 : list Point :=
  [mkPoint 15 10; mkPoint 14 13; mkPoint 13 14; mkPoint 10 15; mkPoint 7 14;
   mkPoint 6 13].

End F64.

(** ** Rational stand-ins for [math] and [numpy], used to run the model *)

Module DemoLib.

(** Square root rounded down to a multiple of [2^-32]; exact on the
    squares of such multiples. *)
Definition sqrt (q : Q) : Q :=
  Qred (Z.sqrt (Qnum q * Zpos (Qden q) * 2 ^ 64) # (Qden q * 2 ^ 32)).

Definition clamp (lo hi v : Q) : Q :=
  if ltb v lo then lo else if ltb hi v then hi else v.

(** Arc tangent on [-1, 1], accurate to about 0.004 rad. *)
Definition atan_unit (z : Q) : Q :=
  z * (math_pi / 4 + (273 # 1000) * (1 - Qabs z)).

(** [atan2], by octant, from [atan_unit]; exact on the positive x axis. *)
Definition atan2 (y x : Q) : Q :=
  clamp (- math_pi) math_pi
    (Qred
       (if eqb x 0 && eqb y 0 then 0
        else if leb (Qabs y) (Qabs x) then
          let a := atan_unit (y / x) in
          if gtb x 0 then a else if geb y 0 then a + math_pi else a - math_pi
        else
          let a := atan_unit (x / y) in
          if gtb y 0 then math_pi / 2 - a else - math_pi / 2 - a)).

(** Taylor polynomials of degree 8 and 9 around 0; exact at 0. *)
Definition cos (t : Q) : Q :=
  let t2 := t * t in
  Qred (1 - t2 / 2 + t2 * t2 / 24 - t2 * t2 * t2 / 720
        + t2 * t2 * t2 * t2 / 40320).

Definition sin (t : Q) : Q :=
  let t2 := t * t in
  Qred (t * (1 - t2 / 6 + t2 * t2 / 120 - t2 * t2 * t2 / 5040
             + t2 * t2 * t2 * t2 / 362880)).

(** Determinant by expansion along the first row, and the inverse as the
    transposed cofactor matrix over the determinant: exact. *)
Fixpoint remove_nth {A : Type} (n : nat) (l : list A) : list A :=
  match n, l with
  | _, [] => []
  | O, _ :: r => r
  | S k, a :: r => a :: remove_nth k r
  end.

Fixpoint det (n : nat) (m : Matrix) : Q :=
  match n with
  | O => 1
  | S k =>
      match m with
      | [] => 0
      | row :: rest =>
          fold_left
            (fun acc '(j, a) =>
               if eqb a 0 then acc
               else
                 let minor := det k (map (remove_nth j) rest) in
                 Qred (acc + (if Nat.even j then a else - a) * minor))
            (combine (seq 0 (List.length row)) row) 0
      end
  end.

Definition inv (m : Matrix) : outcome Matrix :=
  let n := List.length m in
  let dt := det n m in
  if eqb dt 0 then Raised LinAlgError
  else
    Returned
      (map (fun i =>
              map (fun j =>
                     let minor :=
                       det (n - 1) (map (remove_nth i) (remove_nth j m)) in
                     Qred ((if Nat.even (i + j) then minor else - minor) / dt))
                  (seq 0 n))
           (seq 0 n)).

(** Least squares through the normal equations [(A^T A) x = A^T b]; a
    rank-deficient system raises (where [numpy] returns the minimum-norm
    solution). *)
Definition lstsq (A : Matrix) (b : list Q) : outcome (list Q) :=
  let width := List.length (hd [] A) in
  let At := transpose width A in
  let M := map (map Qred) (matmul width At A) in
  let v := map (fun row => Qred (dot row b)) At in
  bind (inv M) (fun M_inv =>
    Returned (map (fun row => Qred (dot row v)) M_inv)).

(** An eigen-solver that only checks: of the candidate vectors it is given,
    it returns those that are eigenvectors of [m], each with its
    eigenvalue.  Every pair it returns is a genuine eigenpair; given [n]
    independent eigenvectors of an [n] x [n] matrix it returns a complete
    eigen-decomposition.  ([numpy] scales each eigenvector to unit length;
    the fit does not depend on a positive scaling of the coefficients.) *)
Definition scalar_multiple (u v : list Q) : option Q :=
  match filter (fun '(_, b) => negb (eqb b 0)) (combine u v) with
  | [] => None
  | (a, b) :: _ =>
      let lambda := Qred (a / b) in
      if forallb (fun '(a, b) => eqb a (lambda * b)) (combine u v)
      then Some lambda else None
  end.

Definition eig_check (candidates : list (list Q)) (m : Matrix)
  : outcome (list Complex * list (list Complex)) :=
  let pairs :=
    flat_map
      (fun v =>
         match scalar_multiple (map (fun row => Qred (dot row v)) m) v with
         | Some lambda => [(lambda, v)]
         | None => []
         end) candidates in
  match pairs with
  | [] => Raised LinAlgError
  | _ :: _ =>
      Returned
        (map (fun '(lambda, _) => (lambda, 0)) pairs,
         map (fun i => map (fun '(_, v) => (nth i v 0, 0)) pairs)
             (seq 0 (List.length m)))
  end.

End DemoLib.

(** ** Sample inputs *)

Module Sample.

(** Twelve lattice points on the circle of centre (10, 10) and radius 5,
    counter-clockwise from (15, 10). *)
Definition circle12 : list Point :=
  [Point.mk 15 10; Point.mk 14 13; Point.mk 13 14; Point.mk 10 15;
   Point.mk 7 14; Point.mk 6 13; Point.mk 5 10; Point.mk 6 7;
   Point.mk 7 6; Point.mk 10 5; Point.mk 13 6; Point.mk 14 7].

Definition red : Color := (1, 0, 0).

Definition polyline (points : list Point) (closed : bool) : Polyline.t :=
  Polyline.mk points closed red 2 "outline" DASHED [].

(** A page holding the given polylines and nothing else. *)
Definition page (polylines : list Polyline.t) : ExtractedData.t :=
  ExtractedData.set_polylines (ExtractedData.empty 100 100) polylines.

(** Nine points around the ellipse x^2/400 + y^2/90.25 = 1 (semi-axes 20
    and 9.5, ratio 0.475): the vertex (20, 0) and, per quadrant, one point
    just outside and one just inside the ellipse, placed symmetrically so
    that the constrained least-squares conic through the nine points is
    exactly that ellipse. *)
Definition flat9 : list Point :=
  [Point.mk 20 0;
   Point.mk (400 # 29) (684 # 97); Point.mk (1300 # 97) (399 # 58);
   Point.mk (- (1300 # 97)) (399 # 58); Point.mk (- (400 # 29)) (684 # 97);
   Point.mk (- (400 # 29)) (- (684 # 97)); Point.mk (- (1300 # 97)) (- (399 # 58));
   Point.mk (1300 # 97) (- (399 # 58)); Point.mk (400 # 29) (- (684 # 97))].

(** The coefficients (a, b, c, d, e, f) of that ellipse:
    -361 x^2 - 1600 y^2 + 144400 = 0. *)
Definition flat9_conic : list Q := [-361; 0; -1600; 0; 0; 144400].

(** Six independent eigenvectors of [inv(S) C] for the nine points: the
    ellipse, the two conics with a negative eigenvalue, and the kernel of
    [C]. *)
Definition flat9_eigenvectors : list (list Q) :=
  [flat9_conic;
   [0; 1; 0; 0; 0; 0];
   [-233318069352889667; 0; 1034096706273195200; 972279096261016680; 0;
    1959251089000413200];
   [0; 0; 0; 1; 0; 0];
   [0; 0; 0; 0; 1; 0];
   [0; 0; 0; 0; 0; 1]].

(** The same construction around x^2/400 + y^2/380.25 = 1 (semi-axes 20
    and 19.5, ratio 0.975). *)
Definition round9 : list Point :=
  [Point.mk 20 0;
   Point.mk (400 # 29) (1404 # 97); Point.mk (1300 # 97) (819 # 58);
   Point.mk (- (1300 # 97)) (819 # 58); Point.mk (- (400 # 29)) (1404 # 97);
   Point.mk (- (400 # 29)) (- (1404 # 97)); Point.mk (- (1300 # 97)) (- (819 # 58));
   Point.mk (1300 # 97) (- (819 # 58)); Point.mk (400 # 29) (- (1404 # 97))].

Definition round9_conic : list Q := [-1521; 0; -1600; 0; 0; 608400].

Definition round9_eigenvectors : list (list Q) :=
  [round9_conic;
   [0; 1; 0; 0; 0; 0];
   [-983038181400956187; 0; 1034096706273195200; 4096500014994477480; 0;
    8254905557810605200];
   [0; 0; 0; 1; 0; 0];
   [0; 0; 0; 0; 1; 0];
   [0; 0; 0; 0; 0; 1]].

End Sample.

(** ** Text extraction

    [page.get_text("dict")] is embedded as the list of its blocks; a span
    carries the keys [_extract_text] reads, each with the value [get]
    would return for it. *)

(** [span["color"]] *)
Inductive SpanColor : Type :=
| SpanColor_int (c : Z)                  (* an sRGB integer *)
| SpanColor_seq (channels : list Q)      (* a list or tuple *)
| SpanColor_other.

Module Span.
Record t : Type := mk {
  text : string;
  origin : Q * Q;
  bbox : Q * Q * Q * Q;
  size : Q;
  font : string;
  color : SpanColor;
  flags : Z }.
End Span.

Module TextLine.
Record t : Type := mk { spans : list Span.t; dir : Q * Q }.
End TextLine.

Module Block.
Record t : Type := mk { type : Z; lines : list TextLine.t }.
End Block.

(** "Convert color integer to RGB" *)
Definition span_color (color : SpanColor) : Color :=
  match color with
  | SpanColor_int c =>
      (inject_Z (Z.land (Z.shiftr c 16) 255) / 255,
       inject_Z (Z.land (Z.shiftr c 8) 255) / 255,
       inject_Z (Z.land c 255) / 255)
  | SpanColor_seq (r :: g :: b :: _) => (r, g, b)
  | _ => black
  end.

(** "Calculate width factor from character spacing" *)
Definition span_width_factor (text : string) (bbox : Q * Q * Q * Q) (font_size : Q) : Q :=
  let '(bbox0, _, bbox2, _) := bbox in
  let text_width := bbox2 - bbox0 in
  if (0 <? String.length text)%nat && gtb font_size 0 then
    let estimated_width :=
      inject_Z (Z.of_nat (String.length text)) * font_size * (5 # 10) in
    if gtb estimated_width 0 then
      Py.min 2 (Py.max (5 # 10) (text_width / estimated_width))
    else 1
  else 1.

(** "Determine horizontal alignment based on position relative to bbox" *)
Definition span_halign (origin : Q * Q) (bbox : Q * Q * Q * Q) (font_size : Q) : string :=
  let '(bbox0, _, bbox2, _) := bbox in
  let bbox_center_x := (bbox0 + bbox2) / 2 in
  let origin_x := fst origin in
  if ltb (Qabs (origin_x - bbox0)) (font_size * (1 # 10)) then "LEFT"
  else if ltb (Qabs (origin_x - bbox_center_x)) (font_size * (1 # 10)) then "CENTER"
  else if ltb (Qabs (origin_x - bbox2)) (font_size * (1 # 10)) then "RIGHT"
  else "LEFT".

Section TextExtractor.

Variable math_atan2 : Q -> Q -> Q.
Variable scale : Q.
Variable page_height : Q.

(** The body of [for span in line_spans:]; [rotation] is the variable of
    the enclosing loop, which the body updates.  The normalised rotation
    lies in [0, 360], closed: on binary64 numbers a rotation just below 0
    plus 360 rounds to 360.0. *)
Definition process_span (acc : Q * ExtractedData.t) (span : Span.t)
  : Q * ExtractedData.t :=
  let (rotation, data) := acc in
  let text := Span.text span in
  if String.eqb text "" then (rotation, data)
  else
    let origin := Span.origin span in
    let bbox := Span.bbox span in
    let x := fst origin * scale in
    let y := _transform_y scale page_height (snd origin) in
    let font_size := Span.size span * scale in
    let is_italic := negb (Z.land (Span.flags span) 2 =? 0)%Z in
    let oblique := if is_italic then 12 else 0 in
    let width_factor := span_width_factor text bbox font_size in
    let color := span_color (Span.color span) in
    let rotation := if ltb rotation 0 then rotation + 360 else rotation in
    let halign := span_halign origin bbox font_size in
    let valign := "BASELINE"%string in
    (rotation,
     ExtractedData.set_texts data
       (ExtractedData.texts data
        ++ [TextEntity.mk text (Point.mk x y) font_size rotation color
                          (Span.font span) "0" halign valign width_factor oblique])).

(** The body of [for line in block_lines:] *)
Definition process_text_line (data : ExtractedData.t) (line : TextLine.t)
  : ExtractedData.t :=
  let line_dir := TextLine.dir line in
  let rotation := math_degrees (math_atan2 (snd line_dir) (fst line_dir)) in
  snd (fold_left process_span (TextLine.spans line) (rotation, data)).

(** [PDFVectorExtractor._extract_text], on [text_dict["blocks"]]. *)
Definition _extract_text (blocks : list Block.t) (data : ExtractedData.t)
  : ExtractedData.t :=
  fold_left
    (fun data block =>
       if (Block.type block =? 0)%Z
       then fold_left process_text_line (Block.lines block) data
       else data)
    blocks data.

End TextExtractor.

(** The spans of the text blocks that carry text, in reading order. *)
Definition text_spans (blocks : list Block.t) : list Span.t :=
  filter (fun span => negb (String.eqb (Span.text span) ""))
    (flat_map
       (fun block =>
          if (Block.type block =? 0)%Z
          then flat_map TextLine.spans (Block.lines block)
          else [])
       blocks).

(** What [_extract_text] guarantees of a text entity. *)
Definition text_entity_well_formed (e : TextEntity.t) : Prop :=
  TextEntity.text e <> ""%string
  /\ 0 <= TextEntity.rotation e <= 360
  /\ 5 # 10 <= TextEntity.width_factor e <= 2
  /\ (TextEntity.oblique e = 0 \/ TextEntity.oblique e = 12)
  /\ In (TextEntity.halign e) ["LEFT"; "CENTER"; "RIGHT"]%string
  /\ TextEntity.valign e = "BASELINE"%string
  /\ TextEntity.layer e = "0"%string.

(** ** The DXF writer ([src/pdf2dwg/dxf_writer.py])

    Only the parts of [DXFWriter] that do not go through [ezdxf]: the
    colour, line type and line weight conversions, and the state set up
    by the constructor. *)

(** [d.get(key, default)] on a dictionary in insertion order. *)
Fixpoint dict_get {K V : Type} (eqb : K -> K -> bool) (d : list (K * V))
    (key : K) (default : V) : V :=
  match d with
  | [] => default
  | (k, v) :: r => if eqb k key then v else dict_get eqb r key default
  end.

Definition LineType_eqb (a b : LineType) : bool :=
  match a, b with
  | CONTINUOUS, CONTINUOUS | DASHED, DASHED | DASHDOT, DASHDOT
  | DASHDOT2, DASHDOT2 | DOTTED, DOTTED | HIDDEN, HIDDEN => true
  | _, _ => false
  end.

(** [min(l, key=key)]: the first element with the least key. *)
Definition min_key (key : Z -> Z) (l : list Z) (d : Z) : Z :=
  match l with
  | [] => d
  | a :: r => fold_left (fun best x => if (key x <? key best)%Z then x else best) r a
  end.

Module DXFWriter.

Definition COLOR_MAP : list (Color * Z) :=
  [((1, 0, 0), 1%Z);
   ((1, 1, 0), 2%Z);
   ((0, 1, 0), 3%Z);
   ((0, 1, 1), 4%Z);
   ((0, 0, 1), 5%Z);
   ((1, 0, 1), 6%Z);
   ((1, 1, 1), 7%Z);
   ((0, 0, 0), 7%Z);
   ((5 # 10, 5 # 10, 5 # 10), 8%Z)].

Definition VERSION_MAP : list (string * string) :=
  [("R12", "R12"); ("R2000", "R2000"); ("R2004", "R2004"); ("R2007", "R2007");
   ("R2010", "R2010"); ("R2013", "R2013"); ("R2018", "R2018")]%string.

Definition LINETYPE_MAP : list (LineType * string) :=
  [(CONTINUOUS, "Continuous"); (DASHED, "DASHED"); (DASHDOT, "DASHDOT");
   (DASHDOT2, "DASHDOT2"); (DOTTED, "DOT"); (HIDDEN, "HIDDEN")]%string.

(** The attributes of a writer that the conversions read. *)
Record t : Type := mk { version : string; use_true_color : bool }.

(** [DXFWriter.__init__] *)
Definition __init__ (version : string) (use_true_color : bool) : t :=
  let version := dict_get String.eqb VERSION_MAP version "R2010"%string in
  mk version
     (use_true_color
      && negb (existsb (String.eqb version) ["R12"; "R2000"]%string)).

(** [DXFWriter._get_linetype]; [has_entry] is
    [self.doc.linetypes.has_entry]. *)
Definition _get_linetype (has_entry : string -> bool) (linetype : LineType) : string :=
  let dxf_linetype := dict_get LineType_eqb LINETYPE_MAP linetype "Continuous"%string in
  if negb (String.eqb dxf_linetype "Continuous") && negb (has_entry dxf_linetype)
  then "Continuous"%string
  else dxf_linetype.

(** [DXFWriter._get_or_create_layer]; [layers_add] is
    [self.doc.layers.add], which may raise, and the state is the set
    [self.layers_created]. *)
Definition _get_or_create_layer (layers_add : string -> outcome unit)
    (layers_created : list string) (layer_name : string) : string * list string :=
  if String.eqb layer_name "" then ("0"%string, layers_created)
  else if negb (existsb (String.eqb layer_name) layers_created) then
    match layers_add layer_name with
    | Returned _ => (layer_name, layer_name :: layers_created)
    | Raised _ => ("0"%string, layers_created)
    end
  else (layer_name, layers_created).

(** [DXFWriter._colors_match] *)
Definition _colors_match (c1 c2 : Color) (tolerance : Q) : bool :=
  let '(r1, g1, b1) := c1 in
  let '(r2, g2, b2) := c2 in
  ltb (Qabs (r1 - r2)) tolerance
  && ltb (Qabs (g1 - g2)) tolerance
  && ltb (Qabs (b1 - b2)) tolerance.

(** [DXFWriter._rgb_to_aci] *)
Definition _rgb_to_aci (color : Color) : Z :=
  match find (fun '(rgb, _) => _colors_match color rgb (1 # 10)) COLOR_MAP with
  | Some (_, aci) => aci
  | None =>
      let '(r, g, b) := color in
      if ltb r (1 # 10) && ltb g (1 # 10) && ltb b (1 # 10) then 7%Z
      else if gtb r (9 # 10) && gtb g (9 # 10) && gtb b (9 # 10) then 7%Z
      else if gtb r (7 # 10) && ltb g (3 # 10) && ltb b (3 # 10) then 1%Z
      else if gtb r (7 # 10) && gtb g (7 # 10) && ltb b (3 # 10) then 2%Z
      else if ltb r (3 # 10) && gtb g (7 # 10) && ltb b (3 # 10) then 3%Z
      else if ltb r (3 # 10) && gtb g (7 # 10) && gtb b (7 # 10) then 4%Z
      else if ltb r (3 # 10) && ltb g (3 # 10) && gtb b (7 # 10) then 5%Z
      else if gtb r (7 # 10) && ltb g (3 # 10) && gtb b (7 # 10) then 6%Z
      else
        let gray := (r + g + b) / 3 in
        if ltb gray (25 # 100) then 250%Z
        else if ltb gray (5 # 10) then 251%Z
        else if ltb gray (75 # 100) then 252%Z
        else 253%Z
  end.

(** [int(min(255, max(0, c * 255)))] *)
Definition channel_byte (c : Q) : Z := int (Py.min 255 (Py.max 0 (c * 255))).

(** [DXFWriter._rgb_to_true_color] *)
Definition _rgb_to_true_color (color : Color) : Z :=
  let '(c0, c1, c2) := color in
  let r := channel_byte c0 in
  let g := channel_byte c1 in
  let b := channel_byte c2 in
  Z.lor (Z.lor (Z.shiftl r 16) (Z.shiftl g 8)) b.

(** [DXFWriter._get_color_attribs]: the dictionary returned, as its one
    item. *)
Definition _get_color_attribs (self : t) (color : Color) : string * Z :=
  if use_true_color self then ("true_color"%string, _rgb_to_true_color color)
  else ("color"%string, _rgb_to_aci color).

Definition standard_weights : list Z :=
  [0; 5; 9; 13; 15; 18; 20; 25; 30; 35; 40; 50;
   53; 60; 70; 80; 90; 100; 106; 120; 140; 158;
   200; 211]%Z.

(** [DXFWriter._mm_to_lineweight] *)
Definition _mm_to_lineweight (width : Q) : Z :=
  let weight_100 := int (width * 100) in
  min_key (fun x => Z.abs (x - weight_100)) standard_weights 0%Z.

End DXFWriter.

(** ** Merging pages ([merge_pages_to_dxf]) *)

(** [str(n)] for a natural number. *)
Definition str_of_nat (n : nat) : string := NilEmpty.string_of_uint (Nat.to_uint n).

(** [Point(p.x + x_offset, p.y)] *)
Definition offset_point (x_offset : Q) (p : Point) : Point :=
  Point.mk (Point.x p + x_offset) (Point.y p).

(** The body of [for i, page_data in enumerate(pages_data):]; the state is
    [combined] and [x_offset]. *)
Definition merge_page (spacing : Q) (st : ExtractedData.t * Q)
    (entry : nat * ExtractedData.t) : ExtractedData.t * Q :=
  let (combined, x_offset) := st in
  let (i, page_data) := entry in
  let page_layer := ("Page_" ++ str_of_nat (i + 1))%string in
  let off := offset_point x_offset in
  let combined :=
    ExtractedData.mk
      (ExtractedData.lines combined
       ++ map (fun line =>
                 Line.mk (off (Line.start line)) (off (Line.end_ line))
                         (Line.color line) (Line.width line) page_layer
                         (Line.linetype line))
              (ExtractedData.lines page_data))
      (ExtractedData.arcs combined
       ++ map (fun arc =>
                 Arc.mk (off (Arc.center arc)) (Arc.radius arc)
                        (Arc.start_angle arc) (Arc.end_angle arc)
                        (Arc.color arc) (Arc.width arc) page_layer
                        (Arc.linetype arc))
              (ExtractedData.arcs page_data))
      (ExtractedData.circles combined
       ++ map (fun circle =>
                 Circle.mk (off (Circle.center circle)) (Circle.radius circle)
                           (Circle.color circle) (Circle.width circle) page_layer
                           (Circle.linetype circle))
              (ExtractedData.circles page_data))
      (ExtractedData.ellipses combined
       ++ map (fun ellipse =>
                 Ellipse.mk (off (Ellipse.center ellipse)) (Ellipse.major_axis ellipse)
                            (Ellipse.ratio ellipse) (Ellipse.start_param ellipse)
                            (Ellipse.end_param ellipse) (Ellipse.color ellipse)
                            (Ellipse.width ellipse) page_layer
                            (Ellipse.linetype ellipse))
              (ExtractedData.ellipses page_data))
      (ExtractedData.polylines combined
       ++ map (fun polyline =>
                 Polyline.mk (map off (Polyline.points polyline))
                             (Polyline.closed polyline) (Polyline.color polyline)
                             (Polyline.width polyline) page_layer
                             (Polyline.linetype polyline) [])
              (ExtractedData.polylines page_data))
      (ExtractedData.splines combined
       ++ map (fun spline =>
                 Spline.mk (map off (Spline.control_points spline))
                           (Spline.degree spline) (Spline.color spline)
                           (Spline.width spline) page_layer
                           (Spline.linetype spline) [] [])
              (ExtractedData.splines page_data))
      (ExtractedData.texts combined
       ++ map (fun text =>
                 TextEntity.mk (TextEntity.text text) (off (TextEntity.position text))
                               (TextEntity.height text) (TextEntity.rotation text)
                               (TextEntity.color text) (TextEntity.font text)
                               page_layer (TextEntity.halign text)
                               (TextEntity.valign text) (TextEntity.width_factor text)
                               (TextEntity.oblique text))
              (ExtractedData.texts page_data))
      (ExtractedData.mtexts combined
       ++ map (fun mtext =>
                 MText.mk (MText.text mtext) (off (MText.position mtext))
                          (MText.width mtext) (MText.height mtext)
                          (MText.rotation mtext) (MText.color mtext)
                          (MText.font mtext) page_layer
                          (MText.attachment_point mtext))
              (ExtractedData.mtexts page_data))
      (ExtractedData.rectangles combined
       ++ map (fun rect =>
                 Rectangle.mk (off (Rectangle.corner rect)) (Rectangle.width rect)
                              (Rectangle.height rect) (Rectangle.color rect)
                              (Rectangle.line_width rect) page_layer
                              (Rectangle.linetype rect) (Rectangle.fill_color rect))
              (ExtractedData.rectangles page_data))
      (ExtractedData.hatches combined
       ++ map (fun hatch =>
                 Hatch.mk (map (map off) (Hatch.boundary_paths hatch))
                          (Hatch.pattern_name hatch) (Hatch.color hatch) page_layer
                          (Hatch.scale hatch) (Hatch.angle hatch)
                          false "LINEAR" None None 0 false None)
              (ExtractedData.hatches page_data))
      (ExtractedData.images combined
       ++ map (fun image =>
                 ImageEntity.mk (off (ImageEntity.position image))
                                (ImageEntity.width image) (ImageEntity.height image)
                                (ImageEntity.image_data image) page_layer
                                (ImageEntity.rotation image) "" 0%Z 0%Z "" 8%Z false)
              (ExtractedData.images page_data))
      (ExtractedData.width combined)
      (ExtractedData.height combined)
      (ExtractedData.layers combined) in
  (combined, x_offset + (ExtractedData.width page_data + spacing)).

(** [enumerate(l)] *)
Definition enumerate {A : Type} (l : list A) : list (nat * A) :=
  combine (seq 0 (List.length l)) l.

(** The container [merge_pages_to_dxf] hands to [create_dxf_from_data]. *)
Definition merge_pages (pages_data : list ExtractedData.t) (spacing : Q)
  : ExtractedData.t :=
  fst (fold_left (merge_page spacing) (enumerate pages_data)
                 (ExtractedData.empty 0 0, 0)).

(** [merge_pages_to_dxf]; writing the file is left to
    [create_dxf_from_data]. *)
Definition merge_pages_to_dxf
    (create_dxf_from_data : ExtractedData.t -> string -> string -> outcome string)
    (pages_data : list ExtractedData.t) (output_path version : string) (spacing : Q)
  : outcome string :=
  match pages_data with
  | [] => Raised ValueError
  | _ :: _ => create_dxf_from_data (merge_pages pages_data spacing) output_path version
  end.

(** The layer of page number [i] (counted from 0), and the value of
    [x_offset] when the loop reaches it. *)
Definition page_layer (i : nat) : string := ("Page_" ++ str_of_nat (i + 1))%string.

Definition page_offset (pages_data : list ExtractedData.t) (spacing : Q) (i : nat) : Q :=
  fold_left (fun x_offset page => x_offset + (ExtractedData.width page + spacing))
            (firstn i pages_data) 0.

(** The copy of a line that the merge stores. *)
Definition merged_line (x_offset : Q) (layer : string) (line : Line.t) : Line.t :=
  Line.mk (offset_point x_offset (Line.start line))
          (offset_point x_offset (Line.end_ line))
          (Line.color line) (Line.width line) layer (Line.linetype line).

(** The horizontal extent of the lines of a page lies on the page. *)
Definition lines_on_page (page : ExtractedData.t) : Prop :=
  Forall (fun line =>
            0 <= Point.x (Line.start line) <= ExtractedData.width page
            /\ 0 <= Point.x (Line.end_ line) <= ExtractedData.width page)
         (ExtractedData.lines page).

(** ** The conversion pipeline ([src/pdf2dwg/converter.py]) *)

Inductive PageMode : Type :=
| SINGLE
| SEPARATE
| MERGE.

(** "Determine which pages to process" in [PDFToDWGConverter.convert] *)
Definition pages_to_process (pages : option (list Z)) (page_mode : PageMode)
    (page_count : Z) : list Z :=
  match pages with
  | Some pages => filter (fun p => (0 <=? p)%Z && (p <? page_count)%Z) pages
  | None =>
      match page_mode with
      | SINGLE => [0%Z]
      | _ => range page_count
      end
  end.

(** The progress reported while extracting page number [i] of [n]. *)
Definition extraction_progress (i n : Z) : outcome Q :=
  bind (div (inject_Z i) (inject_Z n)) (fun r => Returned ((1 # 10) + (4 # 10) * r)).

Section Pipeline.

Variable math_sqrt : Q -> Q.
Variable math_atan2 : Q -> Q -> Q.
Variable math_cos : Q -> Q.
Variable math_sin : Q -> Q.
Variable np_linalg_lstsq : list (list Q) -> list Q -> outcome (list Q).
Variable np_linalg_inv : Matrix -> outcome Matrix.
Variable np_linalg_eig : Matrix -> outcome (list Complex * list (list Complex)).

(** The detection stage applied to each extracted page, with the default
    tolerances of the two sweeps. *)
Definition detect_page (detect_geometry detect_ellipse : bool)
    (page_data : ExtractedData.t) : outcome ExtractedData.t :=
  bind (if detect_geometry
        then detect_circles_and_arcs math_sqrt math_atan2 np_linalg_lstsq
                                     page_data (2 # 100)
        else Returned page_data)
       (fun page_data =>
          if detect_ellipse
          then detect_ellipses math_sqrt math_atan2 math_cos math_sin
                               np_linalg_inv np_linalg_eig page_data (5 # 100)
          else Returned page_data).

End Pipeline.

(** "Calculate total entities" *)
Definition total_entities (extracted_pages : list ExtractedData.t) : nat :=
  fold_left (fun total data => (total + ExtractedData.get_entity_count data)%nat)
            extracted_pages 0%nat.

(** ** The progress bar of the command line ([src/pdf2dwg/cli.py]) *)

(** [s * n] on strings: empty for [n <= 0]. *)
Definition str_mul (s : string) (n : Z) : string :=
  String.concat "" (repeat s (Z.to_nat n)).

(** The [bar] drawn by [progress_callback]. *)
Definition progress_bar (progress : Q) : string :=
  let bar_width := 30%Z in
  let filled := int (inject_Z bar_width * progress) in
  (str_mul "=" filled ++ str_mul "-" (bar_width - filled))%string.

(** ** Predicates for the statements *)

(** A hatch as the extractor builds them: solid, with one boundary of at
    least three points. *)
Definition solid_hatch (h : Hatch.t) : Prop :=
  Hatch.pattern_name h = "SOLID"%string
  /\ Hatch.is_gradient h = false
  /\ exists boundary, Hatch.boundary_paths h = [boundary]
                      /\ (3 <= List.length boundary)%nat.

(** [l] extends [l0] at the end. *)
Definition extends {A : Type} (l0 l : list A) : Prop := exists added, l = l0 ++ added.


(** What [_extract_drawings] may do to a container: append lines,
    rectangles, polylines and hatches, and nothing else. *)
Definition drawings_frame (d d' : ExtractedData.t) : Prop :=
  ExtractedData.arcs d' = ExtractedData.arcs d
  /\ ExtractedData.circles d' = ExtractedData.circles d
  /\ ExtractedData.ellipses d' = ExtractedData.ellipses d
  /\ ExtractedData.splines d' = ExtractedData.splines d
  /\ ExtractedData.texts d' = ExtractedData.texts d
  /\ ExtractedData.mtexts d' = ExtractedData.mtexts d
  /\ ExtractedData.images d' = ExtractedData.images d
  /\ ExtractedData.width d' = ExtractedData.width d
  /\ ExtractedData.height d' = ExtractedData.height d
  /\ ExtractedData.layers d' = ExtractedData.layers d
  /\ extends (ExtractedData.lines d) (ExtractedData.lines d')
  /\ extends (ExtractedData.rectangles d) (ExtractedData.rectangles d')
  /\ extends (ExtractedData.polylines d) (ExtractedData.polylines d')
  /\ extends (ExtractedData.hatches d) (ExtractedData.hatches d').


(** What a text entity takes from its span: the text, the origin in
    drawing coordinates, the scaled size, the font and the colour. *)
Definition span_content (scale page_height : Q) (span : Span.t)
  : string * Point * Q * string * Color :=
  (Span.text span,
   Point.mk (fst (Span.origin span) * scale)
            (_transform_y scale page_height (snd (Span.origin span))),
   Span.size span * scale, Span.font span, span_color (Span.color span)).

Definition text_content (e : TextEntity.t) : string * Point * Q * string * Color :=
  (TextEntity.text e, TextEntity.position e, TextEntity.height e,
   TextEntity.font e, TextEntity.color e).

(** A strictly increasing list of integers. *)
Fixpoint increasing (l : list Z) : Prop :=
  match l with
  | [] => True
  | a :: r => (forall b, In b r -> (a < b)%Z) /\ increasing r
  end.

(** ** More sample inputs *)

Module SamplePages.

(** One text block: an italic red span on a line running upwards. *)
Definition text_blocks : list Block.t :=
  [Block.mk 0
     [TextLine.mk
        [Span.mk "Hi" (10, 20) (10, 12, 30, 22) 12 "Arial" (SpanColor_int 16711680) 2;
         Span.mk "" (30, 20) (30, 12, 30, 22) 12 "Arial" (SpanColor_int 0) 0]
        (0, -1)]].

Definition line_a : Line.t :=
  Line.mk (Point.mk 0 0) (Point.mk 100 40) Sample.red 1 "0" CONTINUOUS.

Definition line_b : Line.t :=
  Line.mk (Point.mk 0 10) (Point.mk 50 10) Sample.red 1 "0" DASHED.

(** Two pages, 100 and 50 units wide, one line each. *)
Definition page_a : ExtractedData.t :=
  ExtractedData.set_lines (ExtractedData.empty 100 80) [line_a].

Definition page_b : ExtractedData.t :=
  ExtractedData.set_lines (ExtractedData.empty 50 80) [line_b].

(** A filled path without a stroke width. *)
Definition filled_path : Path.t :=
  Path.mk [] None (Fill_gray (5 # 10)) (Some 0) Dashes_None true true.

Definition triangle : Subpath.t :=
  Subpath.mk [Point.mk 0 0; Point.mk 1 0; Point.mk 1 1] true false.

End SamplePages.

(** * Properties *)

(** ** Python builtins: the hash model agrees with CPython on sample values *)

Example hash_tuple_zero :
  hash_tuple [hash_float 0; hash_float 0] = (-8458139203682520985)%Z.
Proof. vm_compute. reflexivity. Qed.

Example hash_tuple_halves :
  hash_tuple [hash_float (1 # 2); hash_float (1 # 4)] = 515124979188116801%Z.
Proof. vm_compute. reflexivity. Qed.

Example hash_tuple_neg :
  hash_tuple [hash_float (- (1 # 2)); hash_float 3] = 1887671376382959377%Z
  /\ hash_tuple [hash_float (-1); hash_float 1] = 9083154820904886697%Z.
Proof. vm_compute. split; reflexivity. Qed.

Example hash_fraction_micro :
  hash_float (1 # 1000000) = 499097413501294842%Z.
Proof. vm_compute. reflexivity. Qed.

(** ** Arithmetic helpers *)

Lemma ltb_true (a b : Q) : ltb a b = true <-> a < b.
Proof.
  unfold ltb. rewrite negb_true_iff. split; intro H.
  - apply Qnot_le_lt. intro Hle. apply Qle_bool_iff in Hle. congruence.
  - destruct (Qle_bool b a) eqn:E; [|reflexivity].
    apply Qle_bool_iff in E. exfalso. apply (Qlt_not_le _ _ H E).
Qed.

Lemma ltb_false (a b : Q) : ltb a b = false <-> b <= a.
Proof.
  unfold ltb. rewrite negb_false_iff. apply Qle_bool_iff.
Qed.

Lemma gtb_true (a b : Q) : gtb a b = true <-> b < a.
Proof. apply ltb_true. Qed.

Lemma gtb_false (a b : Q) : gtb a b = false <-> a <= b.
Proof. apply ltb_false. Qed.

Lemma leb_true (a b : Q) : leb a b = true <-> a <= b.
Proof. apply Qle_bool_iff. Qed.

Lemma leb_false (a b : Q) : leb a b = false <-> b < a.
Proof.
  unfold leb. split; intro H.
  - apply Qnot_le_lt. intro Hle. apply Qle_bool_iff in Hle. congruence.
  - destruct (Qle_bool a b) eqn:E; [|reflexivity].
    apply Qle_bool_iff in E. exfalso. apply (Qlt_not_le _ _ H E).
Qed.

(** Turn every boolean comparison in the context into its proposition. *)
Ltac bool2prop :=
  repeat match goal with
  | H : ltb _ _ = true |- _ => apply ltb_true in H
  | H : ltb _ _ = false |- _ => apply ltb_false in H
  | H : gtb _ _ = true |- _ => apply gtb_true in H
  | H : gtb _ _ = false |- _ => apply gtb_false in H
  | H : leb _ _ = true |- _ => apply leb_true in H
  | H : leb _ _ = false |- _ => apply leb_false in H
  | H : geb _ _ = true |- _ => apply leb_true in H
  | H : geb _ _ = false |- _ => apply leb_false in H
  end.

Lemma gtb_compat (a a' b b' : Q) : a == a' -> b == b' -> gtb a b = gtb a' b'.
Proof.
  intros Ha Hb. unfold gtb, ltb. now rewrite Ha, Hb.
Qed.

Lemma div_returned (a b : Q) : ~ b == 0 -> div a b = Returned (a / b).
Proof.
  intro H. unfold div. destruct (Qeq_bool b 0) eqn:E; [|reflexivity].
  apply Qeq_bool_iff in E. contradiction.
Qed.

Lemma int_nonneg (q : Q) : 0 <= q -> int q = Qfloor q.
Proof.
  destruct q as [n d]. unfold int, Qfloor, Qle. simpl. intro H.
  apply Z.quot_div_nonneg; lia.
Qed.

Lemma int_mono (p q : Q) : 0 <= p -> p <= q -> (int p <= int q)%Z.
Proof.
  intros Hp Hpq. rewrite !int_nonneg by lra. now apply Qfloor_resp_le.
Qed.

Lemma int_inject_Z (z : Z) : int (inject_Z z) = z.
Proof. unfold int. simpl. apply Z.quot_1_r. Qed.

Lemma int_lower (z : Z) (q : Q) : (0 <= z)%Z -> inject_Z z <= q -> (z <= int q)%Z.
Proof.
  intros Hz Hq. rewrite <- (int_inject_Z z) at 1. apply int_mono; [|exact Hq].
  change 0 with (inject_Z 0). now rewrite <- Zle_Qle.
Qed.

Lemma mapM_returned {A B : Type} (f : A -> outcome B) (g : A -> B) (l : list A) :
  (forall a, In a l -> f a = Returned (g a)) -> mapM f l = Returned (map g l).
Proof.
  induction l as [|a r IH]; intro H; simpl.
  - reflexivity.
  - rewrite (H a) by now left. simpl.
    rewrite IH by (intros; apply H; now right). reflexivity.
Qed.

Lemma range_succ (n : Z) : (0 <= n)%Z -> range (n + 1) = range n ++ [n].
Proof.
  intro H. unfold range.
  replace (Z.to_nat (n + 1)) with (S (Z.to_nat n)) by lia.
  rewrite seq_S, map_app. simpl. now rewrite Z2Nat.id.
Qed.

Lemma range_head (n : Z) : (1 <= n)%Z -> exists r, range n = 0%Z :: r.
Proof.
  intro H. unfold range. destruct (Z.to_nat n) as [|k] eqn:E; [lia|].
  simpl. eexists. reflexivity.
Qed.

Lemma range_length (n : Z) : (0 <= n)%Z -> Z.of_nat (List.length (range n)) = n.
Proof.
  intro H. unfold range. rewrite length_map, length_seq. lia.
Qed.

Lemma range_nonzero_divisor (n i : Z) : (1 <= n)%Z -> ~ inject_Z n == 0.
Proof.
  intros H E. unfold Qeq in E. simpl in E. lia.
Qed.

(** ** Curve flattener *)

Section FlattenerFacts.

Variable math_sqrt : Q -> Q.

Lemma bezier_segments_returns (p0 p1 p2 p3 : Point) (segments : Z) (adaptive : bool) :
  (1 <= segments)%Z ->
  exists n, bezier_segments math_sqrt p0 p1 p2 p3 segments adaptive = Returned n
            /\ (1 <= n)%Z.
Proof.
  intro Hs. unfold bezier_segments.
  destruct adaptive; [|exists segments; split; [reflexivity|exact Hs]].
  set (ch := Point.distance_to math_sqrt p0 p3).
  set (cl := Point.distance_to math_sqrt p0 p1 + Point.distance_to math_sqrt p1 p2
             + Point.distance_to math_sqrt p2 p3).
  assert (Hq : 1 <= inject_Z segments)
    by (change 1 with (inject_Z 1); now rewrite <- Zle_Qle).
  destruct (gtb ch (1 # 1000)) eqn:Hch.
  - bool2prop. rewrite div_returned by lra. simpl.
    eexists. split; [reflexivity|].
    assert (H15 : (1 <= int (inject_Z segments * (15 # 10)))%Z)
      by (apply (int_lower 1); [lia|]; change (inject_Z 1) with 1; lra).
    assert (H12 : (1 <= int (inject_Z segments * (12 # 10)))%Z)
      by (apply (int_lower 1); [lia|]; change (inject_Z 1) with 1; lra).
    destruct (gtb (cl / ch) (15 # 10)) eqn:R1.
    + bool2prop.
      assert (H : (1 <= int (inject_Z segments * (cl / ch)))%Z)
        by (apply (int_lower 1); [lia|]; change (inject_Z 1) with 1; nra).
      destruct (gtb cl 100); [lia|]. destruct (gtb cl 50); lia.
    + destruct (gtb (cl / ch) (12 # 10)); [|destruct (gtb (cl / ch) (11 # 10))];
        (destruct (gtb cl 100); [lia|]; destruct (gtb cl 50); lia).
  - simpl. eexists. split; [reflexivity|].
    destruct (gtb cl 100); [lia|]. destruct (gtb cl 50); lia.
Qed.

Lemma quad_segments_returns (p0 p1 p2 : Point) (segments : Z) (adaptive : bool) :
  (1 <= segments)%Z ->
  exists n, quad_segments math_sqrt p0 p1 p2 segments adaptive = Returned n
            /\ (1 <= n)%Z.
Proof.
  intro Hs. unfold quad_segments.
  destruct adaptive; [|exists segments; split; [reflexivity|exact Hs]].
  set (ch := Point.distance_to math_sqrt p0 p2).
  set (cl := Point.distance_to math_sqrt p0 p1 + Point.distance_to math_sqrt p1 p2).
  assert (Hq : 1 <= inject_Z segments)
    by (change 1 with (inject_Z 1); now rewrite <- Zle_Qle).
  destruct (gtb ch (1 # 1000)) eqn:Hch.
  - bool2prop. rewrite div_returned by lra. simpl.
    eexists. split; [reflexivity|].
    assert (H13 : (1 <= int (inject_Z segments * (13 # 10)))%Z)
      by (apply (int_lower 1); [lia|]; change (inject_Z 1) with 1; lra).
    destruct (gtb (cl / ch) (13 # 10)) eqn:R1.
    + bool2prop.
      assert (H : (1 <= int (inject_Z segments * (cl / ch)))%Z)
        by (apply (int_lower 1); [lia|]; change (inject_Z 1) with 1; nra).
      lia.
    + destruct (gtb (cl / ch) (11 # 10)); lia.
  - exists segments. split; [reflexivity|exact Hs].
Qed.

Lemma cubic_loop (p0 p1 p2 p3 : Point) (n : Z) :
  (1 <= n)%Z ->
  mapM (bezier_sample p0 p1 p2 p3 n) (range (n + 1))
  = Returned (map (cubic_at p0 p1 p2 p3 n) (range (n + 1))).
Proof.
  intro Hn. apply mapM_returned. intros i _. unfold bezier_sample.
  rewrite div_returned by (apply (range_nonzero_divisor n i Hn)). reflexivity.
Qed.

Lemma quad_loop (p0 p1 p2 : Point) (n : Z) :
  (1 <= n)%Z ->
  mapM (quad_sample p0 p1 p2 n) (range (n + 1))
  = Returned (map (quad_at p0 p1 p2 n) (range (n + 1))).
Proof.
  intro Hn. apply mapM_returned. intros i _. unfold quad_sample.
  rewrite div_returned by (apply (range_nonzero_divisor n i Hn)). reflexivity.
Qed.

(** A list sampled over [range (n + 1)], [n >= 1], has a first element
    sampled at [0], a last one sampled at [n], and [n + 1] elements. *)
Lemma sampled_shape {A : Type} (g : Z -> A) (n : Z) :
  (1 <= n)%Z ->
  exists mid, map g (range (n + 1)) = g 0%Z :: mid ++ [g n]
              /\ Z.of_nat (List.length (map g (range (n + 1)))) = (n + 1)%Z.
Proof.
  intro Hn. rewrite length_map, range_length by lia.
  rewrite range_succ by lia.
  destruct (range_head n Hn) as [r Hr]. rewrite Hr. simpl.
  exists (map g r). rewrite map_app. simpl. split; reflexivity.
Qed.

Lemma Point_eq_of_Qeq (p q : Point) :
  Point.x p == Point.x q -> Point.y p == Point.y q -> Point.eq p q = true.
Proof.
  intros Hx Hy. unfold Point.eq. apply andb_true_intro. split; apply ltb_true.
  - setoid_replace (Point.x p - Point.x q) with 0 by lra. reflexivity.
  - setoid_replace (Point.y p - Point.y q) with 0 by lra. reflexivity.
Qed.

Lemma cubic_at_0 (p0 p1 p2 p3 : Point) (n : Z) :
  (1 <= n)%Z ->
  Point.x (cubic_at p0 p1 p2 p3 n 0) == Point.x p0
  /\ Point.y (cubic_at p0 p1 p2 p3 n 0) == Point.y p0.
Proof.
  intro Hn. unfold cubic_at. simpl.
  assert (Hd : ~ inject_Z n == 0) by (apply (range_nonzero_divisor n 0 Hn)).
  split; field; exact Hd.
Qed.

Lemma cubic_at_n (p0 p1 p2 p3 : Point) (n : Z) :
  (1 <= n)%Z ->
  Point.x (cubic_at p0 p1 p2 p3 n n) == Point.x p3
  /\ Point.y (cubic_at p0 p1 p2 p3 n n) == Point.y p3.
Proof.
  intro Hn. unfold cubic_at. simpl.
  assert (Hd : ~ inject_Z n == 0) by (apply (range_nonzero_divisor n 0 Hn)).
  split; field; exact Hd.
Qed.

Lemma quad_at_0 (p0 p1 p2 : Point) (n : Z) :
  (1 <= n)%Z ->
  Point.x (quad_at p0 p1 p2 n 0) == Point.x p0
  /\ Point.y (quad_at p0 p1 p2 n 0) == Point.y p0.
Proof.
  intro Hn. unfold quad_at. simpl.
  assert (Hd : ~ inject_Z n == 0) by (apply (range_nonzero_divisor n 0 Hn)).
  split; field; exact Hd.
Qed.

Lemma quad_at_n (p0 p1 p2 : Point) (n : Z) :
  (1 <= n)%Z ->
  Point.x (quad_at p0 p1 p2 n n) == Point.x p2
  /\ Point.y (quad_at p0 p1 p2 n n) == Point.y p2.
Proof.
  intro Hn. unfold quad_at. simpl.
  assert (Hd : ~ inject_Z n == 0) by (apply (range_nonzero_divisor n 0 Hn)).
  split; field; exact Hd.
Qed.

End FlattenerFacts.

(** C3.  Whatever the control points (degenerate, zero-chord curves
    included) and whatever base segment count of at least one, both
    flatteners return normally (no division raises) a list of at least two
    points whose first element is [p0] and whose last element is the curve's
    terminal point ([p3], resp. [p2]): the coordinates agree exactly, hence
    also under the 1e-6 tolerance of [Point.__eq__]. *)
Theorem flatten_endpoints
    (math_sqrt : Q -> Q) (p0 p1 p2 p3 : Point) (segments : Z) (adaptive : bool) :
  (1 <= segments)%Z ->
  (exists first mid last,
      _bezier_to_points math_sqrt p0 p1 p2 p3 segments adaptive
      = Returned (first :: mid ++ [last])
      /\ Point.x first == Point.x p0 /\ Point.y first == Point.y p0
      /\ Point.x last == Point.x p3 /\ Point.y last == Point.y p3
      /\ Point.eq first p0 = true /\ Point.eq last p3 = true)
  /\
  (exists first mid last,
      _quad_bezier_to_points math_sqrt p0 p1 p2 segments adaptive
      = Returned (first :: mid ++ [last])
      /\ Point.x first == Point.x p0 /\ Point.y first == Point.y p0
      /\ Point.x last == Point.x p2 /\ Point.y last == Point.y p2
      /\ Point.eq first p0 = true /\ Point.eq last p2 = true).
Proof.
  intro Hs. split.
  - destruct (bezier_segments_returns math_sqrt p0 p1 p2 p3 segments adaptive Hs)
      as [n [Hn Hn1]].
    unfold _bezier_to_points. rewrite Hn. simpl. rewrite cubic_loop by exact Hn1.
    destruct (sampled_shape (cubic_at p0 p1 p2 p3 n) n Hn1) as [mid [Hshape _]].
    rewrite Hshape.
    destruct (cubic_at_0 p0 p1 p2 p3 n Hn1) as [Hx0 Hy0].
    destruct (cubic_at_n p0 p1 p2 p3 n Hn1) as [Hxn Hyn].
    exists (cubic_at p0 p1 p2 p3 n 0), mid, (cubic_at p0 p1 p2 p3 n n).
    repeat split; try assumption; now apply Point_eq_of_Qeq.
  - destruct (quad_segments_returns math_sqrt p0 p1 p2 segments adaptive Hs)
      as [n [Hn Hn1]].
    unfold _quad_bezier_to_points. rewrite Hn. simpl. rewrite quad_loop by exact Hn1.
    destruct (sampled_shape (quad_at p0 p1 p2 n) n Hn1) as [mid [Hshape _]].
    rewrite Hshape.
    destruct (quad_at_0 p0 p1 p2 n Hn1) as [Hx0 Hy0].
    destruct (quad_at_n p0 p1 p2 n Hn1) as [Hxn Hyn].
    exists (quad_at p0 p1 p2 n 0), mid, (quad_at p0 p1 p2 n n).
    repeat split; try assumption; now apply Point_eq_of_Qeq.
Qed.

(** The flatteners on a zero-chord curve (a closed loop leaving and
    re-entering [(0,0)]) with the call-site segment counts. *)
Lemma flatten_endpoints_witness :
  (1 <= 16)%Z
  /\ exists first mid last,
      _bezier_to_points DemoLib.sqrt
        (Point.mk 0 0) (Point.mk 3 4) (Point.mk (-3) 4) (Point.mk 0 0) 16 true
      = Returned (first :: mid ++ [last])
      /\ Point.eq first (Point.mk 0 0) = true
      /\ Point.eq last (Point.mk 0 0) = true.
Proof.
  split; [lia|].
  destruct (flatten_endpoints DemoLib.sqrt
              (Point.mk 0 0) (Point.mk 3 4) (Point.mk (-3) 4) (Point.mk 0 0) 16 true)
    as [(first & mid & last & H & _ & _ & _ & _ & Hf & Hl) _]; [lia|].
  exists first, mid, last. repeat split; assumption.
Defined.

Ltac split_ifs :=
  repeat match goal with
  | |- context [if ?c then _ else _] => destruct c eqn:?
  end.

Ltac use_implications :=
  repeat match goal with
  | H : ?P -> _, H' : ?P |- _ => specialize (H H')
  end.

Section FlattenerMonotone.

Variable math_sqrt : Q -> Q.

Lemma ratio_mono (clA clB chA chB : Q) :
  0 < chB -> chA == chB -> clA <= clB -> clA / chA <= clB / chB.
Proof.
  intros Hpos Hch Hcl. rewrite Hch. unfold Qdiv.
  apply Qmult_le_compat_r; [exact Hcl|].
  apply Qlt_le_weak, Qinv_lt_0_compat, Hpos.
Qed.

Lemma bezier_segments_mono (a0 a1 a2 a3 b0 b1 b2 b3 : Point) :
  Point.distance_to math_sqrt a0 a3 == Point.distance_to math_sqrt b0 b3 ->
  Point.distance_to math_sqrt a0 a1 + Point.distance_to math_sqrt a1 a2
  + Point.distance_to math_sqrt a2 a3
  <= Point.distance_to math_sqrt b0 b1 + Point.distance_to math_sqrt b1 b2
     + Point.distance_to math_sqrt b2 b3 ->
  exists n m,
    bezier_segments math_sqrt a0 a1 a2 a3 16 true = Returned n
    /\ bezier_segments math_sqrt b0 b1 b2 b3 16 true = Returned m
    /\ (1 <= n <= m)%Z.
Proof.
  unfold bezier_segments.
  set (chA := Point.distance_to math_sqrt a0 a3).
  set (chB := Point.distance_to math_sqrt b0 b3).
  set (clA := Point.distance_to math_sqrt a0 a1 + Point.distance_to math_sqrt a1 a2
              + Point.distance_to math_sqrt a2 a3).
  set (clB := Point.distance_to math_sqrt b0 b1 + Point.distance_to math_sqrt b1 b2
              + Point.distance_to math_sqrt b2 b3).
  intros Hch Hcl.
  rewrite (gtb_compat chA chB (1 # 1000) (1 # 1000) Hch (Qeq_refl _)).
  assert (F1 : int (inject_Z 16 * (15 # 10)) = 24%Z) by reflexivity.
  assert (F2 : int (inject_Z 16 * (12 # 10)) = 19%Z) by reflexivity.
  rewrite F1, F2.
  destruct (gtb chB (1 # 1000)) eqn:Hpos.
  - bool2prop.
    assert (HposA : 0 < chA) by (rewrite Hch; lra).
    rewrite !div_returned by lra. unfold bind.
    assert (Hr : clA / chA <= clB / chB) by (apply ratio_mono; [lra|exact Hch|exact Hcl]).
    set (rA := clA / chA) in *. set (rB := clB / chB) in *.
    assert (F3 : 15 # 10 < rA -> (int (inject_Z 16 * rA) <= int (inject_Z 16 * rB))%Z).
    { intro H. apply int_mono; [|apply Qmult_le_l; [reflexivity|exact Hr]].
      change (inject_Z 16) with 16. lra. }
    assert (F4 : 15 # 10 < rA -> (24 <= int (inject_Z 16 * rA))%Z).
    { intro H. apply (int_lower 24); [lia|].
      change (inject_Z 24) with 24. change (inject_Z 16) with 16. lra. }
    assert (F5 : 15 # 10 < rB -> (24 <= int (inject_Z 16 * rB))%Z).
    { intro H. apply (int_lower 24); [lia|].
      change (inject_Z 24) with 24. change (inject_Z 16) with 16. lra. }
    eexists. eexists. split; [reflexivity|]. split; [reflexivity|].
    split_ifs; bool2prop; try (exfalso; lra); use_implications; lia.
  - unfold bind. eexists. eexists. split; [reflexivity|]. split; [reflexivity|].
    split_ifs; bool2prop; try (exfalso; lra); lia.
Qed.

Lemma quad_segments_mono (a0 a1 a2 b0 b1 b2 : Point) :
  Point.distance_to math_sqrt a0 a2 == Point.distance_to math_sqrt b0 b2 ->
  Point.distance_to math_sqrt a0 a1 + Point.distance_to math_sqrt a1 a2
  <= Point.distance_to math_sqrt b0 b1 + Point.distance_to math_sqrt b1 b2 ->
  exists n m,
    quad_segments math_sqrt a0 a1 a2 12 true = Returned n
    /\ quad_segments math_sqrt b0 b1 b2 12 true = Returned m
    /\ (1 <= n <= m)%Z.
Proof.
  unfold quad_segments.
  set (chA := Point.distance_to math_sqrt a0 a2).
  set (chB := Point.distance_to math_sqrt b0 b2).
  set (clA := Point.distance_to math_sqrt a0 a1 + Point.distance_to math_sqrt a1 a2).
  set (clB := Point.distance_to math_sqrt b0 b1 + Point.distance_to math_sqrt b1 b2).
  intros Hch Hcl.
  rewrite (gtb_compat chA chB (1 # 1000) (1 # 1000) Hch (Qeq_refl _)).
  assert (F1 : int (inject_Z 12 * (13 # 10)) = 15%Z) by reflexivity.
  rewrite F1.
  destruct (gtb chB (1 # 1000)) eqn:Hpos.
  - bool2prop.
    assert (HposA : 0 < chA) by (rewrite Hch; lra).
    rewrite !div_returned by lra. unfold bind.
    assert (Hr : clA / chA <= clB / chB) by (apply ratio_mono; [lra|exact Hch|exact Hcl]).
    set (rA := clA / chA) in *. set (rB := clB / chB) in *.
    assert (F3 : 13 # 10 < rA -> (int (inject_Z 12 * rA) <= int (inject_Z 12 * rB))%Z).
    { intro H. apply int_mono; [|apply Qmult_le_l; [reflexivity|exact Hr]].
      change (inject_Z 12) with 12. lra. }
    assert (F4 : 13 # 10 < rA -> (15 <= int (inject_Z 12 * rA))%Z).
    { intro H. apply (int_lower 15); [lia|].
      change (inject_Z 15) with 15. change (inject_Z 12) with 12. lra. }
    assert (F5 : 13 # 10 < rB -> (15 <= int (inject_Z 12 * rB))%Z).
    { intro H. apply (int_lower 15); [lia|].
      change (inject_Z 15) with 15. change (inject_Z 12) with 12. lra. }
    eexists. eexists. split; [reflexivity|]. split; [reflexivity|].
    split_ifs; bool2prop; try (exfalso; lra); use_implications; lia.
  - eexists. eexists. split; [reflexivity|]. split; [reflexivity|]. lia.
Qed.

End FlattenerMonotone.

Lemma length_le_of_Z (A : Type) (l l' : list A) (n m : Z) :
  Z.of_nat (List.length l) = (n + 1)%Z -> Z.of_nat (List.length l') = (m + 1)%Z ->
  (n <= m)%Z -> (List.length l <= List.length l')%nat.
Proof. lia. Qed.

(** C4.  With the default base segment counts (16 for cubics, 12 for
    quadratics), two curves of equal chord length whose control-polygon
    lengths satisfy [control_len1 <= control_len2] are both flattened, and
    the second yields at least as many points as the first. *)
Theorem flatten_count_monotone (math_sqrt : Q -> Q) :
  (forall a0 a1 a2 a3 b0 b1 b2 b3 : Point,
      Point.distance_to math_sqrt a0 a3 == Point.distance_to math_sqrt b0 b3 ->
      Point.distance_to math_sqrt a0 a1 + Point.distance_to math_sqrt a1 a2
      + Point.distance_to math_sqrt a2 a3
      <= Point.distance_to math_sqrt b0 b1 + Point.distance_to math_sqrt b1 b2
         + Point.distance_to math_sqrt b2 b3 ->
      exists pts1 pts2,
        _bezier_to_points math_sqrt a0 a1 a2 a3 16 true = Returned pts1
        /\ _bezier_to_points math_sqrt b0 b1 b2 b3 16 true = Returned pts2
        /\ (List.length pts1 <= List.length pts2)%nat)
  /\
  (forall a0 a1 a2 b0 b1 b2 : Point,
      Point.distance_to math_sqrt a0 a2 == Point.distance_to math_sqrt b0 b2 ->
      Point.distance_to math_sqrt a0 a1 + Point.distance_to math_sqrt a1 a2
      <= Point.distance_to math_sqrt b0 b1 + Point.distance_to math_sqrt b1 b2 ->
      exists pts1 pts2,
        _quad_bezier_to_points math_sqrt a0 a1 a2 12 true = Returned pts1
        /\ _quad_bezier_to_points math_sqrt b0 b1 b2 12 true = Returned pts2
        /\ (List.length pts1 <= List.length pts2)%nat).
Proof.
  split.
  - intros a0 a1 a2 a3 b0 b1 b2 b3 Hch Hcl.
    destruct (bezier_segments_mono math_sqrt a0 a1 a2 a3 b0 b1 b2 b3 Hch Hcl)
      as (n & m & Hn & Hm & Hn1 & Hnm).
    unfold _bezier_to_points. rewrite Hn, Hm. unfold bind.
    rewrite !cubic_loop by lia.
    eexists. eexists. split; [reflexivity|]. split; [reflexivity|].
    destruct (sampled_shape (cubic_at a0 a1 a2 a3 n) n Hn1) as [_ [_ Hl1]].
    destruct (sampled_shape (cubic_at b0 b1 b2 b3 m) m) as [_ [_ Hl2]]; [lia|].
    exact (length_le_of_Z _ _ _ n m Hl1 Hl2 Hnm).
  - intros a0 a1 a2 b0 b1 b2 Hch Hcl.
    destruct (quad_segments_mono math_sqrt a0 a1 a2 b0 b1 b2 Hch Hcl)
      as (n & m & Hn & Hm & Hn1 & Hnm).
    unfold _quad_bezier_to_points. rewrite Hn, Hm. unfold bind.
    rewrite !quad_loop by lia.
    eexists. eexists. split; [reflexivity|]. split; [reflexivity|].
    destruct (sampled_shape (quad_at a0 a1 a2 n) n Hn1) as [_ [_ Hl1]].
    destruct (sampled_shape (quad_at b0 b1 b2 m) m) as [_ [_ Hl2]]; [lia|].
    exact (length_le_of_Z _ _ _ n m Hl1 Hl2 Hnm).
Qed.

(** A straight cubic against a bulged one over the same chord of length 3
    (control polygons of length 3 and 11), and the same for quadratics
    (control polygons of length 6 and 10 over a chord of length 6). *)
Lemma flatten_count_monotone_witness :
  (exists pts1 pts2,
      _bezier_to_points DemoLib.sqrt
        (Point.mk 0 0) (Point.mk 1 0) (Point.mk 2 0) (Point.mk 3 0) 16 true
      = Returned pts1
      /\ _bezier_to_points DemoLib.sqrt
           (Point.mk 0 0) (Point.mk 0 4) (Point.mk 3 4) (Point.mk 3 0) 16 true
         = Returned pts2
      /\ (List.length pts1 <= List.length pts2)%nat)
  /\
  (exists pts1 pts2,
      _quad_bezier_to_points DemoLib.sqrt
        (Point.mk 0 0) (Point.mk 3 0) (Point.mk 6 0) 12 true
      = Returned pts1
      /\ _quad_bezier_to_points DemoLib.sqrt
           (Point.mk 0 0) (Point.mk 3 4) (Point.mk 6 0) 12 true
         = Returned pts2
      /\ (List.length pts1 <= List.length pts2)%nat).
Proof.
  destruct (flatten_count_monotone DemoLib.sqrt) as [Hc Hq].
  split.
  - apply Hc.
    + vm_compute. reflexivity.
    + vm_compute. discriminate.
  - apply Hq.
    + vm_compute. reflexivity.
    + vm_compute. discriminate.
Defined.

Example flatten_counts :
  (exists pts, _bezier_to_points DemoLib.sqrt
                 (Point.mk 0 0) (Point.mk 1 0) (Point.mk 2 0) (Point.mk 3 0) 16 true
               = Returned pts /\ List.length pts = 17%nat)
  /\ (exists pts, _bezier_to_points DemoLib.sqrt
                    (Point.mk 0 0) (Point.mk 0 4) (Point.mk 3 4) (Point.mk 3 0) 16 true
                  = Returned pts /\ List.length pts = 59%nat)
  /\ (exists pts, _quad_bezier_to_points DemoLib.sqrt
                    (Point.mk 0 0) (Point.mk 3 4) (Point.mk 6 0) 12 true
                  = Returned pts /\ List.length pts = 21%nat).
Proof.
  repeat split; eexists; (split; [vm_compute; reflexivity|reflexivity]).
Qed.

(** ** Primitive classifier *)

Section ClassifierFacts.

Lemma is_rectangle_scan_split (pts : list Point) (xs ys : list Q) :
  fold_left is_rectangle_scan pts (xs, ys)
  = (fold_left
       (fun accepted v =>
          if existsb (fun a => ltb (Qabs (v - a)) (5 # 10)) accepted
          then accepted else accepted ++ [v])
       (map Point.x pts) xs,
     fold_left
       (fun accepted v =>
          if existsb (fun a => ltb (Qabs (v - a)) (5 # 10)) accepted
          then accepted else accepted ++ [v])
       (map Point.y pts) ys).
Proof.
  revert xs ys. induction pts as [|p r IH]; intros xs ys; simpl.
  - reflexivity.
  - rewrite <- IH. reflexivity.
Qed.

Lemma _is_rectangle_spec (points : list Point) :
  _is_rectangle points = true
  <-> (4 <= List.length points)%nat
      /\ List.length (distinct_within (5 # 10) (map Point.x (firstn 4 points))) = 2%nat
      /\ List.length (distinct_within (5 # 10) (map Point.y (firstn 4 points))) = 2%nat.
Proof.
  unfold _is_rectangle, distinct_within.
  rewrite is_rectangle_scan_split.
  destruct (List.length points <? 4)%nat eqn:E.
  - apply Nat.ltb_lt in E. split; [discriminate|]. intros [H _]. lia.
  - apply Nat.ltb_ge in E. rewrite andb_true_iff, !Nat.eqb_eq. tauto.
Qed.

Lemma rectangle_shape_dec (points : list Point) (closed : bool) :
  ((4 <=? List.length points)%nat && closed && _is_rectangle points = true
   <-> rectangle_shape points closed).
Proof.
  unfold rectangle_shape.
  rewrite !andb_true_iff, Nat.leb_le, _is_rectangle_spec. tauto.
Qed.

End ClassifierFacts.



(** ** Extent of a classified rectangle *)

Section ExtentFacts.

Lemma fold_max_ge (l : list Q) (a : Q) :
  a <= fold_left max l a /\ forall b, In b l -> b <= fold_left max l a.
Proof.
  revert a. induction l as [|c r IH]; intro a; simpl.
  - split; [lra|tauto].
  - destruct (IH (max a c)) as [H1 H2].
    assert (Hm : a <= max a c /\ c <= max a c).
    { unfold max. destruct (gtb c a) eqn:E; bool2prop; lra. }
    split; [lra|]. intros b [->|Hb]; [lra|auto].
Qed.

Lemma fold_min_le (l : list Q) (a : Q) :
  fold_left min l a <= a /\ forall b, In b l -> fold_left min l a <= b.
Proof.
  revert a. induction l as [|c r IH]; intro a; simpl.
  - split; [lra|tauto].
  - destruct (IH (min a c)) as [H1 H2].
    assert (Hm : min a c <= a /\ min a c <= c).
    { unfold min. destruct (ltb c a) eqn:E; bool2prop; lra. }
    split; [lra|]. intros b [->|Hb]; [lra|auto].
Qed.

Lemma max_list_ge (d : Q) (l : list Q) (b : Q) : In b l -> b <= max_list d l.
Proof.
  destruct l as [|a r]; [intros []|]. simpl. intros [->|H].
  - exact (proj1 (fold_max_ge r b)).
  - exact (proj2 (fold_max_ge r a) b H).
Qed.

Lemma min_list_le (d : Q) (l : list Q) (b : Q) : In b l -> min_list d l <= b.
Proof.
  destruct l as [|a r]; [intros []|]. simpl. intros [->|H].
  - exact (proj1 (fold_min_le r b)).
  - exact (proj2 (fold_min_le r a) b H).
Qed.

Lemma separated_snoc (tol : Q) (l : list Q) (v : Q) :
  separated tol l -> (forall a, In a l -> tol <= Qabs (v - a)) ->
  separated tol (l ++ [v]).
Proof.
  induction l as [|a r IH]; cbn [separated app In]; intros Hs Hv.
  - split; [tauto|exact I].
  - destruct Hs as [Ha Hr]. split.
    + intros b Hb. apply in_app_or in Hb. destruct Hb as [Hb|[<-|[]]].
      * now apply Ha.
      * apply Hv. now left.
    + apply IH; [exact Hr|]. intros c Hc. apply Hv. now right.
Qed.

Lemma scan_invariant (tol : Q) (vals acc : list Q) :
  separated tol acc ->
  separated tol
    (fold_left
       (fun accepted v =>
          if existsb (fun a => ltb (Qabs (v - a)) tol) accepted
          then accepted else accepted ++ [v])
       vals acc)
  /\ forall a,
      In a (fold_left
              (fun accepted v =>
                 if existsb (fun a => ltb (Qabs (v - a)) tol) accepted
                 then accepted else accepted ++ [v])
              vals acc) ->
      In a acc \/ In a vals.
Proof.
  revert acc. induction vals as [|v r IH]; intros acc Hs; cbn [fold_left].
  - split; [exact Hs|]. intros a Ha. now left.
  - destruct (existsb (fun a => ltb (Qabs (v - a)) tol) acc) eqn:E.
    + destruct (IH acc Hs) as [H1 H2]. split; [exact H1|].
      intros a Ha. destruct (H2 a Ha) as [Hin|Hin]; [now left|right; now right].
    + assert (Hv : forall a, In a acc -> tol <= Qabs (v - a)).
      { intros a Ha.
        assert (Hf : ltb (Qabs (v - a)) tol = false).
        { destruct (ltb (Qabs (v - a)) tol) eqn:E'; [|reflexivity].
          assert (existsb (fun a => ltb (Qabs (v - a)) tol) acc = true)
            by (apply existsb_exists; exists a; split; assumption).
          congruence. }
        now apply ltb_false in Hf. }
      destruct (IH (acc ++ [v]) (separated_snoc tol acc v Hs Hv)) as [H1 H2].
      split; [exact H1|].
      intros a Ha. destruct (H2 a Ha) as [Hin|Hin]; [|right; now right].
      apply in_app_or in Hin. destruct Hin as [Hin|[<-|[]]];
        [now left|right; now left].
Qed.

Lemma two_distinct_spread (vals : list Q) (d : Q) :
  List.length (distinct_within (5 # 10) vals) = 2%nat ->
  5 # 10 <= max_list d vals - min_list d vals.
Proof.
  intro Hlen.
  destruct (scan_invariant (5 # 10) vals [] I) as [Hsep Hin].
  fold (distinct_within (5 # 10) vals) in Hsep, Hin.
  destruct (distinct_within (5 # 10) vals) as [|a [|b [|c r]]]; try discriminate.
  destruct Hsep as [Hab _].
  assert (Ha : In a vals) by (destruct (Hin a) as [[]|H]; [now left|exact H]).
  assert (Hb : In b vals)
    by (destruct (Hin b) as [[]|H]; [right; now left|exact H]).
  specialize (Hab b (or_introl eq_refl)).
  pose proof (max_list_ge d vals a Ha). pose proof (max_list_ge d vals b Hb).
  pose proof (min_list_le d vals a Ha). pose proof (min_list_le d vals b Hb).
  revert Hab. apply Qabs_case; intros; lra.
Qed.

End ExtentFacts.

(** ** The reconstruction loop *)

Lemma foldM_total {S A : Type} (f : S -> A -> outcome S) :
  (forall s a, exists s', f s a = Returned s') ->
  forall l s, exists s', foldM f l s = Returned s'.
Proof.
  intros Hf l. induction l as [|a r IH]; intro s; simpl.
  - now exists s.
  - destruct (Hf s a) as [s1 ->]. simpl. apply IH.
Qed.

Lemma foldM_invariant {S A : Type} (f : S -> A -> outcome S)
    (P : S -> Prop) (R : A -> Prop) :
  (forall s a s', R a -> P s -> f s a = Returned s' -> P s') ->
  forall l s s', Forall R l -> P s -> foldM f l s = Returned s' -> P s'.
Proof.
  intros Hf l. induction l as [|a r IH]; intros s s' HR HP H; simpl in H.
  - now inversion H; subst.
  - inversion HR as [|? ? Ha Hr]; subst.
    destruct (f s a) as [s1|e] eqn:E; simpl in H; [|discriminate].
    apply (IH s1 s' Hr); [|exact H]. exact (Hf s a s1 Ha HP E).
Qed.

Lemma fold_left_invariant {S A : Type} (f : S -> A -> S) (P : S -> Prop) (R : A -> Prop) :
  (forall s a, R a -> P s -> P (f s a)) ->
  forall l s, Forall R l -> P s -> P (fold_left f l s).
Proof.
  intros Hf l. induction l as [|a r IH]; intros s HR HP; simpl.
  - exact HP.
  - inversion HR; subst. apply IH; auto.
Qed.

Section ExtractorFacts.

Variable math_sqrt : Q -> Q.
Variable scale : Q.
Variable page_height : Q.

Lemma _bezier_to_points_returns (p0 p1 p2 p3 : Point) :
  exists pts, _bezier_to_points math_sqrt p0 p1 p2 p3 16 true = Returned pts.
Proof.
  destruct (bezier_segments_returns math_sqrt p0 p1 p2 p3 16 true) as [n [Hn Hn1]];
    [lia|].
  unfold _bezier_to_points. rewrite Hn. simpl. rewrite cubic_loop by exact Hn1.
  eexists. reflexivity.
Qed.

Lemma _quad_bezier_to_points_returns (p0 p1 p2 : Point) :
  exists pts, _quad_bezier_to_points math_sqrt p0 p1 p2 12 true = Returned pts.
Proof.
  destruct (quad_segments_returns math_sqrt p0 p1 p2 12 true) as [n [Hn Hn1]];
    [lia|].
  unfold _quad_bezier_to_points. rewrite Hn. simpl. rewrite quad_loop by exact Hn1.
  eexists. reflexivity.
Qed.

Lemma process_item_total (color : Color) (width : Q) (linetype : LineType)
    (fill_color : option Color) (acc : Loop.t * ExtractedData.t) (item : Item) :
  exists acc',
    process_item math_sqrt scale page_height color width linetype fill_color acc item
    = Returned acc'.
Proof.
  destruct acc as [st data]. destruct item; cbn [process_item];
    try (eexists; reflexivity).
  - destruct (Loop.current_point st) as [cp|]; [|eexists; reflexivity].
    destruct (_bezier_to_points_returns cp
                (transform scale page_height c1) (transform scale page_height c2)
                (transform scale page_height end_)) as [pts ->].
    eexists. reflexivity.
  - destruct (Loop.current_point st) as [cp|]; [|eexists; reflexivity].
    destruct (_bezier_to_points_returns cp cp
                (transform scale page_height c2)
                (transform scale page_height end_)) as [pts ->].
    eexists. reflexivity.
  - destruct (Loop.current_point st) as [cp|]; [|eexists; reflexivity].
    destruct (_bezier_to_points_returns cp
                (transform scale page_height c1)
                (transform scale page_height end_)
                (transform scale page_height end_)) as [pts ->].
    eexists. reflexivity.
  - destruct (Loop.current_point st) as [cp|]; [|eexists; reflexivity].
    destruct (_quad_bezier_to_points_returns cp
                (transform scale page_height ctrl)
                (transform scale page_height end_)) as [pts ->].
    eexists. reflexivity.
Qed.

Lemma process_path_total (data : ExtractedData.t) (path : Path.t) :
  exists data', process_path math_sqrt scale page_height data path = Returned data'.
Proof.
  unfold process_path.
  destruct (foldM_total
              (process_item math_sqrt scale page_height (path_color path)
                            (path_width scale path)
                            (_parse_dash_pattern (Path.dashes path))
                            (path_fill_color path))
              (process_item_total _ _ _ _)
              (Path.items path) (Loop.init, data)) as [[st data1] ->].
  simpl. eexists. reflexivity.
Qed.

Lemma _extract_drawings_total (paths : list Path.t) (data : ExtractedData.t) :
  exists data', _extract_drawings math_sqrt scale page_height paths data = Returned data'.
Proof.
  unfold _extract_drawings. apply foldM_total. apply process_path_total.
Qed.

(** The item loop touches the entity collections only on ["re"]. *)
Lemma process_item_well_formed (color : Color) (width : Q) (linetype : LineType)
    (fill_color : option Color) (st st' : Loop.t) (data data' : ExtractedData.t)
    (item : Item) :
  rect_command_positive scale item ->
  entities_well_formed data ->
  process_item math_sqrt scale page_height color width linetype fill_color
               (st, data) item = Returned (st', data') ->
  entities_well_formed data'.
Proof.
  intros Hre Hwf H.
  destruct item; cbn [process_item] in H;
    try (inversion H; subst; exact Hwf);
    try (destruct (Loop.current_point st) as [cp|];
         [|cbn [bind] in H; inversion H; subst; exact Hwf];
         match type of H with
         | context [bind ?m _] =>
             match m with
             | context [_bezier_to_points] => destruct m; cbn [bind] in H
             | context [_quad_bezier_to_points] => destruct m; cbn [bind] in H
             end
         end;
         inversion H; subst; exact Hwf).
  (* re *)
  - destruct Hwf as [Hr Hp]. destruct Hre as [Hw Hh].
    assert (Hnew : Forall positive_extent
                     (ExtractedData.rectangles data
                      ++ [Rectangle.mk
                            (_transform_point scale page_height
                                              (Fitz.x0 rect) (Fitz.y1 rect))
                            ((Fitz.x1 rect - Fitz.x0 rect) * scale)
                            ((Fitz.y1 rect - Fitz.y0 rect) * scale)
                            color width "0" linetype fill_color])).
    { apply Forall_app. split; [exact Hr|]. constructor; [|constructor].
      split; assumption. }
    destruct fill_color as [fc|]; inversion H; subst; split; assumption.
Qed.

Lemma _save_path_entity_well_formed (points : list Point) (closed : bool)
    (color : Color) (width : Q) (linetype : LineType) (fill_color : option Color)
    (data : ExtractedData.t) :
  (2 <= List.length points)%nat ->
  entities_well_formed data ->
  entities_well_formed
    (_save_path_entity points closed color width linetype fill_color data).
Proof.
  intros Hlen [Hr Hp]. unfold _save_path_entity.
  destruct (List.length points =? 2)%nat; [split; assumption|].
  destruct ((4 <=? List.length points)%nat && closed && _is_rectangle points) eqn:E.
  - apply rectangle_shape_dec in E. destruct E as (_ & _ & Hx & Hy).
    split; [|exact Hp]. cbn [ExtractedData.set_rectangles ExtractedData.rectangles].
    apply Forall_app. split; [exact Hr|]. constructor; [|constructor].
    pose proof (two_distinct_spread _ 0 Hx). pose proof (two_distinct_spread _ 0 Hy).
    split; cbn [Rectangle.width Rectangle.height]; lra.
  - assert (Hnew : Forall has_two_points
                     (ExtractedData.polylines data
                      ++ [Polyline.mk points closed color width "0" linetype []])).
    { apply Forall_app. split; [exact Hp|]. constructor; [exact Hlen|constructor]. }
    destruct fill_color as [fc|];
      [destruct (closed && (3 <=? List.length points)%nat)|];
      split; assumption.
Qed.

Lemma save_subpaths_well_formed (color : Color) (width : Q) (linetype : LineType)
    (fill_color : option Color) (subpaths : list Subpath.t) (data : ExtractedData.t) :
  entities_well_formed data ->
  entities_well_formed (save_subpaths color width linetype fill_color subpaths data).
Proof.
  intro Hwf. unfold save_subpaths.
  apply (fold_left_invariant _ entities_well_formed (fun _ => True)).
  - intros s sp _ Hs.
    destruct (List.length (Subpath.points sp) <? 2)%nat eqn:E; [exact Hs|].
    apply Nat.ltb_ge in E. now apply _save_path_entity_well_formed.
  - apply Forall_forall. intros; exact I.
  - exact Hwf.
Qed.

Lemma fill_hatches_well_formed (color : Color) (width : Q)
    (fill_color : option Color) (subpaths : list Subpath.t) (data : ExtractedData.t) :
  entities_well_formed data ->
  entities_well_formed (fill_hatches color width fill_color subpaths data).
Proof.
  intro Hwf. unfold fill_hatches.
  destruct fill_color as [fc|]; [|exact Hwf].
  destruct (color_is_black color && eqb width 0); [|exact Hwf].
  apply (fold_left_invariant _ entities_well_formed (fun _ => True)).
  - intros s sp _ Hs.
    destruct (Subpath.closed sp && (3 <=? List.length (Subpath.points sp))%nat);
      [|exact Hs].
    destruct Hs. split; assumption.
  - apply Forall_forall. intros; exact I.
  - exact Hwf.
Qed.

Lemma process_path_well_formed (data data' : ExtractedData.t) (path : Path.t) :
  Forall (rect_command_positive scale) (Path.items path) ->
  entities_well_formed data ->
  process_path math_sqrt scale page_height data path = Returned data' ->
  entities_well_formed data'.
Proof.
  intros Hre Hwf H. unfold process_path in H.
  destruct (foldM _ (Path.items path) (Loop.init, data)) as [[st data1]|e] eqn:E;
    simpl in H; [|discriminate].
  inversion H; subst. apply fill_hatches_well_formed, save_subpaths_well_formed.
  change data1 with (snd (st, data1)).
  refine (foldM_invariant _ (fun acc => entities_well_formed (snd acc))
                          (rect_command_positive scale) _
                          (Path.items path) (Loop.init, data) (st, data1)
                          Hre Hwf E).
  intros [s d] a [s' d'] Ha Hs Hf.
  exact (process_item_well_formed _ _ _ _ _ _ _ _ _ Ha Hs Hf).
Qed.

End ExtractorFacts.

(** ** The updates of the drawing extractor, one at a time *)

Section DrawingSteps.

Variable math_sqrt : Q -> Q.
Variable scale : Q.
Variable page_height : Q.

(** A relation between containers that holds across each of the four
    updates the drawing extractor performs. *)
Variable R : ExtractedData.t -> ExtractedData.t -> Prop.
Hypothesis R_refl : forall d, R d d.
Hypothesis R_trans : forall d1 d2 d3, R d1 d2 -> R d2 d3 -> R d1 d3.
Hypothesis R_line :
  forall d l, R d (ExtractedData.set_lines d (ExtractedData.lines d ++ [l])).
Hypothesis R_rectangle :
  forall d r, R d (ExtractedData.set_rectangles d (ExtractedData.rectangles d ++ [r])).
Hypothesis R_polyline :
  forall d points closed color width linetype,
    (2 <= List.length points)%nat ->
    R d (ExtractedData.set_polylines d
           (ExtractedData.polylines d
            ++ [Polyline.mk points closed color width "0" linetype []])).
Hypothesis R_hatch :
  forall d points fc,
    (3 <= List.length points)%nat ->
    R d (ExtractedData.set_hatches d
           (ExtractedData.hatches d ++ [Hatch.solid [points] fc])).

Lemma process_item_steps (color : Color) (width : Q) (linetype : LineType)
    (fill_color : option Color) (st st' : Loop.t) (data data' : ExtractedData.t)
    (item : Item) :
  process_item math_sqrt scale page_height color width linetype fill_color
               (st, data) item = Returned (st', data') ->
  R data data'.
Proof.
  intro H.
  destruct item; cbn [process_item] in H;
    try (inversion H; subst; apply R_refl);
    try (destruct (Loop.current_point st) as [cp|];
         [|cbn [bind] in H; inversion H; subst; apply R_refl];
         match type of H with
         | context [bind ?m _] =>
             match m with
             | context [_bezier_to_points] => destruct m; cbn [bind] in H
             | context [_quad_bezier_to_points] => destruct m; cbn [bind] in H
             end
         end;
         inversion H; subst; apply R_refl).
  destruct fill_color as [fc|]; inversion H; subst.
  - eapply R_trans; [apply R_rectangle|].
    match goal with |- R ?d _ => apply (R_hatch d) end. cbn. lia.
  - apply R_rectangle.
Qed.

Lemma _save_path_entity_steps (points : list Point) (closed : bool)
    (color : Color) (width : Q) (linetype : LineType) (fill_color : option Color)
    (data : ExtractedData.t) :
  (2 <= List.length points)%nat ->
  R data (_save_path_entity points closed color width linetype fill_color data).
Proof.
  intro Hlen. unfold _save_path_entity.
  destruct (List.length points =? 2)%nat; [apply R_line|].
  destruct ((4 <=? List.length points)%nat && closed && _is_rectangle points);
    [apply R_rectangle|].
  destruct fill_color as [fc|]; [|apply R_polyline; exact Hlen].
  destruct (closed && (3 <=? List.length points)%nat) eqn:E;
    [|apply R_polyline; exact Hlen].
  eapply R_trans; [apply R_polyline; exact Hlen|]. apply R_hatch.
  apply andb_true_iff in E. destruct E as [_ E]. apply Nat.leb_le in E. exact E.
Qed.

Lemma save_subpaths_steps (color : Color) (width : Q) (linetype : LineType)
    (fill_color : option Color) (subpaths : list Subpath.t) :
  forall data, R data (save_subpaths color width linetype fill_color subpaths data).
Proof.
  unfold save_subpaths.
  induction subpaths as [|sp r IH]; intro data; cbn [fold_left]; [apply R_refl|].
  eapply R_trans; [|apply IH].
  destruct (List.length (Subpath.points sp) <? 2)%nat eqn:E; [apply R_refl|].
  apply _save_path_entity_steps. apply Nat.ltb_ge in E. exact E.
Qed.

Lemma fill_hatches_steps (color : Color) (width : Q) (fill_color : option Color)
    (subpaths : list Subpath.t) (data : ExtractedData.t) :
  R data (fill_hatches color width fill_color subpaths data).
Proof.
  unfold fill_hatches. destruct fill_color as [fc|]; [|apply R_refl].
  destruct (color_is_black color && eqb width 0); [|apply R_refl].
  revert data. induction subpaths as [|sp r IH]; intro data; cbn [fold_left];
    [apply R_refl|].
  eapply R_trans; [|apply IH].
  destruct (Subpath.closed sp && (3 <=? List.length (Subpath.points sp))%nat) eqn:E;
    [|apply R_refl].
  apply R_hatch. apply andb_true_iff in E. destruct E as [_ E].
  apply Nat.leb_le in E. exact E.
Qed.

Lemma item_loop_steps (color : Color) (width : Q) (linetype : LineType)
    (fill_color : option Color) (items : list Item) :
  forall st data st' data',
    foldM (process_item math_sqrt scale page_height color width linetype fill_color)
          items (st, data) = Returned (st', data') ->
    R data data'.
Proof.
  induction items as [|item r IH]; intros st data st' data' H; cbn [foldM] in H.
  - inversion H; subst. apply R_refl.
  - destruct (process_item math_sqrt scale page_height color width linetype fill_color
                (st, data) item) as [[st1 data1]|] eqn:E; cbn [bind] in H;
      [|discriminate].
    eapply R_trans; [exact (process_item_steps _ _ _ _ _ _ _ _ _ E)|].
    exact (IH _ _ _ _ H).
Qed.

Lemma process_path_steps (data data' : ExtractedData.t) (path : Path.t) :
  process_path math_sqrt scale page_height data path = Returned data' ->
  R data data'.
Proof.
  unfold process_path. intro H.
  match type of H with
  | context [bind ?m _] => destruct m as [[st data1]|] eqn:E; cbn [bind] in H
  end; [|discriminate].
  inversion H; subst.
  eapply R_trans; [exact (item_loop_steps _ _ _ _ _ _ _ _ _ E)|].
  eapply R_trans; [apply save_subpaths_steps|]. apply fill_hatches_steps.
Qed.

Lemma _extract_drawings_steps (paths : list Path.t) :
  forall data data',
    _extract_drawings math_sqrt scale page_height paths data = Returned data' ->
    R data data'.
Proof.
  unfold _extract_drawings.
  induction paths as [|path r IH]; intros data data' H; cbn [foldM] in H.
  - inversion H; subst. apply R_refl.
  - destruct (process_path math_sqrt scale page_height data path) as [data1|] eqn:E;
      cbn [bind] in H; [|discriminate].
    eapply R_trans; [exact (process_path_steps _ _ _ E)|]. exact (IH _ _ H).
Qed.

End DrawingSteps.

(** ** The two sweeps in closed form *)

Section SweepFacts.

Variable math_sqrt : Q -> Q.
Variable math_atan2 : Q -> Q -> Q.
Variable math_cos : Q -> Q.
Variable math_sin : Q -> Q.
Variable np_linalg_lstsq : list (list Q) -> list Q -> outcome (list Q).
Variable np_linalg_inv : Matrix -> outcome Matrix.
Variable np_linalg_eig : Matrix -> outcome (list Complex * list (list Complex)).

Lemma _fit_circle_returns (points : list Point) :
  _fit_circle math_sqrt np_linalg_lstsq points
  = Returned (fit_circle_result math_sqrt np_linalg_lstsq points).
Proof.
  unfold _fit_circle, try_except, fit_circle_result.
  destruct (fit_circle_body math_sqrt np_linalg_lstsq points); reflexivity.
Qed.

Lemma _fit_ellipse_returns (points : list Point) :
  _fit_ellipse math_sqrt math_atan2 math_cos math_sin np_linalg_inv np_linalg_eig points
  = Returned (fit_ellipse_result math_sqrt math_atan2 math_cos math_sin
                                 np_linalg_inv np_linalg_eig points).
Proof.
  unfold _fit_ellipse, try_except, fit_ellipse_result.
  destruct (fit_ellipse_body math_sqrt math_atan2 math_cos math_sin
                             np_linalg_inv np_linalg_eig points); reflexivity.
Qed.

Lemma circle_sweep_step_verdict (tolerance : Q) (new_polylines : list Polyline.t)
    (data : ExtractedData.t) (pl : Polyline.t) :
  circle_sweep_step math_sqrt math_atan2 np_linalg_lstsq tolerance
                    (new_polylines, data) pl
  = Returned
      match circle_verdict math_sqrt math_atan2 np_linalg_lstsq tolerance pl with
      | Kept => (new_polylines ++ [pl], data)
      | Promoted (inl c) =>
          (new_polylines,
           ExtractedData.set_circles data (ExtractedData.circles data ++ [c]))
      | Promoted (inr a) =>
          (new_polylines,
           ExtractedData.set_arcs data (ExtractedData.arcs data ++ [a]))
      end.
Proof.
  unfold circle_sweep_step, circle_verdict.
  destruct (List.length (Polyline.points pl) <? 6)%nat; [reflexivity|].
  rewrite _fit_circle_returns. cbn [bind].
  destruct (fit_circle_result math_sqrt np_linalg_lstsq (Polyline.points pl))
    as [[[center radius] error]|]; [|reflexivity].
  destruct (gtb radius (5 # 10) && ltb error (tolerance * radius)); [|reflexivity].
  destruct (_is_full_circle math_atan2 (Polyline.points pl) center radius
            && Polyline.closed pl); reflexivity.
Qed.

Lemma axis_ratio_returns (minor_axis : Q * Q) (major_len : Q) :
  5 # 10 < major_len ->
  axis_ratio math_sqrt minor_axis major_len
  = Returned (math_sqrt (fst minor_axis ^ 2 + snd minor_axis ^ 2) / major_len).
Proof.
  intro H. unfold axis_ratio.
  assert (Hg : gtb major_len 0 = true) by (apply gtb_true; lra).
  rewrite Hg. apply div_returned. lra.
Qed.

Lemma ellipse_sweep_step_verdict (tolerance : Q) (new_polylines : list Polyline.t)
    (data : ExtractedData.t) (pl : Polyline.t) :
  ellipse_sweep_step math_sqrt math_atan2 math_cos math_sin np_linalg_inv np_linalg_eig
                     tolerance (new_polylines, data) pl
  = Returned
      match ellipse_verdict math_sqrt math_atan2 math_cos math_sin
                            np_linalg_inv np_linalg_eig tolerance pl with
      | Kept => (new_polylines ++ [pl], data)
      | Promoted e =>
          (new_polylines,
           ExtractedData.set_ellipses data (ExtractedData.ellipses data ++ [e]))
      end.
Proof.
  unfold ellipse_sweep_step, ellipse_verdict.
  destruct (List.length (Polyline.points pl) <? 8)%nat; [reflexivity|].
  rewrite _fit_ellipse_returns. cbn [bind].
  destruct (fit_ellipse_result math_sqrt math_atan2 math_cos math_sin
                               np_linalg_inv np_linalg_eig (Polyline.points pl))
    as [[[[[center major_axis] minor_axis] rotation] error]|]; [|reflexivity].
  cbv zeta.
  destruct (gtb (math_sqrt (fst major_axis ^ 2 + snd major_axis ^ 2)) (5 # 10)) eqn:Hlen;
    [|reflexivity].
  cbn [andb].
  destruct (ext_ltb error
              (tolerance * math_sqrt (fst major_axis ^ 2 + snd major_axis ^ 2)));
    [|reflexivity].
  apply gtb_true in Hlen. rewrite (axis_ratio_returns minor_axis _ Hlen). cbn [bind].
  destruct (gtb (math_sqrt (fst minor_axis ^ 2 + snd minor_axis ^ 2)
                 / math_sqrt (fst major_axis ^ 2 + snd major_axis ^ 2)) float_0_95);
    reflexivity.
Qed.

Lemma circle_sweep_fold (tolerance : Q) (l : list Polyline.t) :
  forall (new_polylines : list Polyline.t) (data : ExtractedData.t),
    let verdict := circle_verdict math_sqrt math_atan2 np_linalg_lstsq tolerance in
    foldM (circle_sweep_step math_sqrt math_atan2 np_linalg_lstsq tolerance) l
          (new_polylines, data)
    = Returned
        (new_polylines ++ kept_polylines verdict l,
         ExtractedData.set_arcs
           (ExtractedData.set_circles data
              (ExtractedData.circles data ++ lefts (promoted_entities verdict l)))
           (ExtractedData.arcs data ++ rights (promoted_entities verdict l))).
Proof.
  cbv zeta. induction l as [|pl r IH]; intros np data; cbn [foldM].
  - cbn. rewrite !app_nil_r. destruct data; reflexivity.
  - rewrite circle_sweep_step_verdict. cbn [bind].
    unfold kept_polylines, promoted_entities. cbn [filter flat_map].
    destruct (circle_verdict math_sqrt math_atan2 np_linalg_lstsq tolerance pl)
      as [|[c|a]]; rewrite IH; unfold kept_polylines, promoted_entities.
    + rewrite <- app_assoc. reflexivity.
    + destruct data. cbn. unfold lefts, rights. cbn. rewrite <- !app_assoc. reflexivity.
    + destruct data. cbn. unfold lefts, rights. cbn. rewrite <- !app_assoc. reflexivity.
Qed.

Lemma ellipse_sweep_fold (tolerance : Q) (l : list Polyline.t) :
  forall (new_polylines : list Polyline.t) (data : ExtractedData.t),
    let verdict := ellipse_verdict math_sqrt math_atan2 math_cos math_sin
                                   np_linalg_inv np_linalg_eig tolerance in
    foldM (ellipse_sweep_step math_sqrt math_atan2 math_cos math_sin
                              np_linalg_inv np_linalg_eig tolerance) l
          (new_polylines, data)
    = Returned
        (new_polylines ++ kept_polylines verdict l,
         ExtractedData.set_ellipses data
           (ExtractedData.ellipses data ++ promoted_entities verdict l)).
Proof.
  cbv zeta. induction l as [|pl r IH]; intros np data; cbn [foldM].
  - cbn. rewrite !app_nil_r. destruct data; reflexivity.
  - rewrite ellipse_sweep_step_verdict. cbn [bind].
    unfold kept_polylines, promoted_entities. cbn [filter flat_map].
    destruct (ellipse_verdict math_sqrt math_atan2 math_cos math_sin
                              np_linalg_inv np_linalg_eig tolerance pl)
      as [|e]; rewrite IH; unfold kept_polylines, promoted_entities.
    + rewrite <- app_assoc. reflexivity.
    + destruct data. cbn. rewrite <- !app_assoc. reflexivity.
Qed.

Lemma detect_circles_and_arcs_closed_form (data : ExtractedData.t) (tolerance : Q) :
  let verdict := circle_verdict math_sqrt math_atan2 np_linalg_lstsq tolerance in
  let entities := promoted_entities verdict (ExtractedData.polylines data) in
  detect_circles_and_arcs math_sqrt math_atan2 np_linalg_lstsq data tolerance
  = Returned
      (ExtractedData.set_polylines
         (ExtractedData.set_arcs
            (ExtractedData.set_circles data
               (ExtractedData.circles data ++ lefts entities))
            (ExtractedData.arcs data ++ rights entities))
         (kept_polylines verdict (ExtractedData.polylines data))).
Proof.
  cbv zeta. unfold detect_circles_and_arcs. rewrite circle_sweep_fold. reflexivity.
Qed.

Lemma detect_ellipses_closed_form (data : ExtractedData.t) (tolerance : Q) :
  let verdict := ellipse_verdict math_sqrt math_atan2 math_cos math_sin
                                 np_linalg_inv np_linalg_eig tolerance in
  detect_ellipses math_sqrt math_atan2 math_cos math_sin np_linalg_inv np_linalg_eig
                  data tolerance
  = Returned
      (ExtractedData.set_polylines
         (ExtractedData.set_ellipses data
            (ExtractedData.ellipses data
             ++ promoted_entities verdict (ExtractedData.polylines data)))
         (kept_polylines verdict (ExtractedData.polylines data))).
Proof.
  cbv zeta. unfold detect_ellipses. rewrite ellipse_sweep_fold. reflexivity.
Qed.

End SweepFacts.

(** ** Frame and effect of the sweeps *)

Lemma kept_polylines_filter {E : Type} (verdict : Polyline.t -> Verdict E)
    (accepted : Polyline.t -> bool) (l : list Polyline.t) :
  (forall pl, accepted pl = match verdict pl with Kept => false | Promoted _ => true end) ->
  kept_polylines verdict l = filter (fun pl => negb (accepted pl)) l.
Proof.
  intro Hacc. unfold kept_polylines. apply filter_ext. intro pl.
  rewrite Hacc. destruct (verdict pl); reflexivity.
Qed.

Lemma promoted_entities_accepted {E : Type} (derived : Polyline.t -> E -> Prop)
    (verdict : Polyline.t -> Verdict E) (accepted : Polyline.t -> bool)
    (l : list Polyline.t) :
  (forall pl, accepted pl = match verdict pl with Kept => false | Promoted _ => true end) ->
  (forall pl e, verdict pl = Promoted e -> derived pl e) ->
  Forall2 (fun pl e => verdict pl = Promoted e /\ derived pl e)
          (filter accepted l) (promoted_entities verdict l).
Proof.
  intros Hacc Hd. unfold promoted_entities.
  induction l as [|pl r IH]; cbn [filter flat_map]; [constructor|].
  rewrite Hacc. destruct (verdict pl) as [|e] eqn:Hv; [exact IH|].
  cbn [app]. constructor; [|exact IH]. split; [exact Hv|now apply Hd].
Qed.

Section FrameFacts.

Variable math_sqrt : Q -> Q.
Variable math_atan2 : Q -> Q -> Q.
Variable math_cos : Q -> Q.
Variable math_sin : Q -> Q.
Variable np_linalg_lstsq : list (list Q) -> list Q -> outcome (list Q).
Variable np_linalg_inv : Matrix -> outcome Matrix.
Variable np_linalg_eig : Matrix -> outcome (list Complex * list (list Complex)).

Lemma arc_of_style (pl : Polyline.t) (center : Q * Q) (radius : Q) :
  arc_style_of pl (arc_of math_atan2 pl center radius).
Proof.
  unfold arc_of.
  destruct (_calculate_arc_angles math_atan2 center
              (hd (Point.mk 0 0) (Polyline.points pl))
              (last (Polyline.points pl) (Point.mk 0 0))) as [sa ea].
  destruct (negb (_is_ccw (Polyline.points pl) center));
    repeat split; reflexivity.
Qed.

Lemma circle_verdict_style (tolerance : Q) (pl : Polyline.t) (e : Circle.t + Arc.t) :
  circle_verdict math_sqrt math_atan2 np_linalg_lstsq tolerance pl = Promoted e ->
  round_style_of pl e.
Proof.
  unfold circle_verdict.
  destruct (List.length (Polyline.points pl) <? 6)%nat; [discriminate|].
  destruct (fit_circle_result math_sqrt np_linalg_lstsq (Polyline.points pl))
    as [[[center radius] error]|]; [|discriminate].
  destruct (gtb radius (5 # 10) && ltb error (tolerance * radius)); [|discriminate].
  destruct (_is_full_circle math_atan2 (Polyline.points pl) center radius
            && Polyline.closed pl); intro H; inversion H; subst; cbn.
  - repeat split; reflexivity.
  - apply arc_of_style.
Qed.

Lemma ellipse_of_style (pl : Polyline.t) (center major_axis minor_axis : Q * Q)
    (rotation ratio : Q) :
  ellipse_style_of pl
    (ellipse_of math_sqrt math_atan2 math_cos math_sin pl center major_axis minor_axis
                rotation ratio)
  /\ Ellipse.ratio
       (ellipse_of math_sqrt math_atan2 math_cos math_sin pl center major_axis
                   minor_axis rotation ratio) = ratio.
Proof.
  unfold ellipse_of.
  destruct (_is_full_ellipse math_sqrt math_atan2 math_cos math_sin
              (Polyline.points pl) center major_axis minor_axis
            && Polyline.closed pl).
  - repeat split; reflexivity.
  - destruct (_calculate_ellipse_params math_atan2 math_cos math_sin center major_axis
                minor_axis rotation (hd (Point.mk 0 0) (Polyline.points pl))
                (last (Polyline.points pl) (Point.mk 0 0))) as [sp ep].
    repeat split; reflexivity.
Qed.

Lemma ellipse_verdict_style (tolerance : Q) (pl : Polyline.t) (e : Ellipse.t) :
  ellipse_verdict math_sqrt math_atan2 math_cos math_sin np_linalg_inv np_linalg_eig
                  tolerance pl = Promoted e ->
  ellipse_style_of pl e /\ Ellipse.ratio e <= float_0_95.
Proof.
  unfold ellipse_verdict.
  destruct (List.length (Polyline.points pl) <? 8)%nat; [discriminate|].
  destruct (fit_ellipse_result math_sqrt math_atan2 math_cos math_sin
                               np_linalg_inv np_linalg_eig (Polyline.points pl))
    as [[[[[center major_axis] minor_axis] rotation] error]|]; [|discriminate].
  cbv zeta.
  destruct (gtb (math_sqrt (fst major_axis ^ 2 + snd major_axis ^ 2)) (5 # 10)
            && ext_ltb error
                 (tolerance * math_sqrt (fst major_axis ^ 2 + snd major_axis ^ 2)));
    [|discriminate].
  set (ratio := math_sqrt (fst minor_axis ^ 2 + snd minor_axis ^ 2)
                / math_sqrt (fst major_axis ^ 2 + snd major_axis ^ 2)).
  destruct (gtb ratio float_0_95) eqn:Hr; [discriminate|].
  intro H. injection H as <-.
  destruct (ellipse_of_style pl center major_axis minor_axis rotation ratio)
    as [Hs Hq].
  split; [exact Hs|]. rewrite Hq. now apply gtb_false in Hr.
Qed.

Lemma circle_accepted_verdict (tolerance : Q) (pl : Polyline.t) :
  circle_accepted math_sqrt np_linalg_lstsq tolerance pl
  = match circle_verdict math_sqrt math_atan2 np_linalg_lstsq tolerance pl with
    | Kept => false
    | Promoted _ => true
    end.
Proof.
  unfold circle_accepted, circle_verdict.
  destruct (List.length (Polyline.points pl) <? 6)%nat; [reflexivity|].
  destruct (fit_circle_result math_sqrt np_linalg_lstsq (Polyline.points pl))
    as [[[center radius] error]|]; [|reflexivity].
  destruct (gtb radius (5 # 10) && ltb error (tolerance * radius)); [|reflexivity].
  destruct (_is_full_circle math_atan2 (Polyline.points pl) center radius
            && Polyline.closed pl); reflexivity.
Qed.

Lemma ellipse_accepted_verdict (tolerance : Q) (pl : Polyline.t) :
  ellipse_accepted math_sqrt math_atan2 math_cos math_sin np_linalg_inv np_linalg_eig
                   tolerance pl
  = match ellipse_verdict math_sqrt math_atan2 math_cos math_sin
                          np_linalg_inv np_linalg_eig tolerance pl with
    | Kept => false
    | Promoted _ => true
    end.
Proof.
  unfold ellipse_accepted, ellipse_verdict.
  destruct (List.length (Polyline.points pl) <? 8)%nat; [reflexivity|].
  destruct (fit_ellipse_result math_sqrt math_atan2 math_cos math_sin
                               np_linalg_inv np_linalg_eig (Polyline.points pl))
    as [[[[[center major_axis] minor_axis] rotation] error]|]; [|reflexivity].
  cbv zeta.
  destruct (gtb (math_sqrt (fst major_axis ^ 2 + snd major_axis ^ 2)) (5 # 10)
            && ext_ltb error
                 (tolerance * math_sqrt (fst major_axis ^ 2 + snd major_axis ^ 2)));
    [|reflexivity].
  destruct (gtb (math_sqrt (fst minor_axis ^ 2 + snd minor_axis ^ 2)
                 / math_sqrt (fst major_axis ^ 2 + snd major_axis ^ 2)) float_0_95);
    reflexivity.
Qed.

End FrameFacts.

(** C10.  Each sweep returns, and changes nothing but the collections it
    owns.  After [detect_circles_and_arcs] the polyline set is the polylines
    that fail the acceptance test (fewer than 6 points, no fit, radius
    <= 0.5 or error >= tolerance * radius), unchanged and in order; each
    polyline that passes it is gone, and for each of them, in order,
    exactly one Circle or Arc is appended to [circles] or [arcs], the one
    its iteration builds, carrying that polyline's color, width, layer and
    linetype.  [detect_ellipses] does the same with [ellipses] and its own
    test (at least 8 points, a fit, major axis > 0.5, error < tolerance *
    major axis, ratio not above the threshold).  Lines, rectangles,
    splines, texts, hatches, images, page dimensions (and the collections
    of the other sweep) are unchanged. *)
Theorem sweeps_frame
    (math_sqrt : Q -> Q) (math_atan2 : Q -> Q -> Q) (math_cos math_sin : Q -> Q)
    (np_linalg_lstsq : list (list Q) -> list Q -> outcome (list Q))
    (np_linalg_inv : Matrix -> outcome Matrix)
    (np_linalg_eig : Matrix -> outcome (list Complex * list (list Complex)))
    (data : ExtractedData.t) (tolerance : Q) :
  (exists data' entities,
      detect_circles_and_arcs math_sqrt math_atan2 np_linalg_lstsq data tolerance
      = Returned data'
      /\ ExtractedData.polylines data'
         = filter (fun pl => negb (circle_accepted math_sqrt np_linalg_lstsq tolerance pl))
                  (ExtractedData.polylines data)
      /\ Forall2 (fun pl e =>
                    circle_verdict math_sqrt math_atan2 np_linalg_lstsq tolerance pl
                    = Promoted e
                    /\ round_style_of pl e)
                 (filter (circle_accepted math_sqrt np_linalg_lstsq tolerance)
                         (ExtractedData.polylines data))
                 entities
      /\ ExtractedData.circles data' = ExtractedData.circles data ++ lefts entities
      /\ ExtractedData.arcs data' = ExtractedData.arcs data ++ rights entities
      /\ ExtractedData.ellipses data' = ExtractedData.ellipses data
      /\ same_frame data data')
  /\
  (exists data' entities,
      detect_ellipses math_sqrt math_atan2 math_cos math_sin np_linalg_inv
                      np_linalg_eig data tolerance
      = Returned data'
      /\ ExtractedData.polylines data'
         = filter (fun pl =>
                     negb (ellipse_accepted math_sqrt math_atan2 math_cos math_sin
                                            np_linalg_inv np_linalg_eig tolerance pl))
                  (ExtractedData.polylines data)
      /\ Forall2 (fun pl e =>
                    ellipse_verdict math_sqrt math_atan2 math_cos math_sin
                                    np_linalg_inv np_linalg_eig tolerance pl
                    = Promoted e
                    /\ ellipse_style_of pl e)
                 (filter (ellipse_accepted math_sqrt math_atan2 math_cos math_sin
                                           np_linalg_inv np_linalg_eig tolerance)
                         (ExtractedData.polylines data))
                 entities
      /\ ExtractedData.ellipses data' = ExtractedData.ellipses data ++ entities
      /\ ExtractedData.circles data' = ExtractedData.circles data
      /\ ExtractedData.arcs data' = ExtractedData.arcs data
      /\ same_frame data data').
Proof.
  split.
  - eexists. eexists. split; [apply detect_circles_and_arcs_closed_form|].
    cbn [ExtractedData.set_polylines ExtractedData.polylines].
    split.
    { apply kept_polylines_filter. intro pl. apply circle_accepted_verdict. }
    split.
    { apply promoted_entities_accepted.
      - intro pl. apply circle_accepted_verdict.
      - apply circle_verdict_style. }
    repeat split; reflexivity.
  - eexists. eexists. split; [apply detect_ellipses_closed_form|].
    cbn [ExtractedData.set_polylines ExtractedData.polylines].
    split.
    { apply kept_polylines_filter. intro pl. apply ellipse_accepted_verdict. }
    split.
    { apply promoted_entities_accepted.
      - intro pl. apply ellipse_accepted_verdict.
      - intros pl e H. exact (proj1 (ellipse_verdict_style _ _ _ _ _ _ _ _ _ H)). }
    repeat split; reflexivity.
Qed.

(** ** Circle and arc promotion *)

Lemma math_degrees_range (t : Q) :
  - math_pi <= t <= math_pi -> -180 <= math_degrees t <= 180.
Proof.
  unfold math_degrees, math_pi. intros [Hlo Hhi].
  setoid_replace (180 / (884279719003555 # 281474976710656))
    with (50665495807918080 # 884279719003555) by reflexivity.
  split; lra.
Qed.

Lemma normalized_range (a : Q) :
  -180 <= a <= 180 -> 0 <= (if ltb a 0 then a + 360 else a) <= 360.
Proof.
  intros [Hlo Hhi]. destruct (ltb a 0) eqn:E; bool2prop; split; lra.
Qed.

Lemma _is_full_circle_spec (math_atan2 : Q -> Q -> Q)
    (points : list Point) (center : Q * Q) (radius : Q) :
  _is_full_circle math_atan2 points center radius = true
  <-> (8 <= List.length points)%nat
      /\ (9 # 10) * 2 * math_pi
         < angular_coverage
             (map (fun p => math_atan2 (Point.y p - snd center) (Point.x p - fst center))
                  points).
Proof.
  unfold _is_full_circle.
  destruct (List.length points <? 8)%nat eqn:E.
  - apply Nat.ltb_lt in E. split; [discriminate|]. intros [H _]. lia.
  - apply Nat.ltb_ge in E. rewrite gtb_true. tauto.
Qed.

Lemma arc_of_angles (math_atan2 : Q -> Q -> Q)
    (pl : Polyline.t) (center : Q * Q) (radius : Q) :
  (3 <= List.length (Polyline.points pl))%nat ->
  let points := Polyline.points pl in
  let bearing (p : Point) :=
    math_degrees (math_atan2 (Point.y p - snd center) (Point.x p - fst center)) in
  let normalize (a : Q) := if ltb a 0 then a + 360 else a in
  let area := signed_area_loop points center 0 in
  let first := hd (Point.mk 0 0) points in
  let last_ := last points (Point.mk 0 0) in
  arc_of math_atan2 pl center radius
  = Arc.mk (Point.mk (fst center) (snd center)) radius
           (if gtb area 0 then normalize (bearing first) else normalize (bearing last_))
           (if gtb area 0 then normalize (bearing last_) else normalize (bearing first))
           (Polyline.color pl) (Polyline.width pl)
           (Polyline.layer pl) (Polyline.linetype pl).
Proof.
  intro Hlen. cbv zeta. unfold arc_of, _calculate_arc_angles, _is_ccw.
  assert (E : (List.length (Polyline.points pl) <? 3)%nat = false)
    by (apply Nat.ltb_ge; exact Hlen).
  rewrite E.
  destruct (gtb (signed_area_loop (Polyline.points pl) center 0) 0); reflexivity.
Qed.

Lemma In_kept_polylines {E : Type} (verdict : Polyline.t -> Verdict E)
    (l : list Polyline.t) (pl : Polyline.t) :
  In pl (kept_polylines verdict l) <-> In pl l /\ verdict pl = Kept.
Proof.
  unfold kept_polylines. rewrite filter_In.
  destruct (verdict pl); split; intros [H1 H2]; split;
    try assumption; try reflexivity; discriminate.
Qed.

Lemma In_promoted_entities {E : Type} (verdict : Polyline.t -> Verdict E)
    (l : list Polyline.t) (pl : Polyline.t) (e : E) :
  In pl l -> verdict pl = Promoted e -> In e (promoted_entities verdict l).
Proof.
  intros Hin Hv. unfold promoted_entities. apply in_flat_map.
  exists pl. split; [exact Hin|]. rewrite Hv. now left.
Qed.

Lemma In_lefts {A B : Type} (l : list (A + B)) (a : A) : In (inl a) l -> In a (lefts l).
Proof.
  intro H. unfold lefts. apply in_flat_map. exists (inl a). split; [exact H|now left].
Qed.

Lemma In_rights {A B : Type} (l : list (A + B)) (b : B) : In (inr b) l -> In b (rights l).
Proof.
  intro H. unfold rights. apply in_flat_map. exists (inr b). split; [exact H|now left].
Qed.

Lemma clamp_range (lo hi v : Q) : lo <= hi -> lo <= DemoLib.clamp lo hi v <= hi.
Proof.
  intro H. unfold DemoLib.clamp.
  destruct (ltb v lo) eqn:E1; [lra|].
  destruct (ltb hi v) eqn:E2; bool2prop; lra.
Qed.

Lemma demo_atan2_range (y x : Q) : - math_pi <= DemoLib.atan2 y x <= math_pi.
Proof.
  unfold DemoLib.atan2. apply clamp_range. unfold math_pi. lra.
Qed.

(** The promotion rule.  A polyline of at least 6 points whose circle fit
    succeeds with radius > 0.5 and RMS residual < tolerance * radius is
    promoted by its iteration of [detect_circles_and_arcs] and is gone from
    the polyline set afterwards.  It becomes a Circle exactly when the
    angular coverage of its points about the fitted centre exceeds
    0.9 * 2 pi, it is closed and it has at least 8 points; otherwise it
    becomes an Arc whose angles are the bearings (degrees, normalized into
    [0, 360]) of its first and last points, in that order when the signed
    area about the centre is positive and swapped when it is <= 0.
    [math.atan2] is assumed to return a value in [-pi, pi].  The upper end
    360 is included: on binary64 numbers the normalisation reaches it, see
    [arc_angle_reaches_360]. *)
Theorem circle_promotion_rule
    (math_sqrt : Q -> Q) (math_atan2 : Q -> Q -> Q)
    (np_linalg_lstsq : list (list Q) -> list Q -> outcome (list Q))
    (data : ExtractedData.t) (tolerance : Q) (pl : Polyline.t)
    (center : Q * Q) (radius error : Q) :
  (forall y x, - math_pi <= math_atan2 y x <= math_pi) ->
  In pl (ExtractedData.polylines data) ->
  (6 <= List.length (Polyline.points pl))%nat ->
  _fit_circle math_sqrt np_linalg_lstsq (Polyline.points pl)
  = Returned (Some (center, radius, error)) ->
  5 # 10 < radius ->
  error < tolerance * radius ->
  let points := Polyline.points pl in
  let bearing (p : Point) :=
    math_degrees (math_atan2 (Point.y p - snd center) (Point.x p - fst center)) in
  let normalize (a : Q) := if ltb a 0 then a + 360 else a in
  let coverage :=
    angular_coverage
      (map (fun p => math_atan2 (Point.y p - snd center) (Point.x p - fst center))
           points) in
  let full :=
    (9 # 10) * 2 * math_pi < coverage
    /\ Polyline.closed pl = true
    /\ (8 <= List.length points)%nat in
  let area := signed_area_loop points center 0 in
  let first := hd (Point.mk 0 0) points in
  let last_ := last points (Point.mk 0 0) in
  let circle :=
    Circle.mk (Point.mk (fst center) (snd center)) radius
              (Polyline.color pl) (Polyline.width pl)
              (Polyline.layer pl) (Polyline.linetype pl) in
  let start_angle :=
    if gtb area 0 then normalize (bearing first) else normalize (bearing last_) in
  let end_angle :=
    if gtb area 0 then normalize (bearing last_) else normalize (bearing first) in
  let arc :=
    Arc.mk (Point.mk (fst center) (snd center)) radius start_angle end_angle
           (Polyline.color pl) (Polyline.width pl)
           (Polyline.layer pl) (Polyline.linetype pl) in
  (forall new_polylines d,
      (full
       /\ circle_sweep_step math_sqrt math_atan2 np_linalg_lstsq tolerance
                            (new_polylines, d) pl
          = Returned
              (new_polylines,
               ExtractedData.set_circles d (ExtractedData.circles d ++ [circle])))
      \/
      (~ full
       /\ circle_sweep_step math_sqrt math_atan2 np_linalg_lstsq tolerance
                            (new_polylines, d) pl
          = Returned
              (new_polylines,
               ExtractedData.set_arcs d (ExtractedData.arcs d ++ [arc]))))
  /\ 0 <= start_angle <= 360
  /\ 0 <= end_angle <= 360
  /\ (0 < area ->
      start_angle = normalize (bearing first) /\ end_angle = normalize (bearing last_))
  /\ (area <= 0 ->
      start_angle = normalize (bearing last_) /\ end_angle = normalize (bearing first))
  /\ exists data',
      detect_circles_and_arcs math_sqrt math_atan2 np_linalg_lstsq data tolerance
      = Returned data'
      /\ ~ In pl (ExtractedData.polylines data')
      /\ (full -> In circle (ExtractedData.circles data'))
      /\ (~ full -> In arc (ExtractedData.arcs data')).
Proof.
  intros Hrange Hin Hlen Hfit Hrad Herr. cbv zeta.
  set (bearing := fun p : Point =>
         math_degrees (math_atan2 (Point.y p - snd center) (Point.x p - fst center))).
  set (normalize := fun a : Q => if ltb a 0 then a + 360 else a).
  set (area := signed_area_loop (Polyline.points pl) center 0).
  set (first := hd (Point.mk 0 0) (Polyline.points pl)).
  set (last_ := last (Polyline.points pl) (Point.mk 0 0)).
  set (circle := Circle.mk (Point.mk (fst center) (snd center)) radius
                           (Polyline.color pl) (Polyline.width pl)
                           (Polyline.layer pl) (Polyline.linetype pl)).
  set (arc := Arc.mk (Point.mk (fst center) (snd center)) radius
                (if gtb area 0 then normalize (bearing first)
                 else normalize (bearing last_))
                (if gtb area 0 then normalize (bearing last_)
                 else normalize (bearing first))
                (Polyline.color pl) (Polyline.width pl)
                (Polyline.layer pl) (Polyline.linetype pl)).
  set (full := (9 # 10) * 2 * math_pi
               < angular_coverage
                   (map (fun p => math_atan2 (Point.y p - snd center)
                                             (Point.x p - fst center))
                        (Polyline.points pl))
               /\ Polyline.closed pl = true
               /\ (8 <= List.length (Polyline.points pl))%nat).
  (* the result of the fit, and the acceptance test *)
  assert (Hres : fit_circle_result math_sqrt np_linalg_lstsq (Polyline.points pl)
                 = Some (center, radius, error)).
  { rewrite _fit_circle_returns in Hfit. now inversion Hfit. }
  assert (Hacc : gtb radius (5 # 10) && ltb error (tolerance * radius) = true).
  { apply andb_true_intro. split; [now apply gtb_true|now apply ltb_true]. }
  assert (Hshort : (List.length (Polyline.points pl) <? 6)%nat = false)
    by (apply Nat.ltb_ge; exact Hlen).
  assert (Harc : arc_of math_atan2 pl center radius = arc)
    by (apply arc_of_angles; lia).
  (* the full-circle test *)
  assert (Hfull : _is_full_circle math_atan2 (Polyline.points pl) center radius
                  && Polyline.closed pl = true <-> full).
  { unfold full. rewrite andb_true_iff, _is_full_circle_spec. tauto. }
  (* the verdict *)
  assert (Hverdict :
            (full /\ circle_verdict math_sqrt math_atan2 np_linalg_lstsq tolerance pl
                     = Promoted (inl circle))
            \/ (~ full /\ circle_verdict math_sqrt math_atan2 np_linalg_lstsq tolerance pl
                          = Promoted (inr arc))).
  { unfold circle_verdict. rewrite Hshort, Hres, Hacc.
    destruct (_is_full_circle math_atan2 (Polyline.points pl) center radius
              && Polyline.closed pl) eqn:E.
    - left. split; [now apply Hfull|reflexivity].
    - right. split; [|now rewrite Harc].
      intro Hf. apply Hfull in Hf. discriminate. }
  (* the angles *)
  assert (Hb : forall p, 0 <= normalize (bearing p) <= 360).
  { intro p. apply normalized_range, math_degrees_range, Hrange. }
  split.
  { intros np d. rewrite circle_sweep_step_verdict.
    destruct Hverdict as [[Hf Hv]|[Hf Hv]]; rewrite Hv; [left|right];
      (split; [exact Hf|reflexivity]). }
  split; [destruct (gtb area 0); apply Hb|].
  split; [destruct (gtb area 0); apply Hb|].
  split.
  { intro Hpos. apply gtb_true in Hpos. rewrite Hpos. split; reflexivity. }
  split.
  { intro Hneg. apply gtb_false in Hneg. rewrite Hneg. split; reflexivity. }
  eexists. split; [apply detect_circles_and_arcs_closed_form|].
  cbn [ExtractedData.set_polylines ExtractedData.set_arcs ExtractedData.set_circles
       ExtractedData.polylines ExtractedData.circles ExtractedData.arcs].
  split.
  { intro Hk. apply In_kept_polylines in Hk. destruct Hk as [_ Hk].
    destruct Hverdict as [[_ Hv]|[_ Hv]]; congruence. }
  split.
  - intro Hf. destruct Hverdict as [[_ Hv]|[Hnf _]]; [|contradiction].
    apply in_or_app. right. apply In_lefts.
    exact (In_promoted_entities _ _ pl _ Hin Hv).
  - intro Hnf. destruct Hverdict as [[Hf _]|[_ Hv]]; [contradiction|].
    apply in_or_app. right. apply In_rights.
    exact (In_promoted_entities _ _ pl _ Hin Hv).
Qed.

(** The closed 12-point circle of centre (10, 10) and radius 5: the fit is
    exact and the polyline leaves the polyline set. *)
Lemma circle_promotion_rule_witness :
  In (Sample.polyline Sample.circle12 true)
     (ExtractedData.polylines (Sample.page [Sample.polyline Sample.circle12 true]))
  /\ (6 <= List.length (Polyline.points (Sample.polyline Sample.circle12 true)))%nat
  /\ _fit_circle DemoLib.sqrt DemoLib.lstsq
       (Polyline.points (Sample.polyline Sample.circle12 true))
     = Returned (Some ((20 # 2, 20 # 2), 5, 0))
  /\ 5 # 10 < 5
  /\ 0 < (2 # 100) * 5
  /\ exists data',
      detect_circles_and_arcs DemoLib.sqrt DemoLib.atan2 DemoLib.lstsq
        (Sample.page [Sample.polyline Sample.circle12 true]) (2 # 100)
      = Returned data'
      /\ ~ In (Sample.polyline Sample.circle12 true) (ExtractedData.polylines data').
Proof.
  assert (H1 : In (Sample.polyline Sample.circle12 true)
                  (ExtractedData.polylines
                     (Sample.page [Sample.polyline Sample.circle12 true])))
    by (simpl; now left).
  assert (H2 : (6 <= List.length
                      (Polyline.points (Sample.polyline Sample.circle12 true)))%nat)
    by (simpl; lia).
  assert (H3 : _fit_circle DemoLib.sqrt DemoLib.lstsq
                 (Polyline.points (Sample.polyline Sample.circle12 true))
               = Returned (Some ((20 # 2, 20 # 2), 5, 0)))
    by (vm_compute; reflexivity).
  assert (H4 : 5 # 10 < 5) by reflexivity.
  assert (H5 : 0 < (2 # 100) * 5) by reflexivity.
  repeat (split; [assumption|]).
  destruct (circle_promotion_rule DemoLib.sqrt DemoLib.atan2 DemoLib.lstsq
              (Sample.page [Sample.polyline Sample.circle12 true]) (2 # 100)
              (Sample.polyline Sample.circle12 true) (20 # 2, 20 # 2) 5 0
              demo_atan2_range H1 H2 H3 H4 H5)
    as (_ & _ & _ & _ & _ & data' & Hd & Hnot & _).
  exists data'. split; assumption.
Defined.

(** The sweep on the samples: the closed circle becomes a Circle of centre
    (10, 10) and radius 5; its first ten points, left open, sweep 270
    degrees and become an Arc from 0 to (about) 270 degrees. *)
Example detect_circle_sample :
  exists data',
    detect_circles_and_arcs DemoLib.sqrt DemoLib.atan2 DemoLib.lstsq
      (Sample.page [Sample.polyline Sample.circle12 true]) (2 # 100)
    = Returned data'
    /\ ExtractedData.polylines data' = []
    /\ ExtractedData.arcs data' = []
    /\ ExtractedData.circles data'
       = [Circle.mk (Point.mk (20 # 2) (20 # 2)) 5 Sample.red 2 "outline" DASHED].
Proof.
  eexists. split; [vm_compute; reflexivity|]. repeat split; reflexivity.
Qed.

Example detect_arc_sample :
  exists data' arc,
    detect_circles_and_arcs DemoLib.sqrt DemoLib.atan2 DemoLib.lstsq
      (Sample.page [Sample.polyline (firstn 10 Sample.circle12) false]) (2 # 100)
    = Returned data'
    /\ ExtractedData.polylines data' = []
    /\ ExtractedData.circles data' = []
    /\ ExtractedData.arcs data' = [arc]
    /\ Arc.start_angle arc == 0
    /\ 269 < Arc.end_angle arc < 271.
Proof.
  eexists. eexists. split; [vm_compute; reflexivity|].
  repeat split; reflexivity.
Qed.

(** ** The fitters never raise; rejected fits change nothing *)

(** ** The normalisation of arc angles on binary64 numbers *)

Section ArcAnglesBinary64.

Import PrimFloat.
Local Open Scope float_scope.

(** C1 (violated by the code).  With the centre (10.0, 10.000000000000002),
    one unit in the last place above the height of the first point
    (15.0, 10.0), [math.atan2(-2^-49, 5.0)] is [-0x1.999999999999ap-52]
    (about -3.55e-16); the bearing is about -2.04e-14 degrees, negative,
    so 360 is added, and the sum rounds to 360.0.  The start angle
    [_calculate_arc_angles] returns is 360.0, not below 360 and not 0,
    whatever the end point is; and for the six-point arc [F64.arc6], which
    runs counter-clockwise about that centre, it is the start angle of the
    Arc. *)
Theorem arc_angle_reaches_360
    (math_atan2 : float -> float -> float) :
  math_atan2 (-0x1p-49) 5 = -0x1.999999999999ap-52 ->
  let center := (10, 0x1.4000000000001p+3) in
  (forall end_,
      let start_angle :=
        fst (F64._calculate_arc_angles math_atan2 center (F64.mkPoint 15 10) end_) in
      start_angle = 360
      /\ (start_angle <? 360) = false
      /\ (start_angle =? 0) = false)
  /\ F64._is_ccw F64.arc6 center = true
  /\ fst (F64.arc_angles math_atan2 F64.arc6 center) = 360.
Proof.
  intro H. cbv zeta.
  assert (Hstart : forall end_,
             fst (F64._calculate_arc_angles math_atan2 (10, 0x1.4000000000001p+3)
                    (F64.mkPoint 15 10) end_) = 360).
  { intro end_. unfold F64._calculate_arc_angles. cbn [F64.x F64.y fst snd].
    change (10 - 0x1.4000000000001p+3) with (-0x1p-49).
    change (15 - 10) with 5.
    rewrite H. vm_compute. reflexivity. }
  assert (Hccw : F64._is_ccw F64.arc6 (10, 0x1.4000000000001p+3) = true)
    by (vm_compute; reflexivity).
  split; [|split].
  - intro end_. rewrite Hstart. repeat split; vm_compute; reflexivity.
  - exact Hccw.
  - unfold F64.arc_angles. rewrite Hccw. cbn [negb].
    change (hd (F64.mkPoint 0 0) F64.arc6) with (F64.mkPoint 15 10).
    specialize (Hstart (last F64.arc6 (F64.mkPoint 0 0))).
    destruct (F64._calculate_arc_angles math_atan2 (10, 0x1.4000000000001p+3)
                (F64.mkPoint 15 10) (last F64.arc6 (F64.mkPoint 0 0))) as [sa ea].
    exact Hstart.
Qed.

(** The hypothesis holds of the quotient [y / x], which is what
    [math.atan2] returns that close to the positive x axis. *)
Lemma arc_angle_reaches_360_witness :
  F64.atan2_near_axis (-0x1p-49) 5 = -0x1.999999999999ap-52
  /\ fst (F64.arc_angles F64.atan2_near_axis F64.arc6 (10, 0x1.4000000000001p+3))
     = 360.
Proof.
  assert (H : F64.atan2_near_axis (-0x1p-49) 5 = -0x1.999999999999ap-52)
    by (vm_compute; reflexivity).
  split; [exact H|].
  exact (proj2 (proj2 (arc_angle_reaches_360 F64.atan2_near_axis H))).
Defined.

End ArcAnglesBinary64.

Lemma fit_circle_radius
    (math_sqrt : Q -> Q)
    (np_linalg_lstsq : list (list Q) -> list Q -> outcome (list Q))
    (points : list Point) (center : Q * Q) (radius error : Q) :
  _fit_circle math_sqrt np_linalg_lstsq points = Returned (Some (center, radius, error)) ->
  (3 <= List.length points)%nat
  /\ exists r_squared, 0 < r_squared /\ radius = math_sqrt r_squared.
Proof.
  unfold _fit_circle, try_except, fit_circle_body.
  destruct (List.length points <? 3)%nat eqn:Hn; [discriminate|].
  apply Nat.ltb_ge in Hn.
  destruct (np_linalg_lstsq _ _) as [result|]; cbn [bind]; [|discriminate].
  destruct (getitem result 0) as [r0|]; cbn [bind]; [|discriminate].
  destruct (getitem result 1) as [r1|]; cbn [bind]; [|discriminate].
  destruct (getitem result 2) as [r2|]; cbn [bind]; [|discriminate].
  destruct (leb (r2 + r0 / 2 * (r0 / 2) + r1 / 2 * (r1 / 2)) 0) eqn:Hr; [discriminate|].
  apply leb_false in Hr.
  match goal with
  | |- context [bind ?m _] => destruct m; cbn [bind]; [|discriminate]
  end.
  intro H. injection H as Hc Hrad He. split; [exact Hn|].
  eexists. split; [exact Hr|]. symmetry. exact Hrad.
Qed.

(** C7.  Whatever [numpy] and [math] do (return any value, or raise), the
    circle fitter and the ellipse fitter return: a fit, or no fit.  A
    polyline whose fit is rejected (no fit, or a fit failing the acceptance
    test) is appended unchanged to the surviving polylines and the container
    is left as it was.  A polyline of three points, collinear or not, is
    never promoted, and a fit is only ever returned with a radius that is
    the square root of a positive number; a radius of at most 0.5 (so zero
    in particular) is never accepted. *)
Theorem fitters_never_raise
    (math_sqrt : Q -> Q) (math_atan2 : Q -> Q -> Q) (math_cos math_sin : Q -> Q)
    (np_linalg_lstsq : list (list Q) -> list Q -> outcome (list Q))
    (np_linalg_inv : Matrix -> outcome Matrix)
    (np_linalg_eig : Matrix -> outcome (list Complex * list (list Complex))) :
  (forall points,
      exists r, _fit_circle math_sqrt np_linalg_lstsq points = Returned r)
  /\ (forall points,
         exists r, _fit_ellipse math_sqrt math_atan2 math_cos math_sin
                                np_linalg_inv np_linalg_eig points = Returned r)
  /\ (forall tolerance new_polylines data pl,
         _fit_circle math_sqrt np_linalg_lstsq (Polyline.points pl) = Returned None
         \/ (exists center radius error,
                _fit_circle math_sqrt np_linalg_lstsq (Polyline.points pl)
                = Returned (Some (center, radius, error))
                /\ (radius <= 5 # 10 \/ tolerance * radius <= error)) ->
         circle_sweep_step math_sqrt math_atan2 np_linalg_lstsq tolerance
                           (new_polylines, data) pl
         = Returned (new_polylines ++ [pl], data))
  /\ (forall tolerance new_polylines data pl,
         _fit_ellipse math_sqrt math_atan2 math_cos math_sin
                      np_linalg_inv np_linalg_eig (Polyline.points pl) = Returned None
         \/ (exists center major_axis minor_axis rotation error,
                _fit_ellipse math_sqrt math_atan2 math_cos math_sin
                             np_linalg_inv np_linalg_eig (Polyline.points pl)
                = Returned (Some (center, major_axis, minor_axis, rotation, error))
                /\ (math_sqrt (fst major_axis ^ 2 + snd major_axis ^ 2) <= 5 # 10
                    \/ ext_ltb error
                         (tolerance
                          * math_sqrt (fst major_axis ^ 2 + snd major_axis ^ 2))
                       = false)) ->
         ellipse_sweep_step math_sqrt math_atan2 math_cos math_sin
                            np_linalg_inv np_linalg_eig tolerance
                            (new_polylines, data) pl
         = Returned (new_polylines ++ [pl], data))
  /\ (forall tolerance new_polylines data pl,
         List.length (Polyline.points pl) = 3%nat ->
         circle_sweep_step math_sqrt math_atan2 np_linalg_lstsq tolerance
                           (new_polylines, data) pl
         = Returned (new_polylines ++ [pl], data)
         /\ ellipse_sweep_step math_sqrt math_atan2 math_cos math_sin
                               np_linalg_inv np_linalg_eig tolerance
                               (new_polylines, data) pl
            = Returned (new_polylines ++ [pl], data))
  /\ (forall points center radius error,
         _fit_circle math_sqrt np_linalg_lstsq points
         = Returned (Some (center, radius, error)) ->
         exists r_squared, 0 < r_squared /\ radius = math_sqrt r_squared).
Proof.
  split; [intro points; rewrite _fit_circle_returns; eexists; reflexivity|].
  split; [intro points; rewrite _fit_ellipse_returns; eexists; reflexivity|].
  split.
  { intros tol np data pl H. unfold circle_sweep_step.
    destruct (List.length (Polyline.points pl) <? 6)%nat; [reflexivity|].
    destruct H as [H|(center & radius & error & H & Hrej)]; rewrite H; cbn [bind].
    - reflexivity.
    - assert (E : gtb radius (5 # 10) && ltb error (tol * radius) = false).
      { apply andb_false_iff. destruct Hrej as [Hr|He];
          [left; now apply gtb_false|right; now apply ltb_false]. }
      rewrite E. reflexivity. }
  split.
  { intros tol np data pl H. unfold ellipse_sweep_step.
    destruct (List.length (Polyline.points pl) <? 8)%nat; [reflexivity|].
    destruct H as [H|(center & major & minor & rot & error & H & Hrej)];
      rewrite H; cbn [bind].
    - reflexivity.
    - cbv zeta.
      assert (E : gtb (math_sqrt (fst major ^ 2 + snd major ^ 2)) (5 # 10)
                  && ext_ltb error (tol * math_sqrt (fst major ^ 2 + snd major ^ 2))
                  = false).
      { apply andb_false_iff. destruct Hrej as [Hr|He];
          [left; now apply gtb_false|right; exact He]. }
      rewrite E. reflexivity. }
  split.
  { intros tol np data pl H. unfold circle_sweep_step, ellipse_sweep_step.
    rewrite H. split; reflexivity. }
  intros points center radius error H.
  exact (proj2 (fit_circle_radius _ _ _ _ _ _ H)).
Qed.

(** Three collinear points stay a polyline under both sweeps. *)
Lemma fitters_never_raise_witness :
  List.length
    (Polyline.points
       (Sample.polyline [Point.mk 0 0; Point.mk 1 1; Point.mk 2 2] false)) = 3%nat
  /\ circle_sweep_step DemoLib.sqrt DemoLib.atan2 DemoLib.lstsq (2 # 100)
       ([], Sample.page [])
       (Sample.polyline [Point.mk 0 0; Point.mk 1 1; Point.mk 2 2] false)
     = Returned
         ([Sample.polyline [Point.mk 0 0; Point.mk 1 1; Point.mk 2 2] false],
          Sample.page []).
Proof.
  split; [reflexivity|].
  destruct (fitters_never_raise DemoLib.sqrt DemoLib.atan2 DemoLib.cos DemoLib.sin
              DemoLib.lstsq DemoLib.inv (DemoLib.eig_check []))
    as (_ & _ & _ & _ & Hthree & _).
  exact (proj1 (Hthree (2 # 100) [] (Sample.page [])
                  (Sample.polyline [Point.mk 0 0; Point.mk 1 1; Point.mk 2 2] false)
                  eq_refl)).
Defined.

(** ** Point equality and hashing *)

(** C9 (violated by the code).  The points (4e-7, 0) and (6e-7, 0) are
    equal under [Point.__eq__] (their coordinates differ by 2e-7 < 1e-6),
    but [Point.__hash__] rounds them to the different keys (0, 0) and
    (1e-6, 0), whose hashes differ. *)
Theorem hash_inconsistent_with_eq :
  Point.eq (Point.mk (4 # 10000000) 0) (Point.mk (6 # 10000000) 0) = true
  /\ fst (Point.hash_key (Point.mk (4 # 10000000) 0)) == 0
  /\ fst (Point.hash_key (Point.mk (6 # 10000000) 0)) == 1 # 1000000
  /\ Point.hash (Point.mk (4 # 10000000) 0) = (-8458139203682520985)%Z
  /\ Point.hash (Point.mk (4 # 10000000) 0) <> Point.hash (Point.mk (6 # 10000000) 0).
Proof.
  split; [vm_compute; reflexivity|].
  split; [vm_compute; reflexivity|].
  split; [vm_compute; reflexivity|].
  split; [vm_compute; reflexivity|].
  vm_compute. discriminate.
Qed.

(** ** Ellipse deferral *)

Lemma Forall_promoted_entities {E : Type} (P : E -> Prop)
    (verdict : Polyline.t -> Verdict E) (l : list Polyline.t) :
  (forall pl e, verdict pl = Promoted e -> P e) ->
  Forall P (promoted_entities verdict l).
Proof.
  intro H. unfold promoted_entities. apply Forall_forall. intros e He.
  apply in_flat_map in He. destruct He as [pl [_ He]].
  destruct (verdict pl) as [|e'] eqn:Hv; [destruct He|].
  destruct He as [<-|[]]. exact (H pl e' Hv).
Qed.

(** The threshold of the deferral test is the binary64 number nearest to
    19/20: a multiple of 2^-53 in [1/2, 1) that lies below 19/20, less
    than half a unit in the last place (2^-54) away from it. *)
Lemma float_0_95_binary64 :
  float_0_95 == 8556839292003942 # 9007199254740992
  /\ 0 < (95 # 100) - float_0_95 < 1 # 18014398509481984.
Proof.
  split; [reflexivity|]. split; reflexivity.
Qed.

Lemma float_0_95_below : float_0_95 < 95 # 100.
Proof. reflexivity. Qed.

(** C2.  Every Ellipse appended by [detect_ellipses] has a minor:major
    ratio strictly below 0.95: the guard [ratio > 0.95] compares with the
    binary64 number the literal denotes, [float_0_95], which lies below
    19/20, and only a ratio of at most [float_0_95] is emitted.  A polyline
    whose accepted fit has a ratio at or above 0.95 is deferred: its
    iteration emits no Ellipse, leaves the container as it was and keeps
    the polyline, which is still in the polyline set after the sweep. *)
Theorem ellipse_ratio_bound
    (math_sqrt : Q -> Q) (math_atan2 : Q -> Q -> Q) (math_cos math_sin : Q -> Q)
    (np_linalg_inv : Matrix -> outcome Matrix)
    (np_linalg_eig : Matrix -> outcome (list Complex * list (list Complex)))
    (data : ExtractedData.t) (tolerance : Q) :
  (exists data' entities,
      detect_ellipses math_sqrt math_atan2 math_cos math_sin np_linalg_inv
                      np_linalg_eig data tolerance = Returned data'
      /\ ExtractedData.ellipses data' = ExtractedData.ellipses data ++ entities
      /\ Forall (fun e => Ellipse.ratio e <= float_0_95 /\ Ellipse.ratio e < 95 # 100)
                entities)
  /\
  (forall pl center major_axis minor_axis rotation error,
      (8 <= List.length (Polyline.points pl))%nat ->
      _fit_ellipse math_sqrt math_atan2 math_cos math_sin np_linalg_inv np_linalg_eig
                   (Polyline.points pl)
      = Returned (Some (center, major_axis, minor_axis, rotation, error)) ->
      let major_len := math_sqrt (fst major_axis ^ 2 + snd major_axis ^ 2) in
      let ratio := math_sqrt (fst minor_axis ^ 2 + snd minor_axis ^ 2) / major_len in
      5 # 10 < major_len ->
      ext_ltb error (tolerance * major_len) = true ->
      95 # 100 <= ratio ->
      (forall new_polylines d,
          ellipse_sweep_step math_sqrt math_atan2 math_cos math_sin
                             np_linalg_inv np_linalg_eig tolerance
                             (new_polylines, d) pl
          = Returned (new_polylines ++ [pl], d))
      /\ (In pl (ExtractedData.polylines data) ->
          exists data',
            detect_ellipses math_sqrt math_atan2 math_cos math_sin np_linalg_inv
                            np_linalg_eig data tolerance = Returned data'
            /\ In pl (ExtractedData.polylines data'))).
Proof.
  split.
  - eexists. eexists. split; [apply detect_ellipses_closed_form|].
    split; [reflexivity|].
    apply Forall_promoted_entities. intros pl e H.
    pose proof (proj2 (ellipse_verdict_style _ _ _ _ _ _ _ _ _ H)) as Hle.
    split; [exact Hle|].
    eapply Qle_lt_trans; [exact Hle|exact float_0_95_below].
  - intros pl center major_axis minor_axis rotation error Hlen Hfit.
    cbv zeta. intros Hmajor Herr Hratio.
    assert (Hres : fit_ellipse_result math_sqrt math_atan2 math_cos math_sin
                     np_linalg_inv np_linalg_eig (Polyline.points pl)
                   = Some (center, major_axis, minor_axis, rotation, error)).
    { rewrite _fit_ellipse_returns in Hfit. now inversion Hfit. }
    assert (Hverdict : ellipse_verdict math_sqrt math_atan2 math_cos math_sin
                         np_linalg_inv np_linalg_eig tolerance pl = Kept).
    { unfold ellipse_verdict.
      assert (Hshort : (List.length (Polyline.points pl) <? 8)%nat = false)
        by (apply Nat.ltb_ge; exact Hlen).
      rewrite Hshort, Hres. cbv zeta.
      apply gtb_true in Hmajor. rewrite Hmajor, Herr. cbn [andb].
      assert (Hgt : float_0_95
                    < math_sqrt (fst minor_axis ^ 2 + snd minor_axis ^ 2)
                      / math_sqrt (fst major_axis ^ 2 + snd major_axis ^ 2))
        by (eapply Qlt_le_trans; [exact float_0_95_below|exact Hratio]).
      apply gtb_true in Hgt. rewrite Hgt. reflexivity. }
    split.
    + intros np d. rewrite ellipse_sweep_step_verdict, Hverdict. reflexivity.
    + intro Hin. eexists. split; [apply detect_ellipses_closed_form|].
      cbn [ExtractedData.set_polylines ExtractedData.polylines].
      apply In_kept_polylines. split; assumption.
Qed.

(** The 9-point sample around the ellipse of semi-axes 20 and 19.5 (ratio
    0.975) is accepted by the fit and deferred. *)
Lemma ellipse_ratio_bound_witness :
  (8 <= List.length (Polyline.points (Sample.polyline Sample.round9 false)))%nat
  /\ _fit_ellipse DemoLib.sqrt DemoLib.atan2 DemoLib.cos DemoLib.sin DemoLib.inv
       (DemoLib.eig_check Sample.round9_eigenvectors)
       (Polyline.points (Sample.polyline Sample.round9 false))
     = Returned
         (Some ((0 # 9734400, 0 # 9734400), (20, 0), (0 # 2, 39 # 2), 0 # 10,
                Finite (8215458800258826723081 # 16808107121427104137216)))
  /\ exists data',
      detect_ellipses DemoLib.sqrt DemoLib.atan2 DemoLib.cos DemoLib.sin DemoLib.inv
        (DemoLib.eig_check Sample.round9_eigenvectors)
        (Sample.page [Sample.polyline Sample.round9 false]) (5 # 100)
      = Returned data'
      /\ In (Sample.polyline Sample.round9 false) (ExtractedData.polylines data').
Proof.
  assert (Hlen : (8 <= List.length
                        (Polyline.points (Sample.polyline Sample.round9 false)))%nat)
    by (simpl; lia).
  assert (Hfit : _fit_ellipse DemoLib.sqrt DemoLib.atan2 DemoLib.cos DemoLib.sin
                   DemoLib.inv (DemoLib.eig_check Sample.round9_eigenvectors)
                   (Polyline.points (Sample.polyline Sample.round9 false))
                 = Returned
                     (Some ((0 # 9734400, 0 # 9734400), (20, 0), (0 # 2, 39 # 2),
                            0 # 10,
                            Finite (8215458800258826723081
                                    # 16808107121427104137216))))
    by (vm_compute; reflexivity).
  split; [exact Hlen|]. split; [exact Hfit|].
  refine (proj2 (proj2 (ellipse_ratio_bound DemoLib.sqrt DemoLib.atan2 DemoLib.cos
                          DemoLib.sin DemoLib.inv
                          (DemoLib.eig_check Sample.round9_eigenvectors)
                          (Sample.page [Sample.polyline Sample.round9 false])
                          (5 # 100))
                   (Sample.polyline Sample.round9 false) _ _ _ _ _
                   Hlen Hfit _ _ _) _).
  - vm_compute. reflexivity.
  - vm_compute. reflexivity.
  - vm_compute. discriminate.
  - simpl. now left.
Defined.

(** ** Close, end of stream, and the stored entities *)

Section ReconstructionFacts.

Variable math_sqrt : Q -> Q.
Variable scale : Q.
Variable page_height : Q.

Lemma flush_two_points (st : Loop.t) (closed : bool) :
  subpaths_have_two_points (Loop.all_subpaths st) ->
  subpaths_have_two_points (flush st closed).
Proof.
  intro H. unfold flush.
  destruct (1 <? List.length (Loop.path_points st))%nat eqn:E; [|exact H].
  apply Nat.ltb_lt in E. apply Forall_app. split; [exact H|].
  constructor; [|constructor]. cbn. lia.
Qed.

Lemma process_item_two_points (color : Color) (width : Q) (linetype : LineType)
    (fill_color : option Color) (st st' : Loop.t) (data data' : ExtractedData.t)
    (item : Item) :
  subpaths_have_two_points (Loop.all_subpaths st) ->
  process_item math_sqrt scale page_height color width linetype fill_color
               (st, data) item = Returned (st', data') ->
  subpaths_have_two_points (Loop.all_subpaths st').
Proof.
  intros Hok H.
  destruct item; cbn [process_item] in H;
    try (destruct (Loop.current_point st) as [cp|];
         [|cbn [bind] in H; injection H as <- _; exact Hok];
         match type of H with
         | context [bind ?m _] =>
             match m with
             | context [_bezier_to_points] => destruct m; cbn [bind] in H
             | context [_quad_bezier_to_points] => destruct m; cbn [bind] in H
             end
         end;
         [injection H as <- _; exact Hok|discriminate H]).
  - injection H as <- _. cbn. now apply flush_two_points.
  - injection H as <- _. cbn.
    destruct (Loop.current_point st) as [cp|]; [|exact Hok].
    destruct (Loop.path_points st) as [|p r] eqn:Hp; [exact Hok|].
    destruct (Point.ne cp (transform scale page_height start)); [|exact Hok].
    cbn. apply flush_two_points. exact Hok.
  - injection H as <- _. exact Hok.
  - destruct fill_color; injection H as <- _; exact Hok.
  - injection H as <- _. cbn. apply flush_two_points. exact Hok.
  - injection H as <- _. exact Hok.
Qed.

Lemma item_loop_two_points (color : Color) (width : Q) (linetype : LineType)
    (fill_color : option Color) (items : list Item) (data : ExtractedData.t) :
  exists st data',
    foldM (process_item math_sqrt scale page_height color width linetype fill_color)
          items (Loop.init, data) = Returned (st, data')
    /\ subpaths_have_two_points (Loop.all_subpaths st).
Proof.
  destruct (foldM_total
              (process_item math_sqrt scale page_height color width linetype fill_color)
              (process_item_total math_sqrt scale page_height color width linetype
                                  fill_color)
              items (Loop.init, data)) as [[st data'] H].
  exists st, data'. split; [exact H|].
  change st with (fst (st, data')).
  refine (foldM_invariant _ (fun acc => subpaths_have_two_points
                                          (Loop.all_subpaths (fst acc)))
                          (fun _ => True) _ items (Loop.init, data) (st, data')
                          _ _ H).
  - intros [s d] a [s' d'] _ Hs Hf.
    exact (process_item_two_points _ _ _ _ _ _ _ _ _ Hs Hf).
  - apply Forall_forall. intros; exact I.
  - constructor.
Qed.

End ReconstructionFacts.

(** C6, as the code has it.  On Close the start point is appended when a
    start and a current point are recorded and differ; the sub-path is
    flushed as closed when it has at least 2 points and dropped otherwise;
    the accumulated points and the curve flag are cleared, while the current
    point and the recorded start are left as they were.  At the end of the
    items a remaining sub-path of at least 2 points is flushed, closed when
    the path's closePath flag is set or its last point equals the recorded
    start, and dropped otherwise.  The item loop always terminates normally
    and every sub-path it hands on has at least 2 points. *)
Theorem close_and_end_of_stream
    (math_sqrt : Q -> Q) (scale page_height : Q)
    (color : Color) (width : Q) (linetype : LineType) (fill_color : option Color) :
  (forall st data,
      let points :=
        match Loop.path_start st, Loop.current_point st with
        | Some path_start, Some current_point =>
            if Point.eq path_start current_point then Loop.path_points st
            else Loop.path_points st ++ [path_start]
        | _, _ => Loop.path_points st
        end in
      exists st',
        process_item math_sqrt scale page_height color width linetype fill_color
                     (st, data) Item_h = Returned (st', data)
        /\ Loop.all_subpaths st'
           = (if (2 <=? List.length points)%nat
              then Loop.all_subpaths st ++ [Subpath.mk points true (Loop.has_curves st)]
              else Loop.all_subpaths st)
        /\ Loop.path_points st' = []
        /\ Loop.has_curves st' = false
        /\ Loop.current_point st' = Loop.current_point st
        /\ Loop.path_start st' = Loop.path_start st)
  /\ (forall closePath st,
         let is_closed :=
           closePath
           || match Loop.path_start st with
              | Some path_start =>
                  Point.eq (last (Loop.path_points st) (Point.mk 0 0)) path_start
              | None => false
              end in
         finish_items closePath st
         = if (2 <=? List.length (Loop.path_points st))%nat
           then Loop.all_subpaths st
                ++ [Subpath.mk (Loop.path_points st) is_closed (Loop.has_curves st)]
           else Loop.all_subpaths st)
  /\ (forall items data closePath,
         exists st data',
           foldM (process_item math_sqrt scale page_height color width linetype
                               fill_color)
                 items (Loop.init, data) = Returned (st, data')
           /\ subpaths_have_two_points (finish_items closePath st)).
Proof.
  split.
  { intros st data. cbv zeta. cbn [process_item]. eexists.
    split; [reflexivity|]. cbn [Loop.all_subpaths Loop.path_points Loop.has_curves
                                Loop.current_point Loop.path_start].
    split; [|repeat split; reflexivity].
    unfold flush, Point.ne.
    cbn [Loop.all_subpaths Loop.path_points Loop.has_curves].
    destruct (Loop.path_start st) as [s|]; destruct (Loop.current_point st) as [c|];
      try destruct (Point.eq s c); cbn [negb]; reflexivity. }
  split.
  { intros closePath st. cbv zeta. unfold finish_items, flush. reflexivity. }
  intros items data closePath.
  destruct (item_loop_two_points math_sqrt scale page_height color width linetype
              fill_color items data) as (st & data' & Hrun & Hok).
  exists st, data'. split; [exact Hrun|].
  unfold finish_items. apply flush_two_points. exact Hok.
Qed.

(** Counterexample to C6 as stated: after the closed triangle
    m (0,0) l (4,0) l (4,3) h on a page of height 10, the current point is
    still the triangle's last corner, not reset.  A following curve to the
    recorded start is built from that stale point: the sub-path it leaves at
    the end of the items is flagged closed although its first point is not
    its last and closePath is unset. *)
Lemma close_keeps_current_point :
  (exists st data,
      foldM (process_item DemoLib.sqrt 1 10 black 1 CONTINUOUS None)
            [Item_m (Fitz.mkPt 0 0);
             Item_l (Fitz.mkPt 0 0) (Fitz.mkPt 4 0);
             Item_l (Fitz.mkPt 4 0) (Fitz.mkPt 4 3);
             Item_h]
            (Loop.init, Sample.page [])
      = Returned (st, data)
      /\ Loop.current_point st = Some (Point.mk (4 * 1) ((10 - 3) * 1))
      /\ Loop.current_point st <> None
      /\ Loop.current_point st <> Loop.path_start st)
  /\
  (exists st data subpath,
      foldM (process_item DemoLib.sqrt 1 10 black 1 CONTINUOUS None)
            [Item_m (Fitz.mkPt 0 0);
             Item_l (Fitz.mkPt 0 0) (Fitz.mkPt 4 0);
             Item_l (Fitz.mkPt 4 0) (Fitz.mkPt 4 3);
             Item_h;
             Item_c (Fitz.mkPt 4 5) (Fitz.mkPt 0 5) (Fitz.mkPt 0 0)]
            (Loop.init, Sample.page [])
      = Returned (st, data)
      /\ last (finish_items false st) (Subpath.mk [] false false) = subpath
      /\ Subpath.closed subpath = true
      /\ Point.eq (hd (Point.mk 0 0) (Subpath.points subpath))
                  (last (Subpath.points subpath) (Point.mk 0 0)) = false).
Proof.
  split.
  - eexists. eexists. split; [vm_compute; reflexivity|].
    split; [reflexivity|]. split; [discriminate|]. cbn. discriminate.
  - eexists. eexists. eexists.
    split; [vm_compute; reflexivity|].
    split; [vm_compute; reflexivity|].
    split; vm_compute; reflexivity.
Qed.

Lemma kept_polylines_two_points {E : Type} (verdict : Polyline.t -> Verdict E)
    (l : list Polyline.t) :
  Forall has_two_points l -> Forall has_two_points (kept_polylines verdict l).
Proof.
  intro H. apply Forall_forall. intros pl Hin.
  apply In_kept_polylines in Hin. destruct Hin as [Hin _].
  rewrite Forall_forall in H. exact (H pl Hin).
Qed.

(** C8, as the code has it.  A Rectangle produced by rectangle
    classification has width and height of at least 0.5.  A Rectangle
    emitted for a ["re"] item carries the item's extents times the scale,
    unchecked.  Hence, when every ["re"] item of every path has positive
    scaled extents (or there is none), [_extract_drawings] returns a
    container in which every Rectangle has width > 0 and height > 0.
    Whatever the items are, degenerate ["re"] items included, every
    Polyline [_extract_drawings] stores has at least 2 points, and the two
    detection sweeps keep it so. *)
Theorem stored_entities_well_formed
    (math_sqrt : Q -> Q) (math_atan2 : Q -> Q -> Q) (math_cos math_sin : Q -> Q)
    (np_linalg_lstsq : list (list Q) -> list Q -> outcome (list Q))
    (np_linalg_inv : Matrix -> outcome Matrix)
    (np_linalg_eig : Matrix -> outcome (list Complex * list (list Complex)))
    (scale page_height : Q) :
  (forall points closed color width linetype fill_color data r,
      In r (ExtractedData.rectangles
              (_save_path_entity points closed color width linetype fill_color data)) ->
      In r (ExtractedData.rectangles data)
      \/ (5 # 10 <= Rectangle.width r /\ 5 # 10 <= Rectangle.height r))
  /\ (forall color width linetype fill_color st data rect,
         exists data',
           process_item math_sqrt scale page_height color width linetype fill_color
                        (st, data) (Item_re rect) = Returned (st, data')
           /\ ExtractedData.rectangles data'
              = ExtractedData.rectangles data
                ++ [Rectangle.mk
                      (Point.mk (Fitz.x0 rect * scale)
                                ((page_height - Fitz.y1 rect) * scale))
                      ((Fitz.x1 rect - Fitz.x0 rect) * scale)
                      ((Fitz.y1 rect - Fitz.y0 rect) * scale)
                      color width "0" linetype fill_color])
  /\ (forall paths data,
         Forall (fun path => Forall (rect_command_positive scale) (Path.items path))
                paths ->
         entities_well_formed data ->
         exists data',
           _extract_drawings math_sqrt scale page_height paths data = Returned data'
           /\ Forall positive_extent (ExtractedData.rectangles data')
           /\ Forall has_two_points (ExtractedData.polylines data'))
  /\ (forall paths data,
         Forall (fun path => Forall (fun item => forall rect, item <> Item_re rect)
                                    (Path.items path)) paths ->
         entities_well_formed data ->
         exists data',
           _extract_drawings math_sqrt scale page_height paths data = Returned data'
           /\ Forall positive_extent (ExtractedData.rectangles data')
           /\ Forall has_two_points (ExtractedData.polylines data'))
  /\ (forall paths data,
         Forall has_two_points (ExtractedData.polylines data) ->
         exists data',
           _extract_drawings math_sqrt scale page_height paths data = Returned data'
           /\ Forall has_two_points (ExtractedData.polylines data'))
  /\ (forall data tolerance tolerance',
         Forall has_two_points (ExtractedData.polylines data) ->
         exists data1 data2,
           detect_circles_and_arcs math_sqrt math_atan2 np_linalg_lstsq data tolerance
           = Returned data1
           /\ detect_ellipses math_sqrt math_atan2 math_cos math_sin np_linalg_inv
                              np_linalg_eig data1 tolerance' = Returned data2
           /\ Forall has_two_points (ExtractedData.polylines data1)
           /\ Forall has_two_points (ExtractedData.polylines data2)).
Proof.
  assert (Hengine :
            forall paths data,
              Forall (fun path => Forall (rect_command_positive scale)
                                         (Path.items path)) paths ->
              entities_well_formed data ->
              exists data',
                _extract_drawings math_sqrt scale page_height paths data
                = Returned data'
                /\ Forall positive_extent (ExtractedData.rectangles data')
                /\ Forall has_two_points (ExtractedData.polylines data')).
  { intros paths data Hre Hwf.
    destruct (_extract_drawings_total math_sqrt scale page_height paths data)
      as [data' Hrun].
    exists data'. split; [exact Hrun|].
    refine (foldM_invariant _ entities_well_formed
              (fun path => Forall (rect_command_positive scale) (Path.items path))
              _ paths data data' Hre Hwf Hrun).
    intros s path s' Hpath Hs Hf.
    exact (process_path_well_formed math_sqrt scale page_height s s' path Hpath Hs Hf). }
  split.
  { intros points closed color width linetype fill_color data r.
    unfold _save_path_entity.
    destruct (List.length points =? 2)%nat; [intro H; now left|].
    destruct ((4 <=? List.length points)%nat && closed && _is_rectangle points) eqn:E.
    - cbn [ExtractedData.set_rectangles ExtractedData.rectangles]. intro H.
      apply in_app_or in H. destruct H as [H|[<-|[]]]; [now left|right].
      apply rectangle_shape_dec in E. destruct E as (_ & _ & Hx & Hy).
      pose proof (two_distinct_spread _ 0 Hx). pose proof (two_distinct_spread _ 0 Hy).
      split; assumption.
    - destruct fill_color as [fc|];
        [destruct (closed && (3 <=? List.length points)%nat)|];
        intro H; now left. }
  split.
  { intros color width linetype fill_color st data rect. cbn [process_item].
    eexists. split; [reflexivity|]. destruct fill_color; reflexivity. }
  split; [exact Hengine|].
  split.
  { intros paths data Hnore Hwf. apply Hengine; [|exact Hwf].
    apply Forall_forall. intros path Hpath. apply Forall_forall. intros item Hitem.
    rewrite Forall_forall in Hnore. specialize (Hnore path Hpath).
    rewrite Forall_forall in Hnore. specialize (Hnore item Hitem).
    destruct item; try exact I. exfalso. exact (Hnore rect eq_refl). }
  split.
  { intros paths data Hp.
    destruct (_extract_drawings_total math_sqrt scale page_height paths data)
      as [data' Hrun].
    exists data'. split; [exact Hrun|].
    revert Hp. revert Hrun.
    apply (_extract_drawings_steps math_sqrt scale page_height
             (fun d d' =>
                Forall has_two_points (ExtractedData.polylines d) ->
                Forall has_two_points (ExtractedData.polylines d'))).
    - intros d H. exact H.
    - intros d1 d2 d3 H12 H23 H. apply H23, H12, H.
    - intros d l H. destruct d. exact H.
    - intros d r H. destruct d. exact H.
    - intros d points closed color width linetype Hlen H. destruct d.
      cbn [ExtractedData.set_polylines ExtractedData.polylines] in *.
      apply Forall_app. split; [exact H|]. constructor; [exact Hlen|constructor].
    - intros d points fc _ H. destruct d. exact H. }
  intros data tol tol' Hp.
  eexists. eexists.
  split; [apply detect_circles_and_arcs_closed_form|].
  split; [apply detect_ellipses_closed_form|].
  cbn [ExtractedData.set_polylines ExtractedData.set_arcs ExtractedData.set_circles
       ExtractedData.set_ellipses ExtractedData.polylines].
  split.
  - now apply kept_polylines_two_points.
  - now apply kept_polylines_two_points, kept_polylines_two_points.
Qed.

(** Counterexample to C8 as stated: the path made of the single item
    re (0, 0, 0, 5), a rectangle of zero width, is stored as a Rectangle of
    width 0. *)
Lemma degenerate_rect_stored :
  exists data' r,
    _extract_drawings DemoLib.sqrt 1 10
      [Path.mk [Item_re (Fitz.mkRect 0 0 0 5)] None Fill_None None Dashes_None
               true false]
      (ExtractedData.empty 100 100)
    = Returned data'
    /\ ExtractedData.rectangles data' = [r]
    /\ Rectangle.width r == 0
    /\ ~ 0 < Rectangle.width r.
Proof.
  eexists. eexists. split; [vm_compute; reflexivity|].
  split; [reflexivity|]. split; [reflexivity|].
  cbn. intro H. discriminate H.
Qed.

(** A filled page outline given as one ["re"] item, and a closed pentagon
    drawn with line segments: both paths have positive extents, and the
    container they produce is well formed. *)
Lemma stored_entities_well_formed_witness :
  Forall (fun path => Forall (rect_command_positive 1) (Path.items path))
         [Path.mk [Item_re (Fitz.mkRect 0 0 10 5)] None (Fill_gray (1 # 2)) None
                  Dashes_None true false;
          Path.mk [Item_m (Fitz.mkPt 0 0);
                   Item_l (Fitz.mkPt 0 0) (Fitz.mkPt 4 0);
                   Item_l (Fitz.mkPt 4 0) (Fitz.mkPt 5 3);
                   Item_l (Fitz.mkPt 5 3) (Fitz.mkPt 2 5);
                   Item_l (Fitz.mkPt 2 5) (Fitz.mkPt (-1) 3);
                   Item_h]
                  None Fill_None (Some 2) Dashes_None true false]
  /\ entities_well_formed (ExtractedData.empty 100 100)
  /\ exists data',
      _extract_drawings DemoLib.sqrt 1 10
        [Path.mk [Item_re (Fitz.mkRect 0 0 10 5)] None (Fill_gray (1 # 2)) None
                 Dashes_None true false;
         Path.mk [Item_m (Fitz.mkPt 0 0);
                  Item_l (Fitz.mkPt 0 0) (Fitz.mkPt 4 0);
                  Item_l (Fitz.mkPt 4 0) (Fitz.mkPt 5 3);
                  Item_l (Fitz.mkPt 5 3) (Fitz.mkPt 2 5);
                  Item_l (Fitz.mkPt 2 5) (Fitz.mkPt (-1) 3);
                  Item_h]
                 None Fill_None (Some 2) Dashes_None true false]
        (ExtractedData.empty 100 100)
      = Returned data'
      /\ Forall positive_extent (ExtractedData.rectangles data')
      /\ Forall has_two_points (ExtractedData.polylines data').
Proof.
  assert (Hre : Forall (fun path => Forall (rect_command_positive 1) (Path.items path))
                  [Path.mk [Item_re (Fitz.mkRect 0 0 10 5)] None (Fill_gray (1 # 2))
                           None Dashes_None true false;
                   Path.mk [Item_m (Fitz.mkPt 0 0);
                            Item_l (Fitz.mkPt 0 0) (Fitz.mkPt 4 0);
                            Item_l (Fitz.mkPt 4 0) (Fitz.mkPt 5 3);
                            Item_l (Fitz.mkPt 5 3) (Fitz.mkPt 2 5);
                            Item_l (Fitz.mkPt 2 5) (Fitz.mkPt (-1) 3);
                            Item_h]
                           None Fill_None (Some 2) Dashes_None true false]).
  { repeat constructor. }
  assert (Hwf : entities_well_formed (ExtractedData.empty 100 100))
    by (split; constructor).
  split; [exact Hre|]. split; [exact Hwf|].
  destruct (stored_entities_well_formed DemoLib.sqrt DemoLib.atan2 DemoLib.cos
              DemoLib.sin DemoLib.lstsq DemoLib.inv (DemoLib.eig_check []) 1 10)
    as (_ & _ & Hengine & _).
  exact (Hengine _ _ Hre Hwf).
Defined.

Example extract_drawings_sample :
  exists data' pl r,
    _extract_drawings DemoLib.sqrt 1 10
      [Path.mk [Item_re (Fitz.mkRect 0 0 10 5)] None (Fill_gray (1 # 2)) None
               Dashes_None true false;
       Path.mk [Item_m (Fitz.mkPt 0 0);
                Item_l (Fitz.mkPt 0 0) (Fitz.mkPt 4 0);
                Item_l (Fitz.mkPt 4 0) (Fitz.mkPt 5 3);
                Item_l (Fitz.mkPt 5 3) (Fitz.mkPt 2 5);
                Item_l (Fitz.mkPt 2 5) (Fitz.mkPt (-1) 3);
                Item_h]
               None Fill_None (Some 2) Dashes_None true false]
      (ExtractedData.empty 100 100)
    = Returned data'
    /\ ExtractedData.polylines data' = [pl]
    /\ List.length (Polyline.points pl) = 6%nat
    /\ Polyline.closed pl = true
    /\ ExtractedData.rectangles data' = [r]
    /\ Rectangle.width r == 10 /\ Rectangle.height r == 5
    /\ List.length (ExtractedData.hatches data') = 1%nat
    /\ ExtractedData.lines data' = [].
Proof.
  eexists. eexists. eexists. split; [vm_compute; reflexivity|].
  repeat split; reflexivity.
Qed.

(** * Further properties of the code *)

(** ** Entity counts through the detection stage *)

(** Reduction of the accessors and updates of the container only. *)
Ltac data_cbn :=
  cbn [ExtractedData.lines ExtractedData.arcs ExtractedData.circles
       ExtractedData.ellipses ExtractedData.polylines ExtractedData.splines
       ExtractedData.texts ExtractedData.mtexts ExtractedData.rectangles
       ExtractedData.hatches ExtractedData.images ExtractedData.width
       ExtractedData.height ExtractedData.layers
       ExtractedData.set_lines ExtractedData.set_arcs ExtractedData.set_circles
       ExtractedData.set_ellipses ExtractedData.set_polylines
       ExtractedData.set_rectangles ExtractedData.set_hatches
       ExtractedData.set_texts ExtractedData.empty].


Lemma kept_promoted_length {E : Type} (verdict : Polyline.t -> Verdict E)
    (l : list Polyline.t) :
  (List.length (kept_polylines verdict l) + List.length (promoted_entities verdict l)
   = List.length l)%nat.
Proof.
  unfold kept_polylines, promoted_entities.
  induction l as [|pl r IH]; [reflexivity|].
  cbn [filter flat_map]. destruct (verdict pl); cbn [List.length app]; lia.
Qed.

Lemma lefts_rights_length {A B : Type} (l : list (A + B)) :
  (List.length (lefts l) + List.length (rights l) = List.length l)%nat.
Proof.
  unfold lefts, rights. induction l as [|[a|b] r IH]; cbn [flat_map List.length app]; lia.
Qed.

Lemma kept_polylines_all_kept {E : Type} (verdict : Polyline.t -> Verdict E)
    (l : list Polyline.t) :
  Forall (fun pl => verdict pl = Kept) l ->
  kept_polylines verdict l = l /\ promoted_entities verdict l = [].
Proof.
  unfold kept_polylines, promoted_entities.
  induction 1 as [|pl r Hpl Hr [IH1 IH2]]; [split; reflexivity|].
  cbn [filter flat_map]. rewrite Hpl, IH1, IH2. split; reflexivity.
Qed.

Lemma kept_polylines_verdict {E : Type} (verdict : Polyline.t -> Verdict E)
    (l : list Polyline.t) :
  Forall (fun pl => verdict pl = Kept) (kept_polylines verdict l).
Proof.
  unfold kept_polylines. apply Forall_forall. intros pl H.
  apply filter_In in H. destruct H as [_ H].
  destruct (verdict pl); [reflexivity|discriminate].
Qed.

Lemma kept_polylines_sub {E : Type} (verdict : Polyline.t -> Verdict E)
    (P : Polyline.t -> Prop) (l : list Polyline.t) :
  Forall P l -> Forall P (kept_polylines verdict l).
Proof.
  unfold kept_polylines. rewrite !Forall_forall. intros H pl Hin.
  apply filter_In in Hin. apply H. exact (proj1 Hin).
Qed.

Section PipelineFacts.

Variable math_sqrt : Q -> Q.
Variable math_atan2 : Q -> Q -> Q.
Variable math_cos : Q -> Q.
Variable math_sin : Q -> Q.
Variable np_linalg_lstsq : list (list Q) -> list Q -> outcome (list Q).
Variable np_linalg_inv : Matrix -> outcome Matrix.
Variable np_linalg_eig : Matrix -> outcome (list Complex * list (list Complex)).

Lemma circles_count (data : ExtractedData.t) (tolerance : Q) :
  exists data',
    detect_circles_and_arcs math_sqrt math_atan2 np_linalg_lstsq data tolerance
    = Returned data'
    /\ ExtractedData.get_entity_count data' = ExtractedData.get_entity_count data
    /\ ExtractedData.polylines data'
       = kept_polylines (circle_verdict math_sqrt math_atan2 np_linalg_lstsq tolerance)
                        (ExtractedData.polylines data).
Proof.
  eexists. split; [apply detect_circles_and_arcs_closed_form|]. split; [|reflexivity].
  unfold ExtractedData.get_entity_count. destruct data. data_cbn.
  rewrite !length_app.
  pose proof (kept_promoted_length
                (circle_verdict math_sqrt math_atan2 np_linalg_lstsq tolerance)
                polylines) as H1.
  pose proof (lefts_rights_length
                (promoted_entities
                   (circle_verdict math_sqrt math_atan2 np_linalg_lstsq tolerance)
                   polylines)) as H2.
  lia.
Qed.

Lemma ellipses_count (data : ExtractedData.t) (tolerance : Q) :
  exists data',
    detect_ellipses math_sqrt math_atan2 math_cos math_sin np_linalg_inv
                    np_linalg_eig data tolerance = Returned data'
    /\ ExtractedData.get_entity_count data' = ExtractedData.get_entity_count data
    /\ ExtractedData.polylines data'
       = kept_polylines
           (ellipse_verdict math_sqrt math_atan2 math_cos math_sin
                            np_linalg_inv np_linalg_eig tolerance)
           (ExtractedData.polylines data).
Proof.
  eexists. split; [apply detect_ellipses_closed_form|]. split; [|reflexivity].
  unfold ExtractedData.get_entity_count. destruct data. data_cbn.
  rewrite !length_app.
  pose proof (kept_promoted_length
                (ellipse_verdict math_sqrt math_atan2 math_cos math_sin
                                 np_linalg_inv np_linalg_eig tolerance)
                polylines) as H1.
  lia.
Qed.

(** A sweep over polylines that it would all keep changes nothing. *)
Lemma circles_fixpoint (data : ExtractedData.t) (tolerance : Q) :
  Forall (fun pl =>
            circle_verdict math_sqrt math_atan2 np_linalg_lstsq tolerance pl = Kept)
         (ExtractedData.polylines data) ->
  detect_circles_and_arcs math_sqrt math_atan2 np_linalg_lstsq data tolerance
  = Returned data.
Proof.
  intro H. rewrite detect_circles_and_arcs_closed_form.
  destruct (kept_polylines_all_kept _ _ H) as [-> ->].
  destruct data. data_cbn. rewrite !app_nil_r. reflexivity.
Qed.

Lemma ellipses_fixpoint (data : ExtractedData.t) (tolerance : Q) :
  Forall (fun pl =>
            ellipse_verdict math_sqrt math_atan2 math_cos math_sin
                            np_linalg_inv np_linalg_eig tolerance pl = Kept)
         (ExtractedData.polylines data) ->
  detect_ellipses math_sqrt math_atan2 math_cos math_sin np_linalg_inv
                  np_linalg_eig data tolerance = Returned data.
Proof.
  intro H. rewrite detect_ellipses_closed_form.
  destruct (kept_polylines_all_kept _ _ H) as [-> ->].
  destruct data. data_cbn. rewrite !app_nil_r. reflexivity.
Qed.

Lemma detect_page_count (detect_geometry detect_ellipse : bool)
    (page_data : ExtractedData.t) :
  exists page_data',
    detect_page math_sqrt math_atan2 math_cos math_sin np_linalg_lstsq
                np_linalg_inv np_linalg_eig detect_geometry detect_ellipse page_data
    = Returned page_data'
    /\ ExtractedData.get_entity_count page_data'
       = ExtractedData.get_entity_count page_data.
Proof.
  unfold detect_page.
  destruct detect_geometry.
  - destruct (circles_count page_data (2 # 100)) as (d1 & E1 & C1 & _).
    rewrite E1. cbn [bind].
    destruct detect_ellipse.
    + destruct (ellipses_count d1 (5 # 100)) as (d2 & E2 & C2 & _).
      rewrite E2. exists d2. split; [reflexivity|congruence].
    + exists d1. split; [reflexivity|exact C1].
  - cbn [bind]. destruct detect_ellipse.
    + destruct (ellipses_count page_data (5 # 100)) as (d2 & E2 & C2 & _).
      rewrite E2. exists d2. split; [reflexivity|exact C2].
    + exists page_data. split; reflexivity.
Qed.

End PipelineFacts.

Lemma total_entities_from (pages : list ExtractedData.t) (n : nat) :
  fold_left (fun total data => (total + ExtractedData.get_entity_count data)%nat) pages n
  = (n + total_entities pages)%nat.
Proof.
  unfold total_entities. revert n.
  induction pages as [|d r IH]; intro n; cbn [fold_left]; [lia|].
  rewrite IH, (IH (0 + _)%nat). lia.
Qed.

Lemma total_entities_cons (d : ExtractedData.t) (pages : list ExtractedData.t) :
  total_entities (d :: pages)
  = (ExtractedData.get_entity_count d + total_entities pages)%nat.
Proof.
  unfold total_entities at 1. cbn [fold_left]. rewrite total_entities_from. lia.
Qed.

(** X1.  The detection stage of the converter returns for every page,
    with any combination of its two flags, and leaves the entity count of
    each page as it was: a promoted polyline is replaced by exactly one
    entity.  The total [entities_count] reported for a conversion is
    therefore the number of entities extracted from the pages. *)
Theorem detection_preserves_entity_count
    (math_sqrt : Q -> Q) (math_atan2 : Q -> Q -> Q) (math_cos math_sin : Q -> Q)
    (np_linalg_lstsq : list (list Q) -> list Q -> outcome (list Q))
    (np_linalg_inv : Matrix -> outcome Matrix)
    (np_linalg_eig : Matrix -> outcome (list Complex * list (list Complex)))
    (detect_geometry detect_ellipse : bool) (pages : list ExtractedData.t) :
  exists extracted_pages,
    mapM (detect_page math_sqrt math_atan2 math_cos math_sin np_linalg_lstsq
                      np_linalg_inv np_linalg_eig detect_geometry detect_ellipse)
         pages
    = Returned extracted_pages
    /\ map ExtractedData.get_entity_count extracted_pages
       = map ExtractedData.get_entity_count pages
    /\ total_entities extracted_pages = total_entities pages.
Proof.
  induction pages as [|d r (r' & E & Hmap & Htot)].
  - exists []. repeat split; reflexivity.
  - destruct (detect_page_count math_sqrt math_atan2 math_cos math_sin np_linalg_lstsq
                np_linalg_inv np_linalg_eig detect_geometry detect_ellipse d)
      as (d' & Ed & Cd).
    exists (d' :: r'). cbn [mapM]. rewrite Ed. cbn [bind]. rewrite E. cbn [bind].
    split; [reflexivity|]. split.
    + cbn [map]. rewrite Cd, Hmap. reflexivity.
    + rewrite !total_entities_cons, Cd, Htot. reflexivity.
Qed.

(** X2.  The detection stage is idempotent: run on its own result, with
    the same flags, it returns that result unchanged.  The polylines a
    sweep leaves behind are exactly those it rejects, so a second run
    promotes nothing and duplicates no circle, arc or ellipse. *)
Theorem detection_idempotent
    (math_sqrt : Q -> Q) (math_atan2 : Q -> Q -> Q) (math_cos math_sin : Q -> Q)
    (np_linalg_lstsq : list (list Q) -> list Q -> outcome (list Q))
    (np_linalg_inv : Matrix -> outcome Matrix)
    (np_linalg_eig : Matrix -> outcome (list Complex * list (list Complex)))
    (detect_geometry detect_ellipse : bool) (page_data : ExtractedData.t) :
  exists page_data',
    detect_page math_sqrt math_atan2 math_cos math_sin np_linalg_lstsq
                np_linalg_inv np_linalg_eig detect_geometry detect_ellipse page_data
    = Returned page_data'
    /\ detect_page math_sqrt math_atan2 math_cos math_sin np_linalg_lstsq
                   np_linalg_inv np_linalg_eig detect_geometry detect_ellipse page_data'
       = Returned page_data'.
Proof.
  unfold detect_page.
  destruct detect_geometry.
  - destruct (circles_count math_sqrt math_atan2 np_linalg_lstsq page_data (2 # 100))
      as (d1 & E1 & _ & P1).
    rewrite E1. cbn [bind].
    pose proof (kept_polylines_verdict
                  (circle_verdict math_sqrt math_atan2 np_linalg_lstsq (2 # 100))
                  (ExtractedData.polylines page_data)) as K1.
    rewrite <- P1 in K1.
    destruct detect_ellipse.
    + destruct (ellipses_count math_sqrt math_atan2 math_cos math_sin np_linalg_inv
                  np_linalg_eig d1 (5 # 100)) as (d2 & E2 & _ & P2).
      rewrite E2. exists d2. split; [reflexivity|].
      assert (K2 : Forall (fun pl =>
                             circle_verdict math_sqrt math_atan2 np_linalg_lstsq
                                            (2 # 100) pl = Kept)
                          (ExtractedData.polylines d2)).
      { rewrite P2. apply kept_polylines_sub. exact K1. }
      rewrite (circles_fixpoint math_sqrt math_atan2 np_linalg_lstsq d2 _ K2).
      cbn [bind].
      apply ellipses_fixpoint. rewrite P2. apply kept_polylines_verdict.
    + exists d1. split; [reflexivity|].
      rewrite (circles_fixpoint math_sqrt math_atan2 np_linalg_lstsq d1 _ K1).
      reflexivity.
  - cbn [bind]. destruct detect_ellipse.
    + destruct (ellipses_count math_sqrt math_atan2 math_cos math_sin np_linalg_inv
                  np_linalg_eig page_data (5 # 100)) as (d2 & E2 & _ & P2).
      rewrite E2. exists d2. split; [reflexivity|].
      apply ellipses_fixpoint. rewrite P2. apply kept_polylines_verdict.
    + exists page_data. split; reflexivity.
Qed.

(** ** The tolerance equality of points, and the page transform *)

(** X3.  [Point.__eq__] is reflexive and symmetric, and [!=] is its
    negation, but it is not transitive: (0, 0), (6e-7, 0) and (1.2e-6, 0)
    are equal pairwise in sequence while the first differs from the
    last.  It is a tolerance relation, not an equivalence. *)
Theorem point_eq_tolerance_relation :
  (forall p, Point.eq p p = true)
  /\ (forall p q, Point.eq p q = Point.eq q p)
  /\ (forall p q, Point.ne p q = negb (Point.eq p q))
  /\ (exists p q r,
         Point.eq p q = true /\ Point.eq q r = true /\ Point.eq p r = false).
Proof.
  split; [|split; [|split]].
  - intro p. apply Point_eq_of_Qeq; reflexivity.
  - intros p q. unfold Point.eq.
    rewrite (Qabs_Qminus (Point.x p)), (Qabs_Qminus (Point.y p)). reflexivity.
  - reflexivity.
  - exists (Point.mk 0 0), (Point.mk (6 # 10000000) 0), (Point.mk (12 # 10000000) 0).
    repeat split; reflexivity.
Qed.

(** X4.  For a scale that is not negative, [_transform_point] keeps the
    order of the x coordinates and reverses the order of the y coordinates;
    a point of the page (0 <= y <= page_height) lands between 0 and
    [page_height * scale]; the bottom edge of the PDF page
    ([y = page_height]) goes to y = 0 and the top edge to
    [page_height * scale]. *)
Theorem transform_flips_y_axis (scale page_height x1 y1 x2 y2 : Q) :
  0 <= scale ->
  let p := _transform_point scale page_height x1 y1 in
  let q := _transform_point scale page_height x2 y2 in
  (x1 <= x2 -> Point.x p <= Point.x q)
  /\ (y1 <= y2 -> Point.y q <= Point.y p)
  /\ (0 <= y1 <= page_height -> 0 <= Point.y p <= page_height * scale)
  /\ Point.y (_transform_point scale page_height x1 page_height) == 0
  /\ Point.y (_transform_point scale page_height x1 0) == page_height * scale.
Proof.
  intro Hs. cbv zeta. unfold _transform_point, _transform_y. cbn [Point.x Point.y].
  split; [|split; [|split; [|split]]].
  - intro H. now apply Qmult_le_compat_r.
  - intro H. apply Qmult_le_compat_r; [lra|exact Hs].
  - intros [Hlo Hhi]. split.
    + apply Qmult_le_0_compat; [lra|exact Hs].
    + apply Qmult_le_compat_r; [lra|exact Hs].
  - ring.
  - ring.
Qed.

(** A US letter page (792 points high) at the scale 25.4 / 72. *)
Lemma transform_flips_y_axis_witness :
  0 <= 254 # 720
  /\ Point.y (_transform_point (254 # 720) 792 72 792) == 0.
Proof.
  assert (Hs : 0 <= 254 # 720) by (intro H; discriminate H).
  split; [exact Hs|].
  exact (proj1 (proj2 (proj2 (proj2
           (transform_flips_y_axis (254 # 720) 792 72 100 300 700 Hs))))).
Defined.

(** ** Rectangle commands and the fill-only pass *)

Lemma Qeq_bool_false (a b : Q) : ~ a == b -> Qeq_bool a b = false.
Proof.
  intro H. destruct (Qeq_bool a b) eqn:E; [|reflexivity].
  apply Qeq_bool_iff in E. contradiction.
Qed.

Lemma path_width_nonzero (scale : Q) (path : Path.t) :
  ~ scale == 0 -> eqb (path_width scale path) 0 = false.
Proof.
  intro Hs. unfold path_width, eqb. apply Qeq_bool_false.
  destruct (Path.width path) as [w|].
  - destruct (Qeq_bool w 0) eqn:E; intro H; apply Qmult_integral in H;
      destruct H as [H|H]; try exact (Hs H).
    + discriminate H.
    + apply Qeq_bool_neq in E. exact (E H).
  - intro H. apply Qmult_integral in H. destruct H as [H|H]; [discriminate H|exact (Hs H)].
Qed.

(** X5.  With a non-zero scale the stroke width of a path is never 0 (a
    missing or zero width is replaced by 1.0 before scaling), so the pass
    "filled but non-stroked paths", which requires [width == 0], adds no
    hatch: it leaves the container as it is. *)
Theorem fill_only_pass_is_inert
    (scale : Q) (path : Path.t) (all_subpaths : list Subpath.t) (data : ExtractedData.t) :
  ~ scale == 0 ->
  ~ path_width scale path == 0
  /\ fill_hatches (path_color path) (path_width scale path) (path_fill_color path)
                  all_subpaths data = data.
Proof.
  intro Hs. pose proof (path_width_nonzero scale path Hs) as Hw. split.
  - apply Qeq_bool_neq. exact Hw.
  - unfold fill_hatches. destruct (path_fill_color path) as [fc|]; [|reflexivity].
    rewrite Hw, andb_false_r. reflexivity.
Qed.

Lemma fill_only_pass_is_inert_witness :
  ~ path_width 1 SamplePages.filled_path == 0
  /\ fill_hatches (path_color SamplePages.filled_path)
                  (path_width 1 SamplePages.filled_path)
                  (path_fill_color SamplePages.filled_path)
                  [SamplePages.triangle] (ExtractedData.empty 10 10)
     = ExtractedData.empty 10 10.
Proof.
  apply (fill_only_pass_is_inert 1 SamplePages.filled_path [SamplePages.triangle]
           (ExtractedData.empty 10 10)).
  intro H. discriminate H.
Defined.

(** X6.  A ["re"] item always returns, leaves the loop state, the lines
    and the polylines alone, and appends one Rectangle whose corner is the
    image of the corner (x0, y1) of the PDF rectangle; for a scale that is
    not negative its width is not negative when x0 <= x1, and its height
    when y0 <= y1.  When the path is filled it appends one solid hatch
    besides, whose boundary is a ring of five points that starts and ends
    at that corner; otherwise no hatch. *)
Theorem rect_command_geometry
    (math_sqrt : Q -> Q) (scale page_height : Q)
    (color : Color) (width : Q) (linetype : LineType) (fill_color : option Color)
    (st : Loop.t) (data : ExtractedData.t) (rect : Fitz.Rect) :
  exists data' r ring,
    process_item math_sqrt scale page_height color width linetype fill_color
                 (st, data) (Item_re rect) = Returned (st, data')
    /\ ExtractedData.rectangles data' = ExtractedData.rectangles data ++ [r]
    /\ Rectangle.corner r
       = _transform_point scale page_height (Fitz.x0 rect) (Fitz.y1 rect)
    /\ (0 <= scale -> Fitz.x0 rect <= Fitz.x1 rect -> 0 <= Rectangle.width r)
    /\ (0 <= scale -> Fitz.y0 rect <= Fitz.y1 rect -> 0 <= Rectangle.height r)
    /\ ExtractedData.hatches data'
       = ExtractedData.hatches data
         ++ match fill_color with
            | Some fc => [Hatch.solid [ring] fc]
            | None => []
            end
    /\ List.length ring = 5%nat
    /\ hd (Point.mk 0 0) ring = Rectangle.corner r
    /\ last ring (Point.mk 0 0) = Rectangle.corner r
    /\ ExtractedData.polylines data' = ExtractedData.polylines data
    /\ ExtractedData.lines data' = ExtractedData.lines data.
Proof.
  cbn [process_item].
  set (corner := _transform_point scale page_height (Fitz.x0 rect) (Fitz.y1 rect)).
  set (w := (Fitz.x1 rect - Fitz.x0 rect) * scale).
  set (h := (Fitz.y1 rect - Fitz.y0 rect) * scale).
  exists (match fill_color with
          | Some fc =>
              ExtractedData.set_hatches
                (ExtractedData.set_rectangles data
                   (ExtractedData.rectangles data
                    ++ [Rectangle.mk corner w h color width "0" linetype fill_color]))
                (ExtractedData.hatches data
                 ++ [Hatch.solid
                       [[corner;
                         Point.mk (Point.x corner + w) (Point.y corner);
                         Point.mk (Point.x corner + w) (Point.y corner + h);
                         Point.mk (Point.x corner) (Point.y corner + h);
                         corner]] fc])
          | None =>
              ExtractedData.set_rectangles data
                (ExtractedData.rectangles data
                 ++ [Rectangle.mk corner w h color width "0" linetype fill_color])
          end).
  exists (Rectangle.mk corner w h color width "0" linetype fill_color).
  exists [corner;
          Point.mk (Point.x corner + w) (Point.y corner);
          Point.mk (Point.x corner + w) (Point.y corner + h);
          Point.mk (Point.x corner) (Point.y corner + h);
          corner].
  cbn [Rectangle.corner Rectangle.width Rectangle.height List.length hd last].
  split; [destruct fill_color; reflexivity|].
  split; [destruct fill_color, data; reflexivity|].
  split; [reflexivity|].
  split.
  { intros Hs Hx. unfold w. apply Qmult_le_0_compat; [lra|exact Hs]. }
  split.
  { intros Hs Hy. unfold h. apply Qmult_le_0_compat; [lra|exact Hs]. }
  split.
  { destruct fill_color, data; cbn; [reflexivity|now rewrite app_nil_r]. }
  repeat split; destruct fill_color, data; reflexivity.
Qed.

(** ** How many points a flattened curve has *)

Lemma In_range (n i : Z) : In i (range n) -> (0 <= i < n)%Z.
Proof.
  unfold range. intro H. apply in_map_iff in H. destruct H as [k [<- Hk]].
  apply in_seq in Hk. lia.
Qed.

Section FlattenerCost.

Variable math_sqrt : Q -> Q.

Lemma bezier_segments_default (p0 p1 p2 p3 : Point) (adaptive : bool) :
  exists n, bezier_segments math_sqrt p0 p1 p2 p3 16 adaptive = Returned n
            /\ (16 <= n <= 64)%Z
            /\ (adaptive = false -> n = 16%Z).
Proof.
  unfold bezier_segments.
  destruct adaptive;
    [|exists 16%Z; split; [reflexivity|split; [lia|reflexivity]]].
  set (ch := Point.distance_to math_sqrt p0 p3).
  set (cl := Point.distance_to math_sqrt p0 p1 + Point.distance_to math_sqrt p1 p2
             + Point.distance_to math_sqrt p2 p3).
  change (int (inject_Z 16 * (15 # 10))) with 24%Z.
  change (int (inject_Z 16 * (12 # 10))) with 19%Z.
  destruct (gtb ch (1 # 1000)) eqn:Hch.
  - bool2prop. rewrite div_returned by lra. cbn [bind].
    eexists. split; [reflexivity|]. split; [|discriminate].
    destruct (gtb (cl / ch) (15 # 10)) eqn:R1.
    + bool2prop.
      assert (H : (24 <= int (inject_Z 16 * (cl / ch)))%Z).
      { apply (int_lower 24); [lia|].
        set (r := cl / ch) in *. clearbody r.
        change (inject_Z 24) with 24. change (inject_Z 16) with 16. lra. }
      destruct (gtb cl 100); [lia|]. destruct (gtb cl 50); lia.
    + destruct (gtb (cl / ch) (12 # 10)); [|destruct (gtb (cl / ch) (11 # 10))];
        (destruct (gtb cl 100); [lia|]; destruct (gtb cl 50); lia).
  - cbn [bind]. eexists. split; [reflexivity|]. split; [|discriminate].
    destruct (gtb cl 100); [lia|]. destruct (gtb cl 50); lia.
Qed.

Lemma quad_segments_default (p0 p1 p2 : Point) (adaptive : bool) :
  exists n, quad_segments math_sqrt p0 p1 p2 12 adaptive = Returned n
            /\ (12 <= n <= 32)%Z
            /\ (adaptive = false -> n = 12%Z).
Proof.
  unfold quad_segments.
  destruct adaptive;
    [|exists 12%Z; split; [reflexivity|split; [lia|reflexivity]]].
  set (ch := Point.distance_to math_sqrt p0 p2).
  set (cl := Point.distance_to math_sqrt p0 p1 + Point.distance_to math_sqrt p1 p2).
  change (int (inject_Z 12 * (13 # 10))) with 15%Z.
  destruct (gtb ch (1 # 1000)) eqn:Hch.
  - bool2prop. rewrite div_returned by lra. cbn [bind].
    eexists. split; [reflexivity|]. split; [|discriminate].
    destruct (gtb (cl / ch) (13 # 10)) eqn:R1.
    + bool2prop.
      assert (H : (15 <= int (inject_Z 12 * (cl / ch)))%Z).
      { apply (int_lower 15); [lia|].
        set (r := cl / ch) in *. clearbody r.
        change (inject_Z 15) with 15. change (inject_Z 12) with 12. lra. }
      lia.
    + destruct (gtb (cl / ch) (11 # 10)); lia.
  - exists 12%Z. split; [reflexivity|]. split; [lia|discriminate].
Qed.

End FlattenerCost.

(** X7.  With the default base counts (16 for a cubic, 12 for a
    quadratic curve, the ones every call uses) the flatteners return
    between 17 and 65 points, respectively between 13 and 33, whatever the
    control points are and whatever [math.sqrt] returns; without the
    adaptive sampling they return exactly 17 and 13 points. *)
Theorem flatten_point_count_bounds
    (math_sqrt : Q -> Q) (p0 p1 p2 p3 : Point) (adaptive : bool) :
  (exists points,
      _bezier_to_points math_sqrt p0 p1 p2 p3 16 adaptive = Returned points
      /\ (17 <= List.length points <= 65)%nat
      /\ (adaptive = false -> List.length points = 17%nat))
  /\ (exists points,
         _quad_bezier_to_points math_sqrt p0 p1 p2 12 adaptive = Returned points
         /\ (13 <= List.length points <= 33)%nat
         /\ (adaptive = false -> List.length points = 13%nat)).
Proof.
  split.
  - destruct (bezier_segments_default math_sqrt p0 p1 p2 p3 adaptive)
      as (n & Hn & Hb & Hfix).
    unfold _bezier_to_points. rewrite Hn. cbn [bind].
    rewrite cubic_loop by lia. eexists. split; [reflexivity|].
    pose proof (range_length (n + 1) ltac:(lia)) as Hlen.
    rewrite length_map. split; [lia|]. intro Ha. specialize (Hfix Ha). lia.
  - destruct (quad_segments_default math_sqrt p0 p1 p2 adaptive)
      as (n & Hn & Hb & Hfix).
    unfold _quad_bezier_to_points. rewrite Hn. cbn [bind].
    rewrite quad_loop by lia. eexists. split; [reflexivity|].
    pose proof (range_length (n + 1) ltac:(lia)) as Hlen.
    rewrite length_map. split; [lia|]. intro Ha. specialize (Hfix Ha). lia.
Qed.

(** ** What the drawing extractor may change *)

Lemma extends_refl {A : Type} (l : list A) : extends l l.
Proof. exists []. now rewrite app_nil_r. Qed.

Lemma extends_trans {A : Type} (l1 l2 l3 : list A) :
  extends l1 l2 -> extends l2 l3 -> extends l1 l3.
Proof.
  intros [a ->] [b ->]. exists (a ++ b). now rewrite app_assoc.
Qed.

Lemma extends_app {A : Type} (l a : list A) : extends l (l ++ a).
Proof. now exists a. Qed.

Lemma drawings_frame_refl (d : ExtractedData.t) : drawings_frame d d.
Proof. unfold drawings_frame. repeat split; try reflexivity; apply extends_refl. Qed.

Lemma drawings_frame_trans (d1 d2 d3 : ExtractedData.t) :
  drawings_frame d1 d2 -> drawings_frame d2 d3 -> drawings_frame d1 d3.
Proof.
  unfold drawings_frame.
  intros (A1 & A2 & A3 & A4 & A5 & A6 & A7 & A8 & A9 & A10 & A11 & A12 & A13 & A14)
         (B1 & B2 & B3 & B4 & B5 & B6 & B7 & B8 & B9 & B10 & B11 & B12 & B13 & B14).
  repeat split; try congruence; eapply extends_trans; eassumption.
Qed.

(** X8.  [_extract_drawings] always returns and only appends: the lines,
    rectangles, polylines and hatches it is given are prefixes of those it
    leaves, and arcs, circles, ellipses, splines, texts, multi-line texts,
    images, page size and layers are untouched.  Curves are always
    flattened: extraction itself never stores a Spline. *)
Theorem extract_drawings_frame
    (math_sqrt : Q -> Q) (scale page_height : Q)
    (paths : list Path.t) (data : ExtractedData.t) :
  exists data',
    _extract_drawings math_sqrt scale page_height paths data = Returned data'
    /\ drawings_frame data data'.
Proof.
  destruct (_extract_drawings_total math_sqrt scale page_height paths data) as [data' H].
  exists data'. split; [exact H|].
  revert H. apply _extract_drawings_steps.
  - apply drawings_frame_refl.
  - apply drawings_frame_trans.
  - intros d l. unfold drawings_frame. destruct d. cbn.
    repeat split; try reflexivity; try apply extends_refl; apply extends_app.
  - intros d r. unfold drawings_frame. destruct d. cbn.
    repeat split; try reflexivity; try apply extends_refl; apply extends_app.
  - intros d points closed color width linetype _. unfold drawings_frame. destruct d. cbn.
    repeat split; try reflexivity; try apply extends_refl; apply extends_app.
  - intros d points fc _. unfold drawings_frame. destruct d. cbn.
    repeat split; try reflexivity; try apply extends_refl; apply extends_app.
Qed.

(** X9.  Every hatch [_extract_drawings] adds is a solid fill, not a
    gradient, with exactly one boundary path, of at least three points. *)
Theorem extracted_hatches_solid
    (math_sqrt : Q -> Q) (scale page_height : Q)
    (paths : list Path.t) (data : ExtractedData.t) :
  exists data' added,
    _extract_drawings math_sqrt scale page_height paths data = Returned data'
    /\ ExtractedData.hatches data' = ExtractedData.hatches data ++ added
    /\ Forall solid_hatch added.
Proof.
  destruct (_extract_drawings_total math_sqrt scale page_height paths data) as [data' H].
  exists data'.
  cut (exists added,
          ExtractedData.hatches data' = ExtractedData.hatches data ++ added
          /\ Forall solid_hatch added).
  { intros (added & H1 & H2). exists added. repeat split; assumption. }
  revert H.
  apply (_extract_drawings_steps math_sqrt scale page_height
           (fun d d' =>
              exists added,
                ExtractedData.hatches d' = ExtractedData.hatches d ++ added
                /\ Forall solid_hatch added)).
  - intro d. exists []. split; [now rewrite app_nil_r|constructor].
  - intros d1 d2 d3 (a & Ha & Fa) (b & Hb & Fb). exists (a ++ b). split.
    + rewrite Hb, Ha, app_assoc. reflexivity.
    + apply Forall_app. split; assumption.
  - intros d l. exists []. split; [destruct d; cbn; now rewrite app_nil_r|constructor].
  - intros d r. exists []. split; [destruct d; cbn; now rewrite app_nil_r|constructor].
  - intros d points closed color width linetype _. exists [].
    split; [destruct d; cbn; now rewrite app_nil_r|constructor].
  - intros d points fc Hlen. exists [Hatch.solid [points] fc].
    split; [destruct d; reflexivity|]. constructor; [|constructor].
    unfold solid_hatch. cbn. repeat split. exists points. split; [reflexivity|exact Hlen].
Qed.

(** ** The direction of a polyline and the arc made of it *)











(** ** The entities emitted by the sweeps *)

Lemma Forall_lefts_rights {A B : Type} (P : A -> Prop) (R : B -> Prop) (l : list (A + B)) :
  Forall (fun e => match e with inl a => P a | inr b => R b end) l ->
  Forall P (lefts l) /\ Forall R (rights l).
Proof.
  unfold lefts, rights.
  induction 1 as [|[a|b] r He Hr [IH1 IH2]]; cbn [flat_map app].
  - split; constructor.
  - split; [constructor; assumption|assumption].
  - split; [assumption|constructor; assumption].
Qed.

(** X12.  When [math.atan2] returns values in [-pi, pi], every Circle
    and every Arc appended by [detect_circles_and_arcs] has a radius above
    0.5, and every Arc has both angles in [0, 360], the upper end
    included. *)
Theorem detected_round_entities_valid
    (math_sqrt : Q -> Q) (math_atan2 : Q -> Q -> Q)
    (np_linalg_lstsq : list (list Q) -> list Q -> outcome (list Q))
    (data : ExtractedData.t) (tolerance : Q) :
  (forall y x, - math_pi <= math_atan2 y x <= math_pi) ->
  exists data' new_circles new_arcs,
    detect_circles_and_arcs math_sqrt math_atan2 np_linalg_lstsq data tolerance
    = Returned data'
    /\ ExtractedData.circles data' = ExtractedData.circles data ++ new_circles
    /\ ExtractedData.arcs data' = ExtractedData.arcs data ++ new_arcs
    /\ Forall (fun c => 5 # 10 < Circle.radius c) new_circles
    /\ Forall (fun a =>
                 5 # 10 < Arc.radius a
                 /\ 0 <= Arc.start_angle a <= 360
                 /\ 0 <= Arc.end_angle a <= 360) new_arcs.
Proof.
  intro Hat.
  eexists. eexists. eexists.
  split; [apply detect_circles_and_arcs_closed_form|].
  split; [reflexivity|]. split; [reflexivity|].
  apply Forall_lefts_rights. apply Forall_promoted_entities.
  intros pl e. unfold circle_verdict.
  destruct (List.length (Polyline.points pl) <? 6)%nat eqn:Hlen; [discriminate|].
  apply Nat.ltb_ge in Hlen.
  destruct (fit_circle_result math_sqrt np_linalg_lstsq (Polyline.points pl))
    as [[[center radius] error]|]; [|discriminate].
  destruct (gtb radius (5 # 10) && ltb error (tolerance * radius)) eqn:Hacc;
    [|discriminate].
  apply andb_true_iff in Hacc. destruct Hacc as [Hrad _]. apply gtb_true in Hrad.
  destruct (_is_full_circle math_atan2 (Polyline.points pl) center radius
            && Polyline.closed pl); intro H; injection H as <-.
  - exact Hrad.
  - rewrite arc_of_angles by lia. cbn [Arc.radius Arc.start_angle Arc.end_angle].
    split; [exact Hrad|].
    destruct (gtb (signed_area_loop (Polyline.points pl) center 0) 0);
      split; apply normalized_range; apply math_degrees_range; apply Hat.
Qed.

Lemma detected_round_entities_valid_witness :
  exists data' new_circles new_arcs,
    detect_circles_and_arcs DemoLib.sqrt DemoLib.atan2 DemoLib.lstsq
      (Sample.page [Sample.polyline Sample.circle12 true]) (2 # 100)
    = Returned data'
    /\ ExtractedData.circles data'
       = ExtractedData.circles (Sample.page [Sample.polyline Sample.circle12 true])
         ++ new_circles
    /\ ExtractedData.arcs data'
       = ExtractedData.arcs (Sample.page [Sample.polyline Sample.circle12 true])
         ++ new_arcs
    /\ Forall (fun c => 5 # 10 < Circle.radius c) new_circles
    /\ Forall (fun a =>
                 5 # 10 < Arc.radius a
                 /\ 0 <= Arc.start_angle a <= 360
                 /\ 0 <= Arc.end_angle a <= 360) new_arcs.
Proof.
  apply (detected_round_entities_valid DemoLib.sqrt DemoLib.atan2 DemoLib.lstsq
           (Sample.page [Sample.polyline Sample.circle12 true]) (2 # 100)).
  exact demo_atan2_range.
Defined.

Lemma normalized_param_range (a : Q) :
  - math_pi <= a <= math_pi ->
  0 <= (if ltb a 0 then a + 2 * math_pi else a) <= 2 * math_pi.
Proof.
  intros [Hlo Hhi]. unfold math_pi in *.
  destruct (ltb a 0) eqn:E; bool2prop; split; lra.
Qed.

Lemma _calculate_ellipse_params_range
    (math_atan2 : Q -> Q -> Q) (math_cos math_sin : Q -> Q)
    (center major_axis minor_axis : Q * Q) (rotation : Q) (start end_ : Point) :
  (forall y x, - math_pi <= math_atan2 y x <= math_pi) ->
  0 <= fst (_calculate_ellipse_params math_atan2 math_cos math_sin center major_axis
              minor_axis rotation start end_) <= 2 * math_pi
  /\ 0 <= snd (_calculate_ellipse_params math_atan2 math_cos math_sin center major_axis
                 minor_axis rotation start end_) <= 2 * math_pi.
Proof.
  intro Hat. unfold _calculate_ellipse_params. cbn [fst snd].
  split; apply normalized_param_range; apply Hat.
Qed.

Lemma ellipse_of_params
    (math_sqrt : Q -> Q) (math_atan2 : Q -> Q -> Q) (math_cos math_sin : Q -> Q)
    (pl : Polyline.t) (center major_axis minor_axis : Q * Q) (rotation ratio : Q) :
  (forall y x, - math_pi <= math_atan2 y x <= math_pi) ->
  let e := ellipse_of math_sqrt math_atan2 math_cos math_sin pl center major_axis
                      minor_axis rotation ratio in
  0 <= Ellipse.start_param e <= 2 * math_pi
  /\ 0 <= Ellipse.end_param e <= 2 * math_pi.
Proof.
  intro Hat. cbv zeta. unfold ellipse_of.
  destruct (_is_full_ellipse math_sqrt math_atan2 math_cos math_sin
              (Polyline.points pl) center major_axis minor_axis
            && Polyline.closed pl).
  - cbn [Ellipse.start_param Ellipse.end_param]. unfold math_pi. split; split; lra.
  - pose proof (_calculate_ellipse_params_range math_atan2 math_cos math_sin center
                  major_axis minor_axis rotation
                  (hd (Point.mk 0 0) (Polyline.points pl))
                  (last (Polyline.points pl) (Point.mk 0 0)) Hat) as [Hs He].
    destruct (_calculate_ellipse_params math_atan2 math_cos math_sin center major_axis
                minor_axis rotation (hd (Point.mk 0 0) (Polyline.points pl))
                (last (Polyline.points pl) (Point.mk 0 0))) as [sp ep].
    cbn [fst snd] in Hs, He. cbn [Ellipse.start_param Ellipse.end_param].
    split; [exact Hs|]. split; lra.
Qed.

(** X13.  When [math.atan2] returns values in [-pi, pi], every Ellipse
    appended by [detect_ellipses] has its start and end parameters in
    [0, 2 pi], the upper end included (the end parameter of a full ellipse
    is 2 pi). *)
Theorem ellipse_params_in_range
    (math_sqrt : Q -> Q) (math_atan2 : Q -> Q -> Q) (math_cos math_sin : Q -> Q)
    (np_linalg_inv : Matrix -> outcome Matrix)
    (np_linalg_eig : Matrix -> outcome (list Complex * list (list Complex)))
    (data : ExtractedData.t) (tolerance : Q) :
  (forall y x, - math_pi <= math_atan2 y x <= math_pi) ->
  exists data' entities,
    detect_ellipses math_sqrt math_atan2 math_cos math_sin np_linalg_inv
                    np_linalg_eig data tolerance = Returned data'
    /\ ExtractedData.ellipses data' = ExtractedData.ellipses data ++ entities
    /\ Forall (fun e =>
                 0 <= Ellipse.start_param e <= 2 * math_pi
                 /\ 0 <= Ellipse.end_param e <= 2 * math_pi) entities.
Proof.
  intro Hat.
  eexists. eexists. split; [apply detect_ellipses_closed_form|].
  split; [reflexivity|].
  apply Forall_promoted_entities. intros pl e. unfold ellipse_verdict.
  destruct (List.length (Polyline.points pl) <? 8)%nat; [discriminate|].
  destruct (fit_ellipse_result math_sqrt math_atan2 math_cos math_sin
                               np_linalg_inv np_linalg_eig (Polyline.points pl))
    as [[[[[center major_axis] minor_axis] rotation] error]|]; [|discriminate].
  cbv zeta.
  destruct (gtb (math_sqrt (fst major_axis ^ 2 + snd major_axis ^ 2)) (5 # 10)
            && ext_ltb error
                 (tolerance * math_sqrt (fst major_axis ^ 2 + snd major_axis ^ 2)));
    [|discriminate].
  set (ratio := math_sqrt (fst minor_axis ^ 2 + snd minor_axis ^ 2)
                / math_sqrt (fst major_axis ^ 2 + snd major_axis ^ 2)).
  destruct (gtb ratio float_0_95); [discriminate|].
  intro H. injection H as <-.
  exact (ellipse_of_params math_sqrt math_atan2 math_cos math_sin pl center major_axis
           minor_axis rotation ratio Hat).
Qed.

Lemma ellipse_params_in_range_witness :
  exists data' entities,
    detect_ellipses DemoLib.sqrt DemoLib.atan2 DemoLib.cos DemoLib.sin DemoLib.inv
      (DemoLib.eig_check Sample.flat9_eigenvectors)
      (Sample.page [Sample.polyline Sample.flat9 false]) (5 # 100)
    = Returned data'
    /\ ExtractedData.ellipses data'
       = ExtractedData.ellipses (Sample.page [Sample.polyline Sample.flat9 false])
         ++ entities
    /\ Forall (fun e =>
                 0 <= Ellipse.start_param e <= 2 * math_pi
                 /\ 0 <= Ellipse.end_param e <= 2 * math_pi) entities.
Proof.
  apply (ellipse_params_in_range DemoLib.sqrt DemoLib.atan2 DemoLib.cos DemoLib.sin
           DemoLib.inv (DemoLib.eig_check Sample.flat9_eigenvectors)
           (Sample.page [Sample.polyline Sample.flat9 false]) (5 # 100)).
  exact demo_atan2_range.
Defined.

(** ** Text extraction *)

Lemma span_width_factor_range (text : string) (bbox : Q * Q * Q * Q) (font_size : Q) :
  5 # 10 <= span_width_factor text bbox font_size <= 2.
Proof.
  unfold span_width_factor. destruct bbox as [[[b0 b1] b2] b3].
  destruct ((0 <? String.length text)%nat && gtb font_size 0); [|split; lra].
  cbv zeta.
  destruct (gtb (inject_Z (Z.of_nat (String.length text)) * font_size * (5 # 10)) 0);
    [|split; lra].
  set (v := (b2 - b0) / _). clearbody v.
  unfold Py.min, Py.max.
  destruct (gtb v (5 # 10)) eqn:E1; bool2prop.
  - destruct (ltb v 2) eqn:E2; bool2prop; split; lra.
  - destruct (ltb (5 # 10) 2) eqn:E2; bool2prop; split; lra.
Qed.

Lemma span_halign_values (origin : Q * Q) (bbox : Q * Q * Q * Q) (font_size : Q) :
  In (span_halign origin bbox font_size) ["LEFT"; "CENTER"; "RIGHT"]%string.
Proof.
  unfold span_halign. destruct bbox as [[[b0 b1] b2] b3]. cbv zeta.
  repeat match goal with
         | |- context [if ?b then _ else _] => destruct b
         end; cbn; auto.
Qed.

Section TextFacts.

Variable math_atan2 : Q -> Q -> Q.
Variable scale : Q.
Variable page_height : Q.

(** The effect of the span loop on the container and on [rotation]. *)
Lemma span_loop (spans : list Span.t) :
  forall (rotation : Q) (data : ExtractedData.t),
  exists rotation' added,
    fold_left (process_span scale page_height) spans (rotation, data)
    = (rotation', ExtractedData.set_texts data (ExtractedData.texts data ++ added))
    /\ map text_content added
       = map (span_content scale page_height)
             (filter (fun span => negb (String.eqb (Span.text span) "")) spans)
    /\ (-180 <= rotation <= 360 ->
        -180 <= rotation' <= 360 /\ Forall text_entity_well_formed added).
Proof.
  induction spans as [|span r IH]; intros rotation data; cbn [fold_left filter].
  - exists rotation, []. split; [|split].
    + rewrite app_nil_r. destruct data; reflexivity.
    + reflexivity.
    + intro H. split; [exact H|constructor].
  - unfold process_span at 2.
    destruct (String.eqb (Span.text span) "") eqn:E; cbn [negb].
    + destruct (IH rotation data) as (r' & added & H & Hc & Hw).
      exists r', added. split; [exact H|]. split; assumption.
    + cbv zeta.
      set (rot := if ltb rotation 0 then rotation + 360 else rotation).
      set (e := TextEntity.mk _ _ _ rot _ _ _ _ _ _ _).
      destruct (IH rot (ExtractedData.set_texts data (ExtractedData.texts data ++ [e])))
        as (r' & added & H & Hc & Hw).
      exists r', (e :: added). split; [|split].
      * rewrite H. destruct data; cbn. rewrite <- app_assoc. reflexivity.
      * cbn [map]. rewrite Hc. reflexivity.
      * intro Hr.
        assert (Hrot : 0 <= rot <= 360).
        { unfold rot. destruct (ltb rotation 0) eqn:E0; bool2prop; split; lra. }
        destruct Hw as [Hr' Hadded]; [split; lra|].
        split; [exact Hr'|]. constructor; [|exact Hadded].
        unfold text_entity_well_formed, e. cbn.
        split; [apply String.eqb_neq; exact E|].
        split; [exact Hrot|].
        split; [apply span_width_factor_range|].
        split; [destruct (Z.land (Span.flags span) 2 =? 0)%Z; cbn; auto|].
        split; [apply span_halign_values|]. split; reflexivity.
Qed.


Lemma set_texts_twice (data : ExtractedData.t) (a b : list TextEntity.t) :
  ExtractedData.set_texts
    (ExtractedData.set_texts data (ExtractedData.texts data ++ a))
    (ExtractedData.texts
       (ExtractedData.set_texts data (ExtractedData.texts data ++ a)) ++ b)
  = ExtractedData.set_texts data (ExtractedData.texts data ++ (a ++ b)).
Proof.
  destruct data. cbn. rewrite app_assoc. reflexivity.
Qed.

Lemma set_texts_nil (data : ExtractedData.t) :
  data = ExtractedData.set_texts data (ExtractedData.texts data ++ []).
Proof.
  destruct data. cbn. rewrite app_nil_r. reflexivity.
Qed.

Lemma line_loop (lines : list TextLine.t) :
  forall data : ExtractedData.t,
  exists added,
    fold_left (process_text_line math_atan2 scale page_height) lines data
    = ExtractedData.set_texts data (ExtractedData.texts data ++ added)
    /\ map text_content added
       = map (span_content scale page_height)
             (filter (fun span => negb (String.eqb (Span.text span) ""))
                     (flat_map TextLine.spans lines))
    /\ ((forall y x, - math_pi <= math_atan2 y x <= math_pi) ->
        Forall text_entity_well_formed added).
Proof.
  induction lines as [|line r IH]; intro data; cbn [fold_left flat_map filter].
  - exists []. split; [apply set_texts_nil|]. split; [reflexivity|constructor].
  - unfold process_text_line at 2. cbv zeta.
    destruct (span_loop (TextLine.spans line)
                (math_degrees (math_atan2 (snd (TextLine.dir line))
                                          (fst (TextLine.dir line)))) data)
      as (r' & a & H & Hc & Hw).
    rewrite H. cbn [snd].
    destruct (IH (ExtractedData.set_texts data (ExtractedData.texts data ++ a)))
      as (b & H' & Hc' & Hw').
    exists (a ++ b). split; [|split].
    + rewrite H'. apply set_texts_twice.
    + rewrite filter_app, !map_app, Hc, Hc'. reflexivity.
    + intro Hat. apply Forall_app. split; [|exact (Hw' Hat)].
      apply Hw. pose proof (math_degrees_range _ (Hat (snd (TextLine.dir line))
                                                       (fst (TextLine.dir line)))).
      split; lra.
Qed.

Lemma block_loop (blocks : list Block.t) :
  forall data : ExtractedData.t,
  exists added,
    _extract_text math_atan2 scale page_height blocks data
    = ExtractedData.set_texts data (ExtractedData.texts data ++ added)
    /\ map text_content added
       = map (span_content scale page_height) (text_spans blocks)
    /\ ((forall y x, - math_pi <= math_atan2 y x <= math_pi) ->
        Forall text_entity_well_formed added).
Proof.
  unfold _extract_text, text_spans.
  induction blocks as [|block r IH]; intro data; cbn [fold_left flat_map].
  - exists []. split; [apply set_texts_nil|]. split; [reflexivity|constructor].
  - destruct (Block.type block =? 0)%Z.
    + destruct (line_loop (Block.lines block) data) as (a & H & Hc & Hw).
      rewrite H.
      destruct (IH (ExtractedData.set_texts data (ExtractedData.texts data ++ a)))
        as (b & H' & Hc' & Hw').
      exists (a ++ b). split; [|split].
      * rewrite H'. apply set_texts_twice.
      * rewrite filter_app, !map_app, Hc, Hc'. reflexivity.
      * intro Hat. apply Forall_app. split; [exact (Hw Hat)|exact (Hw' Hat)].
    + cbn [app]. apply IH.
Qed.

End TextFacts.

(** X15.  [_extract_text] changes nothing but the texts, to which it
    appends one entity for each non-empty span of the text blocks
    (type 0), in reading order: the entity has the text of the span, its
    origin scaled and flipped like every other point, its size scaled, its
    font and its colour. *)
Theorem extracted_text_per_span
    (math_atan2 : Q -> Q -> Q) (scale page_height : Q)
    (blocks : list Block.t) (data : ExtractedData.t) :
  exists added,
    _extract_text math_atan2 scale page_height blocks data
    = ExtractedData.set_texts data (ExtractedData.texts data ++ added)
    /\ map text_content added = map (span_content scale page_height) (text_spans blocks)
    /\ List.length added = List.length (text_spans blocks).
Proof.
  destruct (block_loop math_atan2 scale page_height blocks data) as (added & H & Hc & _).
  exists added. split; [exact H|]. split; [exact Hc|].
  rewrite <- (length_map text_content), Hc, length_map. reflexivity.
Qed.

(** X16.  When [math.atan2] returns values in [-pi, pi], every text
    entity [_extract_text] appends has a non-empty text, a rotation in
    [0, 360] (the upper end included), a width factor in [0.5, 2], an
    oblique angle of 0 or 12, alignment LEFT, CENTER or RIGHT on the
    BASELINE, and layer "0". *)
Theorem extracted_text_well_formed
    (math_atan2 : Q -> Q -> Q) (scale page_height : Q)
    (blocks : list Block.t) (data : ExtractedData.t) :
  (forall y x, - math_pi <= math_atan2 y x <= math_pi) ->
  exists added,
    _extract_text math_atan2 scale page_height blocks data
    = ExtractedData.set_texts data (ExtractedData.texts data ++ added)
    /\ Forall text_entity_well_formed added.
Proof.
  intro Hat.
  destruct (block_loop math_atan2 scale page_height blocks data) as (added & H & _ & Hw).
  exists added. split; [exact H|]. exact (Hw Hat).
Qed.

Lemma extracted_text_well_formed_witness :
  exists added,
    _extract_text DemoLib.atan2 2 100 SamplePages.text_blocks (ExtractedData.empty 200 200)
    = ExtractedData.set_texts (ExtractedData.empty 200 200)
        (ExtractedData.texts (ExtractedData.empty 200 200) ++ added)
    /\ Forall text_entity_well_formed added.
Proof.
  apply (extracted_text_well_formed DemoLib.atan2 2 100 SamplePages.text_blocks
           (ExtractedData.empty 200 200)).
  exact demo_atan2_range.
Defined.


(** ** True colours *)

Lemma testbit_255 (n : Z) : (0 <= n)%Z -> Z.testbit 255 n = (n <? 8)%Z.
Proof.
  intro Hn. change 255%Z with (Z.ones 8).
  destruct (n <? 8)%Z eqn:E.
  - apply Z.ltb_lt in E. apply Z.ones_spec_low. lia.
  - apply Z.ltb_ge in E. apply Z.ones_spec_high. lia.
Qed.

Lemma testbit_24 (n : Z) : (0 <= n)%Z -> Z.testbit 16777215 n = (n <? 24)%Z.
Proof.
  intro Hn. change 16777215%Z with (Z.ones 24).
  destruct (n <? 24)%Z eqn:E.
  - apply Z.ltb_lt in E. apply Z.ones_spec_low. lia.
  - apply Z.ltb_ge in E. apply Z.ones_spec_high. lia.
Qed.

Ltac zltb :=
  repeat match goal with
         | |- context [(?a <? ?b)%Z] =>
             first [ replace (a <? b)%Z with true by (symmetry; apply Z.ltb_lt; lia)
                   | replace (a <? b)%Z with false by (symmetry; apply Z.ltb_ge; lia) ]
         end.

Lemma channels_pack (c : Z) :
  Z.lor (Z.lor (Z.shiftl (Z.land (Z.shiftr c 16) 255) 16)
               (Z.shiftl (Z.land (Z.shiftr c 8) 255) 8))
        (Z.land c 255)
  = Z.land c 16777215.
Proof.
  apply Z.bits_inj'. intros n Hn.
  rewrite !Z.lor_spec, !Z.land_spec, testbit_24, testbit_255 by exact Hn.
  rewrite !Z.shiftl_spec by exact Hn.
  destruct (Z_lt_le_dec n 8) as [H8|H8].
  - rewrite (Z.testbit_neg_r _ (n - 16)), (Z.testbit_neg_r _ (n - 8)) by lia.
    zltb. reflexivity.
  - destruct (Z_lt_le_dec n 16) as [H16|H16].
    + rewrite (Z.testbit_neg_r _ (n - 16)) by lia.
      rewrite Z.land_spec, Z.shiftr_spec, testbit_255 by lia.
      replace (n - 8 + 8)%Z with n by lia.
      zltb. rewrite !andb_true_r, andb_false_r, orb_false_r. reflexivity.
    + rewrite !Z.land_spec, !Z.shiftr_spec, !testbit_255 by lia.
      replace (n - 16 + 16)%Z with n by lia.
      replace (n - 8 + 8)%Z with n by lia.
      destruct (Z_lt_le_dec n 24); zltb;
        rewrite ?andb_false_r, ?andb_true_r, ?orb_false_r; reflexivity.
Qed.

Lemma land_255_range (z : Z) : (0 <= Z.land z 255 <= 255)%Z.
Proof.
  change 255%Z with (Z.ones 8) at 1 2. rewrite !Z.land_ones by lia.
  change (2 ^ 8)%Z with 256%Z. pose proof (Z.mod_pos_bound z 256). lia.
Qed.

Lemma channel_byte_range (c : Q) : (0 <= DXFWriter.channel_byte c <= 255)%Z.
Proof.
  unfold DXFWriter.channel_byte.
  set (v := Py.min 255 (Py.max 0 (c * 255))).
  assert (Hv : 0 <= v <= 255).
  { unfold v, Py.min, Py.max.
    destruct (gtb (c * 255) 0) eqn:E1; bool2prop.
    - destruct (ltb (c * 255) 255) eqn:E2; bool2prop; split; lra.
    - destruct (ltb 0 255) eqn:E2; bool2prop; split; lra. }
  rewrite int_nonneg by exact (proj1 Hv).
  split.
  - change 0%Z with (Qfloor 0). apply Qfloor_resp_le. exact (proj1 Hv).
  - change 255%Z with (Qfloor 255). apply Qfloor_resp_le. exact (proj2 Hv).
Qed.

Lemma channel_byte_exact (k : Z) :
  (0 <= k <= 255)%Z -> DXFWriter.channel_byte (inject_Z k / 255) = k.
Proof.
  intro Hk. unfold DXFWriter.channel_byte.
  assert (Hq : inject_Z k / 255 * 255 == inject_Z k) by (field).
  assert (H0 : 0 <= inject_Z k) by (change 0 with (inject_Z 0); rewrite <- Zle_Qle; lia).
  assert (H1 : inject_Z k <= 255)
    by (change 255 with (inject_Z 255); rewrite <- Zle_Qle; lia).
  set (x := inject_Z k / 255 * 255) in *.
  assert (Hv : Py.min 255 (Py.max 0 x) == inject_Z k).
  { unfold Py.min, Py.max.
    destruct (gtb x 0) eqn:E1; bool2prop.
    - destruct (ltb x 255) eqn:E2; bool2prop; lra.
    - destruct (ltb 0 255) eqn:E2; bool2prop; lra. }
  rewrite int_nonneg by lra.
  rewrite (Qfloor_comp _ _ Hv). apply Qfloor_Z.
Qed.

Lemma lor_disjoint (x y : Z) : Z.land x y = 0%Z -> Z.lor x y = (x + y)%Z.
Proof.
  intro H. pose proof (Z.add_lor_land x y) as E. rewrite H in E. lia.
Qed.

Lemma packed_range (r g b : Z) :
  (0 <= r <= 255)%Z -> (0 <= g <= 255)%Z -> (0 <= b <= 255)%Z ->
  (0 <= Z.lor (Z.lor (Z.shiftl r 16) (Z.shiftl g 8)) b < 2 ^ 24)%Z
  /\ Z.land (Z.shiftr (Z.lor (Z.lor (Z.shiftl r 16) (Z.shiftl g 8)) b) 16) 255 = r
  /\ Z.land (Z.shiftr (Z.lor (Z.lor (Z.shiftl r 16) (Z.shiftl g 8)) b) 8) 255 = g
  /\ Z.land (Z.lor (Z.lor (Z.shiftl r 16) (Z.shiftl g 8)) b) 255 = b.
Proof.
  intros Hr Hg Hb.
  assert (E : Z.lor (Z.lor (Z.shiftl r 16) (Z.shiftl g 8)) b
              = (r * 65536 + g * 256 + b)%Z).
  { rewrite !Z.shiftl_mul_pow2 by lia.
    change (2 ^ 16)%Z with 65536%Z. change (2 ^ 8)%Z with 256%Z.
    rewrite (lor_disjoint (r * 65536) (g * 256)).
    - apply lor_disjoint.
      apply Z.bits_inj'. intros n Hn. rewrite Z.land_spec, Z.bits_0.
      destruct (Z_lt_le_dec n 8).
      + replace (r * 65536 + g * 256)%Z with ((r * 256 + g) * 2 ^ 8)%Z by lia.
        rewrite Z.mul_pow2_bits_low by lia. reflexivity.
      + rewrite (Z.bits_above_log2 b n); [apply andb_false_r|lia|].
        destruct (Z.eq_dec b 0) as [->|]; [cbn; lia|].
        apply Z.log2_lt_pow2; [lia|].
        apply Z.lt_le_trans with (2 ^ 8)%Z; [lia|]. apply Z.pow_le_mono_r; lia.
    - apply Z.bits_inj'. intros n Hn. rewrite Z.land_spec, Z.bits_0.
      destruct (Z_lt_le_dec n 16).
      + replace (r * 65536)%Z with (r * 2 ^ 16)%Z by lia.
        rewrite Z.mul_pow2_bits_low by lia. reflexivity.
      + rewrite (Z.bits_above_log2 (g * 256) n); [apply andb_false_r|lia|].
        destruct (Z.eq_dec g 0) as [->|]; [cbn; lia|].
        apply Z.log2_lt_pow2; [lia|].
        apply Z.lt_le_trans with (2 ^ 16)%Z; [lia|]. apply Z.pow_le_mono_r; lia. }
  rewrite E. change (2 ^ 24)%Z with 16777216%Z.
  change 255%Z with (Z.ones 8).
  rewrite !Z.land_ones, !Z.shiftr_div_pow2 by lia.
  change (2 ^ 16)%Z with 65536%Z. change (2 ^ 8)%Z with 256%Z.
  split; [lia|].
  split; [|split].
  - replace ((r * 65536 + g * 256 + b) / 65536)%Z with r
      by (apply Z.div_unique with (g * 256 + b)%Z; lia).
    apply Z.mod_small. lia.
  - replace ((r * 65536 + g * 256 + b) / 256)%Z with (r * 256 + g)%Z
      by (apply Z.div_unique with b; lia).
    rewrite Z.add_comm, Z.mod_add by lia. apply Z.mod_small. lia.
  - replace (r * 65536 + g * 256 + b)%Z with (b + (r * 256 + g) * 256)%Z by lia.
    rewrite Z.mod_add by lia. apply Z.mod_small. lia.
Qed.

(** X17.  [_rgb_to_true_color] clamps: for any colour, in range or not,
    each channel byte is in 0..255, the result is a 24-bit value, and the
    bytes can be read back from it (red in bits 16..23, green in 8..15,
    blue in 0..7). *)
Theorem true_color_is_24_bit (r g b : Q) :
  let v := DXFWriter._rgb_to_true_color (r, g, b) in
  (0 <= v < 2 ^ 24)%Z
  /\ Z.land (Z.shiftr v 16) 255 = DXFWriter.channel_byte r
  /\ Z.land (Z.shiftr v 8) 255 = DXFWriter.channel_byte g
  /\ Z.land v 255 = DXFWriter.channel_byte b
  /\ (0 <= DXFWriter.channel_byte r <= 255)%Z
  /\ (0 <= DXFWriter.channel_byte g <= 255)%Z
  /\ (0 <= DXFWriter.channel_byte b <= 255)%Z.
Proof.
  cbv zeta. unfold DXFWriter._rgb_to_true_color.
  pose proof (channel_byte_range r) as Hr.
  pose proof (channel_byte_range g) as Hg.
  pose proof (channel_byte_range b) as Hb.
  destruct (packed_range _ _ _ Hr Hg Hb) as (H1 & H2 & H3 & H4).
  repeat split; try assumption; lia.
Qed.

(** X18.  The colour of a text span survives the trip through the
    extractor and the writer: decoding the integer colour of a span to RGB
    ([_extract_text]) and encoding it as a true colour
    ([_rgb_to_true_color]) gives back the low 24 bits of the integer. *)
Theorem span_color_round_trip (c : Z) :
  DXFWriter._rgb_to_true_color (span_color (SpanColor_int c)) = Z.land c 16777215.
Proof.
  unfold DXFWriter._rgb_to_true_color, span_color.
  rewrite !channel_byte_exact by apply land_255_range.
  apply channels_pack.
Qed.

(** ** Colour indices *)

Lemma within_tolerance (a b tol : Q) :
  ltb (Qabs (a - b)) tol = true -> b - tol < a < b + tol.
Proof.
  intro H. apply ltb_true in H. apply Qabs_Qlt_condition in H. split; lra.
Qed.

Lemma _colors_match_spec (r g b r' g' b' tol : Q) :
  DXFWriter._colors_match (r, g, b) (r', g', b') tol = true ->
  (r' - tol < r < r' + tol) /\ (g' - tol < g < g' + tol) /\ (b' - tol < b < b' + tol).
Proof.
  unfold DXFWriter._colors_match. intro H.
  apply andb_true_iff in H. destruct H as [H Hb].
  apply andb_true_iff in H. destruct H as [Hr Hg].
  repeat split; try (apply (within_tolerance _ _ _ Hr));
    try (apply (within_tolerance _ _ _ Hg)); try (apply (within_tolerance _ _ _ Hb)).
Qed.

(** X19.  [_rgb_to_aci] returns, for every colour, an index in 1..8 or in
    250..253: never 0 (BYBLOCK), never 256 (BYLAYER), never out of the
    range of the AutoCAD colour index. *)
Theorem aci_is_valid_index (color : Color) :
  (1 <= DXFWriter._rgb_to_aci color <= 8)%Z
  \/ (250 <= DXFWriter._rgb_to_aci color <= 253)%Z.
Proof.
  unfold DXFWriter._rgb_to_aci, DXFWriter.COLOR_MAP. cbn [find].
  repeat match goal with
         | |- context [if DXFWriter._colors_match ?c ?k ?t then _ else _] =>
             destruct (DXFWriter._colors_match c k t); [lia|]
         end.
  destruct color as [[r g] b].
  repeat match goal with
         | |- context [if ?c then _ else _] => destruct c; [lia|]
         end.
  cbv zeta.
  repeat match goal with
         | |- context [if ?c then _ else _] => destruct c; [lia|]
         end.
  lia.
Qed.

Ltac wrong_entry :=
  match goal with
  | H : DXFWriter._colors_match _ _ _ = true |- _ =>
      apply _colors_match_spec in H; exfalso; lra
  end.

(** X20.  A colour within 0.1, on each channel, of a key of [COLOR_MAP]
    gets the index of that key: no colour matches two keys with different
    indices, so the result does not depend on the order of the
    dictionary. *)
Theorem color_map_lookup_unambiguous (color rgb : Color) (aci : Z) :
  In (rgb, aci) DXFWriter.COLOR_MAP ->
  DXFWriter._colors_match color rgb (1 # 10) = true ->
  DXFWriter._rgb_to_aci color = aci.
Proof.
  intros Hin Hm. destruct color as [[r g] b].
  unfold DXFWriter.COLOR_MAP in Hin. cbn [In] in Hin.
  unfold DXFWriter._rgb_to_aci, DXFWriter.COLOR_MAP. cbn [find].
  repeat destruct Hin as [Hin|Hin]; try contradiction;
    injection Hin as <- <-;
    pose proof (_colors_match_spec _ _ _ _ _ _ _ Hm) as (Ir & Ig & Ib);
    repeat match goal with
           | |- context [if DXFWriter._colors_match ?c ?k ?t then _ else _] =>
               let E := fresh "E" in
               destruct (DXFWriter._colors_match c k t) eqn:E;
               [first [reflexivity | wrong_entry]|]
           end;
    congruence.
Qed.

Lemma color_map_lookup_unambiguous_witness :
  DXFWriter._rgb_to_aci (95 # 100, 5 # 100, 2 # 100) = 1%Z.
Proof.
  apply (color_map_lookup_unambiguous (95 # 100, 5 # 100, 2 # 100) (1, 0, 0) 1%Z).
  - cbn. left. reflexivity.
  - vm_compute. reflexivity.
Defined.

(** ** Line weights *)

Lemma min_key_fold (key : Z -> Z) (r : list Z) (a : Z) :
  let m := fold_left (fun best x => if (key x <? key best)%Z then x else best) r a in
  exists pre post,
    a :: r = pre ++ m :: post
    /\ (forall x, In x pre -> (key m < key x)%Z)
    /\ (forall x, In x post -> (key m <= key x)%Z).
Proof.
  cbv zeta. induction r as [|x r IH] using rev_ind.
  - exists [], []. cbn. repeat split; intros x [].
  - rewrite fold_left_app. cbn [fold_left].
    destruct IH as (pre & post & Hsplit & Hpre & Hpost).
    set (m := fold_left _ r a) in *.
    destruct (key x <? key m)%Z eqn:E.
    + apply Z.ltb_lt in E. exists (a :: r), []. split; [|split].
      * rewrite app_comm_cons. reflexivity.
      * intros y Hy. rewrite Hsplit in Hy. apply in_app_iff in Hy.
        destruct Hy as [Hy|[<-|Hy]].
        -- specialize (Hpre y Hy). lia.
        -- exact E.
        -- specialize (Hpost y Hy). lia.
      * intros y [].
    + apply Z.ltb_ge in E. exists pre, (post ++ [x]). split; [|split].
      * rewrite app_comm_cons, Hsplit, <- app_assoc. reflexivity.
      * exact Hpre.
      * intros y Hy. apply in_app_iff in Hy. destruct Hy as [Hy|[<-|[]]].
        -- apply Hpost; exact Hy.
        -- exact E.
Qed.

Lemma increasing_split (pre post : list Z) (m : Z) :
  increasing (pre ++ m :: post) -> forall x, In x post -> (m < x)%Z.
Proof.
  induction pre as [|a pre IH]; cbn [app increasing].
  - intros [H _] x Hx. apply H; exact Hx.
  - intros [_ H]. apply IH; exact H.
Qed.

Lemma standard_weights_increasing : increasing DXFWriter.standard_weights.
Proof.
  unfold DXFWriter.standard_weights. cbn [increasing].
  repeat split; intros b Hb; cbn [In] in Hb; lia.
Qed.

(** X21.  [_mm_to_lineweight] returns a standard line weight that is
    nearest to [int(width * 100)]; of two equally near it returns the
    lighter; a target of at most 2 gives 0 and a target of 211 or more
    gives 211. *)
Theorem lineweight_is_nearest_standard (width : Q) :
  let target := int (width * 100) in
  let w := DXFWriter._mm_to_lineweight width in
  In w DXFWriter.standard_weights
  /\ (forall x, In x DXFWriter.standard_weights ->
        (Z.abs (w - target) <= Z.abs (x - target))%Z
        /\ (Z.abs (x - target) = Z.abs (w - target) -> (w <= x)%Z))
  /\ ((target <= 2)%Z -> w = 0%Z)
  /\ ((211 <= target)%Z -> w = 211%Z).
Proof.
  cbv zeta.
  set (target := int (width * 100)).
  set (key := fun x => Z.abs (x - target)).
  set (w := DXFWriter._mm_to_lineweight width).
  assert (Hw : w = fold_left (fun best x => if (key x <? key best)%Z then x else best)
                             (tl DXFWriter.standard_weights) 0%Z) by reflexivity.
  destruct (min_key_fold key (tl DXFWriter.standard_weights) 0%Z)
    as (pre & post & Hsplit & Hpre & Hpost).
  rewrite <- Hw in Hsplit, Hpre, Hpost. clear Hw.
  change (0%Z :: tl DXFWriter.standard_weights) with DXFWriter.standard_weights in Hsplit.
  assert (Hin : In w DXFWriter.standard_weights).
  { rewrite Hsplit. apply in_app_iff. right. left. reflexivity. }
  assert (Hnear : forall x, In x DXFWriter.standard_weights ->
                    (Z.abs (w - target) <= Z.abs (x - target))%Z
                    /\ (Z.abs (x - target) = Z.abs (w - target) -> (w <= x)%Z)).
  { intros x Hx. rewrite Hsplit in Hx. apply in_app_iff in Hx.
    destruct Hx as [Hx|[<-|Hx]].
    - specialize (Hpre x Hx). unfold key in Hpre. split; lia.
    - split; lia.
    - specialize (Hpost x Hx). unfold key in Hpost. split; [exact Hpost|].
      intros _. pose proof standard_weights_increasing as Hinc.
      rewrite Hsplit in Hinc. pose proof (increasing_split _ _ _ Hinc x Hx). lia. }
  clearbody w target.
  split; [exact Hin|]. split; [exact Hnear|]. split.
  - intro Ht. destruct (Hnear 0%Z) as [H0 _]; [cbn; auto|].
    unfold DXFWriter.standard_weights in Hin. cbn [In] in Hin. lia.
  - intro Ht. destruct (Hnear 211%Z) as [H0 _]; [cbn; tauto|].
    unfold DXFWriter.standard_weights in Hin. cbn [In] in Hin. lia.
Qed.

Lemma lineweight_is_nearest_standard_witness :
  DXFWriter._mm_to_lineweight (1 # 100) = 0%Z
  /\ DXFWriter._mm_to_lineweight 3 = 211%Z.
Proof.
  split.
  - apply (proj1 (proj2 (proj2 (lineweight_is_nearest_standard (1 # 100))))).
    vm_compute. discriminate.
  - apply (proj2 (proj2 (proj2 (lineweight_is_nearest_standard 3)))).
    vm_compute. discriminate.
Defined.

(** ** Writer set-up, layers and line types *)

Lemma version_lookup (version : string) :
  let v := dict_get String.eqb DXFWriter.VERSION_MAP version "R2010"%string in
  (In version (map fst DXFWriter.VERSION_MAP) -> v = version)
  /\ (~ In version (map fst DXFWriter.VERSION_MAP) -> v = "R2010"%string).
Proof.
  cbv zeta. unfold DXFWriter.VERSION_MAP. cbn [dict_get map fst In].
  repeat match goal with
         | |- context [if String.eqb ?k version then _ else _] =>
             let E := fresh "E" in
             destruct (String.eqb k version) eqn:E;
             [apply String.eqb_eq in E; subst version;
              split; [reflexivity|intro H; exfalso; apply H; tauto]
             |apply String.eqb_neq in E]
         end.
  (split; [|reflexivity]; intro H; exfalso; intuition congruence).
Qed.

(** X22.  The version of a writer is always one of the seven known
    versions, R2010 when the requested one is unknown.  A writer for R12 or
    R2000 gives every entity an indexed colour, whatever [use_true_color]
    was asked; any other writer follows the flag. *)
Theorem writer_color_mode (version : string) (use_true_color : bool) (color : Color) :
  let writer := DXFWriter.__init__ version use_true_color in
  In (DXFWriter.version writer) (map fst DXFWriter.VERSION_MAP)
  /\ (~ In version (map fst DXFWriter.VERSION_MAP) ->
      DXFWriter.version writer = "R2010"%string)
  /\ (In version ["R12"; "R2000"]%string ->
      DXFWriter._get_color_attribs writer color
      = ("color"%string, DXFWriter._rgb_to_aci color))
  /\ (~ In version ["R12"; "R2000"]%string ->
      DXFWriter._get_color_attribs writer color
      = if use_true_color
        then ("true_color"%string, DXFWriter._rgb_to_true_color color)
        else ("color"%string, DXFWriter._rgb_to_aci color)).
Proof.
  cbv zeta. unfold DXFWriter.__init__, DXFWriter._get_color_attribs.
  cbn [DXFWriter.version DXFWriter.use_true_color].
  destruct (version_lookup version) as [Hknown Hunknown]. cbv zeta in Hknown, Hunknown.
  set (v := dict_get String.eqb DXFWriter.VERSION_MAP version "R2010"%string) in *.
  assert (Hdec : In version (map fst DXFWriter.VERSION_MAP)
                 \/ ~ In version (map fst DXFWriter.VERSION_MAP)).
  { destruct (in_dec string_dec version (map fst DXFWriter.VERSION_MAP)); auto. }
  split; [|split; [|split]].
  - destruct Hdec as [H|H].
    + rewrite (Hknown H). exact H.
    + rewrite (Hunknown H). cbn. tauto.
  - exact Hunknown.
  - intro H. destruct H as [<-|[<-|[]]].
    + rewrite Hknown by (left; reflexivity).
      cbn [existsb String.eqb Ascii.eqb Bool.eqb orb negb].
      rewrite andb_false_r. reflexivity.
    + rewrite Hknown by (right; left; reflexivity).
      cbn [existsb String.eqb Ascii.eqb Bool.eqb orb negb].
      rewrite andb_false_r. reflexivity.
  - intro H.
    assert (Hv : existsb (String.eqb v) ["R12"; "R2000"]%string = false).
    { destruct Hdec as [Hk|Hk].
      - rewrite (Hknown Hk). cbn [existsb].
        destruct (String.eqb version "R12") eqn:E1;
          [apply String.eqb_eq in E1; exfalso; apply H; cbn; auto|].
        destruct (String.eqb version "R2000") eqn:E2;
          [apply String.eqb_eq in E2; exfalso; apply H; cbn; auto|].
        reflexivity.
      - rewrite (Hunknown Hk). reflexivity. }
    rewrite Hv. cbn [negb]. rewrite andb_true_r. destruct use_true_color; reflexivity.
Qed.

Lemma writer_color_mode_witness :
  DXFWriter._get_color_attribs (DXFWriter.__init__ "R12" true) (1, 0, 0)
  = ("color"%string, DXFWriter._rgb_to_aci (1, 0, 0))
  /\ DXFWriter.version (DXFWriter.__init__ "R9" true) = "R2010"%string.
Proof.
  split.
  - apply (proj1 (proj2 (proj2 (writer_color_mode "R12" true (1, 0, 0))))).
    cbn. auto.
  - apply (proj1 (proj2 (writer_color_mode "R9" true (1, 0, 0)))).
    cbn. intuition discriminate.
Defined.

Lemma _parse_dash_pattern_range (dashes : Dashes) :
  In (_parse_dash_pattern dashes) [CONTINUOUS; DASHED; DOTTED; DASHDOT].
Proof.
  destruct dashes as [| |p|p]; cbn [_parse_dash_pattern]; try (cbn; tauto);
    destruct p as [|a [|b [|c [|d r]]]];
    try (destruct (ltb a (b * (5 # 10)))); cbn; tauto.
Qed.

(** X23.  [_get_linetype] only names line types the document has: its
    result is "Continuous" or a name for which [has_entry] holds.  For the
    line type parsed from a dash pattern the name is "Continuous",
    "DASHED", "DOT" or "DASHDOT": [_parse_dash_pattern] never yields
    DASHDOT2 or HIDDEN. *)
Theorem linetype_always_available (has_entry : string -> bool) :
  (forall linetype,
      let name := DXFWriter._get_linetype has_entry linetype in
      name = "Continuous"%string \/ has_entry name = true)
  /\ (forall dashes,
         let name := DXFWriter._get_linetype has_entry (_parse_dash_pattern dashes) in
         name = "Continuous"%string
         \/ (has_entry name = true /\ In name ["DASHED"; "DOT"; "DASHDOT"]%string)).
Proof.
  assert (Hgen : forall linetype,
             DXFWriter._get_linetype has_entry linetype = "Continuous"%string
             \/ (has_entry (DXFWriter._get_linetype has_entry linetype) = true
                 /\ DXFWriter._get_linetype has_entry linetype
                    = dict_get LineType_eqb DXFWriter.LINETYPE_MAP linetype
                               "Continuous"%string)).
  { intro linetype. unfold DXFWriter._get_linetype. cbv zeta.
    set (n := dict_get LineType_eqb DXFWriter.LINETYPE_MAP linetype "Continuous"%string).
    destruct (String.eqb n "Continuous") eqn:E.
    - left. cbn [negb andb]. apply String.eqb_eq. exact E.
    - cbn [negb andb]. destruct (has_entry n) eqn:H; cbn [negb]; [right|left]; auto. }
  split.
  - intro linetype. cbv zeta. destruct (Hgen linetype) as [H|[H _]]; auto.
  - intro dashes. cbv zeta.
    destruct (_parse_dash_pattern_range dashes) as [<-|[<-|[<-|[<-|[]]]]].
    + left. reflexivity.
    + destruct (Hgen DASHED) as [H|[H E]]; [left; exact H|].
      right. split; [exact H|]. rewrite E. cbn. tauto.
    + destruct (Hgen DOTTED) as [H|[H E]]; [left; exact H|].
      right. split; [exact H|]. rewrite E. cbn. tauto.
    + destruct (Hgen DASHDOT) as [H|[H E]]; [left; exact H|].
      right. split; [exact H|]. rewrite E. cbn. tauto.
Qed.

(** X24.  Once layer "0" is recorded as created, [_get_or_create_layer]
    returns the requested name or "0" (for an empty name, or when the
    document refuses the layer), never an empty name, and always a name
    recorded in [layers_created]; the set only grows, by the requested name
    at most; and looking the returned name up again changes nothing and
    does not ask the document again. *)
Theorem layer_lookup_is_cached
    (layers_add : string -> outcome unit) (layers_created : list string)
    (layer_name : string) :
  In "0"%string layers_created ->
  let result := DXFWriter._get_or_create_layer layers_add layers_created layer_name in
  (fst result = layer_name \/ fst result = "0"%string)
  /\ fst result <> ""%string
  /\ In (fst result) (snd result)
  /\ (forall l, In l layers_created -> In l (snd result))
  /\ (forall l, In l (snd result) -> l = layer_name \/ In l layers_created)
  /\ (forall other_add,
         DXFWriter._get_or_create_layer other_add (snd result) (fst result) = result).
Proof.
  intro H0. cbv zeta. unfold DXFWriter._get_or_create_layer.
  assert (Hz : existsb (String.eqb "0") layers_created = true).
  { apply existsb_exists. exists "0"%string. split; [exact H0|reflexivity]. }
  destruct (String.eqb layer_name "") eqn:E.
  - cbn [fst snd]. rewrite Hz. cbn [negb].
    repeat split; auto; discriminate.
  - apply String.eqb_neq in E.
    destruct (existsb (String.eqb layer_name) layers_created) eqn:Hin; cbn [negb].
    + cbn [fst snd]. rewrite (proj2 (String.eqb_neq _ _) E), Hin. cbn [negb].
      apply existsb_exists in Hin. destruct Hin as (l & Hl & El).
      apply String.eqb_eq in El. subst l.
      repeat split; auto.
    + destruct (layers_add layer_name) as [u|e]; cbn [fst snd].
      * rewrite (proj2 (String.eqb_neq _ _) E). cbn [existsb].
        rewrite String.eqb_refl. cbn [orb negb].
        repeat split; auto.
        -- left. reflexivity.
        -- intros l Hl. right. exact Hl.
        -- intros l [<-|Hl]; auto.
      * rewrite Hz. cbn [negb].
        repeat split; auto; discriminate.
Qed.

Lemma layer_lookup_is_cached_witness :
  let result :=
    DXFWriter._get_or_create_layer (fun _ => Raised OtherError) ["0"%string]
                                   "Walls"%string in
  (fst result = "Walls"%string \/ fst result = "0"%string)
  /\ fst result <> ""%string
  /\ In (fst result) (snd result)
  /\ (forall l, In l ["0"%string] -> In l (snd result))
  /\ (forall l, In l (snd result) -> l = "Walls"%string \/ In l ["0"%string])
  /\ (forall other_add,
         DXFWriter._get_or_create_layer other_add (snd result) (fst result) = result).
Proof.
  apply (layer_lookup_is_cached (fun _ => Raised OtherError) ["0"%string] "Walls"%string).
  left. reflexivity.
Defined.

(** ** Merging pages *)

Lemma merge_page_count (spacing : Q) (c : ExtractedData.t) (x : Q) (i : nat)
    (page : ExtractedData.t) :
  ExtractedData.get_entity_count (fst (merge_page spacing (c, x) (i, page)))
  = (ExtractedData.get_entity_count c + ExtractedData.get_entity_count page)%nat
  /\ ExtractedData.width (fst (merge_page spacing (c, x) (i, page)))
     = ExtractedData.width c
  /\ ExtractedData.height (fst (merge_page spacing (c, x) (i, page)))
     = ExtractedData.height c
  /\ ExtractedData.layers (fst (merge_page spacing (c, x) (i, page)))
     = ExtractedData.layers c.
Proof.
  unfold merge_page, ExtractedData.get_entity_count. cbn [fst].
  cbn [ExtractedData.lines ExtractedData.arcs ExtractedData.circles
       ExtractedData.ellipses ExtractedData.polylines ExtractedData.splines
       ExtractedData.texts ExtractedData.mtexts ExtractedData.rectangles
       ExtractedData.hatches ExtractedData.images ExtractedData.width
       ExtractedData.height ExtractedData.layers].
  rewrite !length_app, !length_map. repeat split; lia.
Qed.

Lemma merge_fold_count (spacing : Q) (entries : list (nat * ExtractedData.t)) :
  forall (c : ExtractedData.t) (x : Q),
    let merged := fst (fold_left (merge_page spacing) entries (c, x)) in
    ExtractedData.get_entity_count merged
    = (ExtractedData.get_entity_count c + total_entities (map snd entries))%nat
    /\ ExtractedData.width merged = ExtractedData.width c
    /\ ExtractedData.height merged = ExtractedData.height c
    /\ ExtractedData.layers merged = ExtractedData.layers c.
Proof.
  cbv zeta. induction entries as [|[i page] r IH]; intros c x; cbn [fold_left map snd].
  - unfold total_entities. cbn. repeat split; lia.
  - destruct (merge_page spacing (c, x) (i, page)) as [c' x'] eqn:E.
    destruct (IH c' x') as (H1 & H2 & H3 & H4).
    pose proof (merge_page_count spacing c x i page) as (M1 & M2 & M3 & M4).
    rewrite E in M1, M2, M3, M4. cbn [fst] in M1, M2, M3, M4.
    rewrite H1, H2, H3, H4, M1, M2, M3, M4, total_entities_cons.
    repeat split; lia.
Qed.

Lemma map_snd_enumerate {A : Type} (l : list A) : map snd (enumerate l) = l.
Proof.
  unfold enumerate. generalize 0%nat. induction l as [|a r IH]; intro k; [reflexivity|].
  cbn. rewrite IH. reflexivity.
Qed.

(** X25.  [merge_pages_to_dxf] raises [ValueError] on an empty list of
    pages; otherwise it hands to [create_dxf_from_data] a container with as
    many entities as the pages have together, with no page size (0 by 0)
    and no layer table. *)
Theorem merge_keeps_every_entity
    (create_dxf_from_data : ExtractedData.t -> string -> string -> outcome string)
    (pages_data : list ExtractedData.t) (output_path version : string) (spacing : Q) :
  let merged := merge_pages pages_data spacing in
  merge_pages_to_dxf create_dxf_from_data [] output_path version spacing
  = Raised ValueError
  /\ (forall page rest,
         merge_pages_to_dxf create_dxf_from_data (page :: rest) output_path version
                            spacing
         = create_dxf_from_data (merge_pages (page :: rest) spacing) output_path version)
  /\ ExtractedData.get_entity_count merged = total_entities pages_data
  /\ ExtractedData.width merged = 0
  /\ ExtractedData.height merged = 0
  /\ ExtractedData.layers merged = [].
Proof.
  cbv zeta. split; [reflexivity|]. split; [reflexivity|].
  unfold merge_pages.
  destruct (merge_fold_count spacing (enumerate pages_data)
              (ExtractedData.empty 0 0) 0) as (H1 & H2 & H3 & H4).
  cbv zeta in H1. rewrite map_snd_enumerate in H1.
  rewrite H1, H2, H3, H4. repeat split.
Qed.

Lemma merge_page_lines (spacing : Q) (c : ExtractedData.t) (x : Q) (i : nat)
    (page : ExtractedData.t) :
  merge_page spacing (c, x) (i, page)
  = (fst (merge_page spacing (c, x) (i, page)),
     x + (ExtractedData.width page + spacing))
  /\ ExtractedData.lines (fst (merge_page spacing (c, x) (i, page)))
     = ExtractedData.lines c
       ++ map (merged_line x (page_layer i)) (ExtractedData.lines page).
Proof.
  split; reflexivity.
Qed.

Lemma merge_fold_lines (spacing : Q) (l : list ExtractedData.t) :
  forall (k : nat) (c : ExtractedData.t) (x : Q) (m : Line.t),
    In m (ExtractedData.lines
            (fst (fold_left (merge_page spacing)
                            (combine (seq k (List.length l)) l) (c, x))))
    <-> In m (ExtractedData.lines c)
        \/ exists i page line,
             nth_error l i = Some page
             /\ In line (ExtractedData.lines page)
             /\ m = merged_line
                      (fold_left (fun x_offset page =>
                                    x_offset + (ExtractedData.width page + spacing))
                                 (firstn i l) x)
                      (page_layer (k + i)) line.
Proof.
  induction l as [|p r IH]; intros k c x m.
  - cbn. split; [auto|]. intros [H|(i & page & line & H & _)]; [exact H|].
    destruct i; discriminate.
  - cbn [List.length seq combine fold_left].
    destruct (merge_page_lines spacing c x k p) as [E L]. rewrite E.
    rewrite IH, L, in_app_iff, in_map_iff. split.
    + intros [[H|(line & <- & Hl)]|(i & page & line & Hn & Hl & ->)].
      * left. exact H.
      * right. exists 0%nat, p, line. rewrite Nat.add_0_r. repeat split; assumption.
      * right. exists (S i), page, line. rewrite <- Nat.add_succ_comm.
        repeat split; assumption.
    + intros [H|(i & page & line & Hn & Hl & ->)].
      * left. left. exact H.
      * destruct i as [|i].
        -- left. right. injection Hn as <-. exists line. rewrite Nat.add_0_r.
           split; [reflexivity|exact Hl].
        -- right. exists i, page, line. rewrite Nat.add_succ_comm.
           repeat split; assumption.
Qed.

(** X26.  The lines of the merged container are exactly the lines of the
    pages, the lines of page number i (from 0) moved to the right by the
    widths of the pages before it plus one spacing each, and put on layer
    "Page_" followed by i + 1. *)
Theorem merged_lines_layout (pages_data : list ExtractedData.t) (spacing : Q)
    (m : Line.t) :
  In m (ExtractedData.lines (merge_pages pages_data spacing))
  <-> exists i page line,
        nth_error pages_data i = Some page
        /\ In line (ExtractedData.lines page)
        /\ m = merged_line (page_offset pages_data spacing i) (page_layer i) line.
Proof.
  unfold merge_pages, enumerate, page_offset.
  rewrite merge_fold_lines. cbn [ExtractedData.empty ExtractedData.lines In plus].
  split.
  - intros [[]|H]. exact H.
  - intro H. right. exact H.
Qed.

Lemma Forall_firstn' {A : Type} (P : A -> Prop) (n : nat) (l : list A) :
  Forall P l -> Forall P (firstn n l).
Proof.
  intro H. revert n. induction H as [|a r Ha Hr IH]; intro n.
  - rewrite firstn_nil. constructor.
  - destruct n; [constructor|]. cbn [firstn]. constructor; [exact Ha|apply IH].
Qed.

Lemma merge_pages_lines (pages_data : list ExtractedData.t) (spacing : Q)
    (i : nat) (page : ExtractedData.t) (line : Line.t) :
  nth_error pages_data i = Some page ->
  In line (ExtractedData.lines page) ->
  In (merged_line (page_offset pages_data spacing i) (page_layer i) line)
     (ExtractedData.lines (merge_pages pages_data spacing)).
Proof.
  intros Hn Hl. unfold merge_pages, enumerate, page_offset.
  apply merge_fold_lines. right. exists i, page, line. repeat split; assumption.
Qed.

Lemma offset_step_mono (spacing : Q) (l : list ExtractedData.t) :
  0 <= spacing -> Forall (fun page => 0 <= ExtractedData.width page) l ->
  forall x,
    x <= fold_left (fun x_offset page => x_offset + (ExtractedData.width page + spacing))
                   l x.
Proof.
  intros Hs Hl. induction Hl as [|p r Hp Hr IH]; intro x; cbn [fold_left]; [lra|].
  specialize (IH (x + (ExtractedData.width p + spacing))). lra.
Qed.

Lemma page_offset_succ (spacing : Q) (l : list ExtractedData.t) :
  forall (i : nat) (page : ExtractedData.t) (x : Q),
    nth_error l i = Some page ->
    fold_left (fun x_offset page => x_offset + (ExtractedData.width page + spacing))
              (firstn (S i) l) x
    = fold_left (fun x_offset page => x_offset + (ExtractedData.width page + spacing))
                (firstn i l) x
      + (ExtractedData.width page + spacing).
Proof.
  induction l as [|p r IH]; intros i page x Hn.
  - destruct i; discriminate.
  - destruct i as [|i].
    + injection Hn as <-. reflexivity.
    + cbn [firstn fold_left]. exact (IH i page _ Hn).
Qed.

Lemma page_offset_mono (spacing : Q) (l : list ExtractedData.t) :
  0 <= spacing -> Forall (fun page => 0 <= ExtractedData.width page) l ->
  forall (i j : nat) (x : Q),
    (i <= j)%nat ->
    fold_left (fun x_offset page => x_offset + (ExtractedData.width page + spacing))
              (firstn i l) x
    <= fold_left (fun x_offset page => x_offset + (ExtractedData.width page + spacing))
                 (firstn j l) x.
Proof.
  intros Hs Hl. induction Hl as [|p r Hp Hr IH]; intros i j x Hij.
  - rewrite !firstn_nil. cbn. lra.
  - destruct i as [|i].
    + change (firstn 0 (p :: r)) with (@nil ExtractedData.t). cbn [fold_left].
      apply (offset_step_mono spacing (firstn j (p :: r)) Hs).
      apply Forall_firstn'. constructor; assumption.
    + destruct j as [|j]; [lia|]. cbn [firstn fold_left]. apply IH. lia.
Qed.

(** X27.  With a non-negative spacing, non-negative page widths and
    lines that lie on their pages horizontally, the merged copies of the
    lines of a page lie between the offset of that page and the offset of
    the next one, the offsets do not decrease, and so no end point of a
    line of an earlier page lies to the right of an end point of a line of
    a later page. *)
Theorem merged_pages_in_order
    (pages_data : list ExtractedData.t) (spacing : Q)
    (i j : nat) (page_i page_j : ExtractedData.t) (line_i line_j : Line.t) :
  0 <= spacing ->
  Forall (fun page => 0 <= ExtractedData.width page) pages_data ->
  Forall lines_on_page pages_data ->
  (i < j)%nat ->
  nth_error pages_data i = Some page_i ->
  nth_error pages_data j = Some page_j ->
  In line_i (ExtractedData.lines page_i) ->
  In line_j (ExtractedData.lines page_j) ->
  let m_i := merged_line (page_offset pages_data spacing i) (page_layer i) line_i in
  let m_j := merged_line (page_offset pages_data spacing j) (page_layer j) line_j in
  In m_i (ExtractedData.lines (merge_pages pages_data spacing))
  /\ In m_j (ExtractedData.lines (merge_pages pages_data spacing))
  /\ page_offset pages_data spacing i <= Point.x (Line.start m_i)
                                        <= page_offset pages_data spacing (S i)
  /\ page_offset pages_data spacing i <= Point.x (Line.end_ m_i)
                                        <= page_offset pages_data spacing (S i)
  /\ page_offset pages_data spacing (S i) <= page_offset pages_data spacing j
  /\ page_offset pages_data spacing j <= Point.x (Line.start m_j)
  /\ page_offset pages_data spacing j <= Point.x (Line.end_ m_j)
  /\ Point.x (Line.start m_i) <= Point.x (Line.start m_j)
  /\ Point.x (Line.start m_i) <= Point.x (Line.end_ m_j)
  /\ Point.x (Line.end_ m_i) <= Point.x (Line.start m_j)
  /\ Point.x (Line.end_ m_i) <= Point.x (Line.end_ m_j).
Proof.
  intros Hs Hw Hon Hij Hi Hj Hli Hlj. cbv zeta.
  split; [apply (merge_pages_lines _ _ _ _ _ Hi Hli)|].
  split; [apply (merge_pages_lines _ _ _ _ _ Hj Hlj)|].
  assert (Hnext : page_offset pages_data spacing (S i)
                  = page_offset pages_data spacing i
                    + (ExtractedData.width page_i + spacing)).
  { unfold page_offset. apply page_offset_succ. exact Hi. }
  assert (Hmono : page_offset pages_data spacing (S i)
                  <= page_offset pages_data spacing j).
  { unfold page_offset. apply page_offset_mono; [exact Hs|exact Hw|lia]. }
  rewrite Forall_forall in Hon.
  pose proof (Hon page_i (nth_error_In _ _ Hi)) as Hpi.
  pose proof (Hon page_j (nth_error_In _ _ Hj)) as Hpj.
  unfold lines_on_page in Hpi, Hpj. rewrite Forall_forall in Hpi, Hpj.
  destruct (Hpi line_i Hli) as [[A1 A2] [A3 A4]].
  destruct (Hpj line_j Hlj) as [[B1 B2] [B3 B4]].
  unfold merged_line, offset_point. cbn [Line.start Line.end_ Point.x].
  rewrite Hnext in *.
  repeat split; lra.
Qed.

Lemma merged_pages_in_order_witness :
  let pages := [SamplePages.page_a; SamplePages.page_b] in
  let m_i := merged_line (page_offset pages 50 0) (page_layer 0) SamplePages.line_a in
  let m_j := merged_line (page_offset pages 50 1) (page_layer 1) SamplePages.line_b in
  In m_i (ExtractedData.lines (merge_pages pages 50))
  /\ In m_j (ExtractedData.lines (merge_pages pages 50))
  /\ Point.x (Line.end_ m_i) <= Point.x (Line.start m_j).
Proof.
  destruct (merged_pages_in_order [SamplePages.page_a; SamplePages.page_b] 50
              0 1 SamplePages.page_a SamplePages.page_b
              SamplePages.line_a SamplePages.line_b)
    as (H1 & H2 & _ & _ & _ & _ & _ & _ & _ & H3 & _).
  - lra.
  - repeat constructor; cbn; lra.
  - repeat constructor; cbn; lra.
  - lia.
  - reflexivity.
  - reflexivity.
  - left. reflexivity.
  - left. reflexivity.
  - cbv zeta. repeat split; assumption.
Defined.

(** ** Page selection and progress *)

Lemma string_length_append (s1 s2 : string) :
  String.length (s1 ++ s2) = (String.length s1 + String.length s2)%nat.
Proof.
  induction s1 as [|c s1 IH]; cbn; [reflexivity|]. rewrite IH. reflexivity.
Qed.

Lemma str_mul_length (c : ascii) (n : Z) :
  String.length (str_mul (String c EmptyString) n) = Z.to_nat n.
Proof.
  unfold str_mul. induction (Z.to_nat n) as [|k IH]; [reflexivity|].
  cbn [repeat String.concat]. destruct (repeat (String c EmptyString) k) eqn:E.
  - destruct k; [reflexivity|discriminate].
  - rewrite string_length_append. cbn [String.length]. rewrite <- IH.
    cbn [String.append String.length]. reflexivity.
Qed.

(** X28.  For a progress between 0 and 1 the bar drawn by the command
    line is 30 characters wide, with floor(30 * progress) characters "="
    followed by "-"; the progress the converter reports while extracting
    page i of n (i < n) is in [0.1, 0.5). *)
Theorem progress_bar_fixed_width :
  (forall progress,
      0 <= progress <= 1 ->
      String.length (progress_bar progress) = 30%nat
      /\ exists filled,
           (0 <= filled <= 30)%Z
           /\ inject_Z filled <= 30 * progress < inject_Z filled + 1
           /\ progress_bar progress
              = (str_mul "=" filled ++ str_mul "-" (30 - filled))%string)
  /\ (forall i n,
         (0 <= i < n)%Z ->
         exists progress,
           extraction_progress i n = Returned progress
           /\ 1 # 10 <= progress < 5 # 10).
Proof.
  split.
  - intros progress [H0 H1]. unfold progress_bar. cbv zeta.
    change (inject_Z 30) with 30.
    assert (Hq : 0 <= 30 * progress <= 30) by (split; lra).
    set (filled := int (30 * progress)).
    assert (Hf : filled = Qfloor (30 * progress)) by (apply int_nonneg; lra).
    assert (Hr : (0 <= filled <= 30)%Z).
    { rewrite Hf.
      pose proof (Qfloor_resp_le 0 (30 * progress) (proj1 Hq)) as Hlo.
      pose proof (Qfloor_resp_le (30 * progress) 30 (proj2 Hq)) as Hhi.
      change (Qfloor 0) with 0%Z in Hlo. change (Qfloor 30) with 30%Z in Hhi.
      split; assumption. }
    split.
    + rewrite string_length_append, !str_mul_length. lia.
    + exists filled. split; [exact Hr|]. split; [|reflexivity].
      rewrite Hf. split; [apply Qfloor_le|].
      pose proof (Qlt_floor (30 * progress)) as Hlt.
      rewrite inject_Z_plus in Hlt. exact Hlt.
  - intros i n Hin. unfold extraction_progress.
    assert (Hn : 0 < inject_Z n)
      by (change 0 with (inject_Z 0); rewrite <- Zlt_Qlt; lia).
    rewrite div_returned by lra. cbn [bind]. eexists. split; [reflexivity|].
    assert (Hi0 : 0 <= inject_Z i)
      by (change 0 with (inject_Z 0); rewrite <- Zle_Qle; lia).
    assert (Hi1 : inject_Z i < inject_Z n) by (rewrite <- Zlt_Qlt; lia).
    assert (Hr0 : 0 <= inject_Z i / inject_Z n).
    { apply Qle_shift_div_l; [exact Hn|].
      setoid_replace (0 * inject_Z n) with 0 by ring. exact Hi0. }
    assert (Hr1 : inject_Z i / inject_Z n < 1).
    { apply Qlt_shift_div_r; [exact Hn|].
      setoid_replace (1 * inject_Z n) with (inject_Z n) by ring. exact Hi1. }
    split; lra.
Qed.

Lemma progress_bar_fixed_width_witness :
  String.length (progress_bar (1 # 3)) = 30%nat
  /\ exists progress,
       extraction_progress 1 3 = Returned progress /\ 1 # 10 <= progress < 5 # 10.
Proof.
  split.
  - apply (proj1 progress_bar_fixed_width (1 # 3)). split; lra.
  - apply (proj2 progress_bar_fixed_width 1%Z 3%Z). lia.
Defined.

Lemma filter_count (f : Z -> bool) (l : list Z) (p : Z) :
  count_occ Z.eq_dec (filter f l) p = if f p then count_occ Z.eq_dec l p else 0%nat.
Proof.
  induction l as [|a r IH]; cbn [filter count_occ].
  - destruct (f p); reflexivity.
  - destruct (f a) eqn:Ea; cbn [count_occ]; destruct (Z.eq_dec a p) as [->|Hne].
    + rewrite IH, Ea. reflexivity.
    + exact IH.
    + rewrite IH, Ea. reflexivity.
    + exact IH.
Qed.

(** X29.  For a document with at least one page, the pages selected for
    processing are all valid page numbers.  An explicit list of pages is
    filtered whatever the page mode, keeping repetitions and order: a valid
    page of the list is selected between what is selected of the pages
    before it and of the pages after it.  With no list, mode SINGLE selects
    page 0 alone and the other modes select every page once. *)
Theorem pages_to_process_valid
    (pages : option (list Z)) (page_mode : PageMode) (page_count : Z) :
  (0 < page_count)%Z ->
  let selected := pages_to_process pages page_mode page_count in
  Forall (fun p => (0 <= p < page_count)%Z) selected
  /\ (forall requested p,
         pages = Some requested ->
         count_occ Z.eq_dec selected p
         = if (0 <=? p)%Z && (p <? page_count)%Z
           then count_occ Z.eq_dec requested p else 0%nat)
  /\ (forall before p after,
         pages = Some (before ++ p :: after) ->
         (0 <= p < page_count)%Z ->
         selected
         = pages_to_process (Some before) page_mode page_count
           ++ p :: pages_to_process (Some after) page_mode page_count)
  /\ (pages = None -> page_mode = SINGLE -> selected = [0%Z])
  /\ (pages = None -> page_mode <> SINGLE ->
      selected = range page_count /\ Z.of_nat (List.length selected) = page_count).
Proof.
  intro Hn. cbv zeta. unfold pages_to_process.
  split; [|split; [|split; [|split]]].
  - destruct pages as [ps|].
    + apply Forall_forall. intros p Hp. apply filter_In in Hp. destruct Hp as [_ Hp].
      apply andb_true_iff in Hp. destruct Hp as [H0 H1].
      apply Z.leb_le in H0. apply Z.ltb_lt in H1. lia.
    + destruct page_mode.
      * constructor; [lia|constructor].
      * apply Forall_forall. intros p Hp. apply In_range in Hp. exact Hp.
      * apply Forall_forall. intros p Hp. apply In_range in Hp. exact Hp.
  - intros requested p ->. apply filter_count.
  - intros before p after -> Hp. rewrite filter_app. cbn [filter].
    assert (E : (0 <=? p)%Z && (p <? page_count)%Z = true).
    { apply andb_true_iff. split; [apply Z.leb_le|apply Z.ltb_lt]; lia. }
    rewrite E. reflexivity.
  - intros -> ->. reflexivity.
  - intros -> Hm. destruct page_mode; [contradiction| |];
      (split; [reflexivity|apply range_length; lia]).
Qed.

Lemma pages_to_process_valid_witness :
  Forall (fun p => (0 <= p < 3)%Z) (pages_to_process (Some [0; 5; 2; 2; -1]%Z) SINGLE 3)
  /\ pages_to_process (Some [0; 5; 2; 2; -1]%Z) SINGLE 3 = [0; 2; 2]%Z.
Proof.
  split; [|reflexivity].
  apply (proj1 (pages_to_process_valid (Some [0; 5; 2; 2; -1]%Z) SINGLE 3 ltac:(lia))).
Defined.
